(** * sdh: key-conditioned deep hiding (networks.py, utils/util.py)

    A shallow embedding of the hiding network construction, the key
    injection, the attack layer and the training forward pass, together
    with the properties stated about them.

    Conventions.
    - A Python call either returns, raises, or (for the resampling loop
      of [forward_pass]) is cut off by the fuel of the model: [outcome].
    - A rank-4 torch tensor is its [size] together with its images
      (batch, channel, row, column); scalars are kept abstract in the
      class [Scalar], so no property depends on floating-point rounding.
    - Learned or random modules (convolution stacks, noise layers, the
      loss) are functions received as arguments. *)

From Stdlib Require Import String List ZArith NArith Lia Bool Arith PeanoNat.
Import ListNotations.

Local Open Scope string_scope.
Local Open Scope list_scope.
Local Open Scope nat_scope.

Infix "==" := String.eqb (at level 70, no associativity).

(** ** Python exceptions and call outcomes *)

Inductive exn : Type :=
| NotImplementedError (msg : string)
| AssertionError (msg : string)
| UnboundLocalError (var : string)
| RuntimeError (msg : string)
| TypeError (msg : string)
| ValueError (msg : string)
| ZeroDivisionError.

Inductive outcome (A : Type) : Type :=
| Ret (a : A)
| Raise (e : exn)
| OutOfFuel.

Arguments Ret {A} a.
Arguments Raise {A} e.
Arguments OutOfFuel {A}.

Definition bind {A B : Type} (m : outcome A) (k : A -> outcome B) : outcome B :=
  match m with
  | Ret a => k a
  | Raise e => Raise e
  | OutOfFuel => OutOfFuel
  end.

Declare Scope py_scope.
Delimit Scope py_scope with py.
Notation "x <- m ;; k" := (bind m (fun x => k))
  (at level 100, m at next level, right associativity) : py_scope.
Notation "' p <- m ;; k" := (bind m (fun p => k))
  (at level 100, p pattern, m at next level, right associativity) : py_scope.
Local Open Scope py_scope.

(** [assert cond, msg] *)
Definition py_assert (cond : bool) (msg : string) : outcome unit :=
  if cond then Ret tt else Raise (AssertionError msg).

(** ['prefix [%s] is not found' % v] *)
Definition not_found (what v : string) : string :=
  String.append what (String.append " [" (String.append v "] is not found")).

Definition is_NotImplementedError {A : Type} (o : outcome A) : bool :=
  match o with
  | Raise (NotImplementedError _) => true
  | _ => false
  end.

(** ** Scalars and rank-4 tensors *)

Class Scalar (R : Type) : Type := {
  sint : Z -> R;            (* float(n) *)
  sadd : R -> R -> R;
  ssub : R -> R -> R;
  smul : R -> R -> R;
  sdiv : R -> R -> R;
  sabs : R -> R
}.

Definition shape : Type := (nat * nat * nat * nat)%type.

Section Tensors.
Context {R : Type}.

Definition image : Type := list (list (list R)).

Record Tensor4 : Type := mkT { size : shape; imgs : list image }.

Definition image_ok (c h w : nat) (im : image) : bool :=
  (length im =? c)
  && forallb (fun ch => (length ch =? h)
                        && forallb (fun row => length row =? w) ch) im.

(** The images agree with the recorded size. *)
Definition wf (t : Tensor4) : bool :=
  let '(b, c, h, w) := size t in
  (length (imgs t) =? b) && forallb (image_ok c h w) (imgs t).

Definition chw (t : Tensor4) : nat * nat * nat :=
  let '(_, c, h, w) := size t in (c, h, w).

Definition chw_eqb (s1 s2 : nat * nat * nat) : bool :=
  let '(c1, h1, w1) := s1 in
  let '(c2, h2, w2) := s2 in
  (c1 =? c2) && (h1 =? h2) && (w1 =? w2).

Definition batch (t : Tensor4) : nat := let '(b, _, _, _) := size t in b.

(** [X[lo:hi]] on the batch dimension, [0 <= lo], [0 <= hi]. *)
Definition tslice (lo hi : nat) (X : Tensor4) : Tensor4 :=
  let '(b, c, h, w) := size X in
  mkT (Nat.min hi b - Nat.min lo b, c, h, w)
      (firstn (hi - lo) (skipn lo (imgs X))).

(** [X[lo:]] *)
Definition tslice_from (lo : nat) (X : Tensor4) : Tensor4 :=
  let '(b, c, h, w) := size X in
  mkT (b - Nat.min lo b, c, h, w) (skipn lo (imgs X)).

(** [X[:hi]] *)
Definition tslice_to (hi : nat) (X : Tensor4) : Tensor4 := tslice 0 hi X.

(** [torch.cat(ts, dim=0)]: the sizes must agree outside dimension 0. *)
Definition cat0 (ts : list Tensor4) : outcome Tensor4 :=
  match ts with
  | [] => Raise (RuntimeError "torch.cat(): expected a non-empty list of Tensors")
  | t0 :: _ =>
      if forallb (fun t => chw_eqb (chw t) (chw t0)) ts then
        let '(c, h, w) := chw t0 in
        Ret (mkT (list_sum (map batch ts), c, h, w) (concat (map imgs ts)))
      else
        Raise (RuntimeError "Sizes of tensors must match except in dimension 0")
  end.

End Tensors.

Arguments Tensor4 R : clear implicits.
Arguments image R : clear implicits.

(** ** networks.py: [get_norm_layer] *)

Inductive norm_layer : Type :=
| BatchNorm2d      (* partial(nn.BatchNorm2d, affine=True, track_running_stats=False) *)
| InstanceNorm2d   (* partial(nn.InstanceNorm2d, affine=False, track_running_stats=False) *)
| IdentityNorm.    (* lambda x: Identity() *)

Definition get_norm_layer (norm_type : string) : outcome norm_layer :=
  if norm_type == "batch" then Ret BatchNorm2d
  else if norm_type == "instance" then Ret InstanceNorm2d
  else if norm_type == "none" then Ret IdentityNorm
  else Raise (NotImplementedError (not_found "normalization layer" norm_type)).

(** ** networks.py: [AttackNet] *)

Section AttackNet.
Context {R : Type}.

(** The five noise layers come from the module [noise_layers]; each is
    called at most once per [forward], so one call is a function of its
    input slice. *)
Record AttackNet : Type := mkAttackNet {
  noise_type : string;
  identity : Tensor4 R -> Tensor4 R;
  gaussian_noise : Tensor4 R -> Tensor4 R;
  gaussian_blur : Tensor4 R -> Tensor4 R;
  resize : Tensor4 R -> Tensor4 R;
  jpeg : Tensor4 R -> Tensor4 R
}.

Definition AttackNet_forward (self : AttackNet) (X : Tensor4 R)
  : outcome (Tensor4 R) :=
  let b := batch X in
  if noise_type self == "combine" then
    let X_identity := identity self (tslice_to (b / 5) X) in
    let X_gaussian_noise := gaussian_noise self (tslice (b / 5) (2 * b / 5) X) in
    let X_gaussian_blur := gaussian_blur self (tslice (2 * b / 5) (3 * b / 5) X) in
    let X_resize := resize self (tslice (3 * b / 5) (4 * b / 5) X) in
    let X_jpeg := jpeg self (tslice_from (4 * b / 5) X) in
    cat0 [X_identity; X_gaussian_noise; X_gaussian_blur; X_resize; X_jpeg]
  else
    let X_identity := identity self (tslice_to (2 * b / 5) X) in
    (* the local X_noise is bound only on the four recognised branches:
       the last branch builds a NotImplementedError and drops it *)
    let X_noise : option (Tensor4 R) :=
      if noise_type self == "noise" then
        Some (gaussian_noise self (tslice_from (2 * b / 5) X))
      else if noise_type self == "blur" then
        Some (gaussian_blur self (tslice_from (2 * b / 5) X))
      else if noise_type self == "resize" then
        Some (resize self (tslice_from (2 * b / 5) X))
      else if noise_type self == "jpeg" then
        Some (jpeg self (tslice_from (2 * b / 5) X))
      else
        let _ := NotImplementedError (not_found "noise type" (noise_type self)) in
        None in
    match X_noise with
    | Some X_noise => cat0 [X_identity; X_noise]
    | None => Raise (UnboundLocalError "X_noise")
    end.

(** The transform selected by a single-mode noise type. *)
Definition single_transform (self : AttackNet) (nt : string)
  : option (Tensor4 R -> Tensor4 R) :=
  if nt == "noise" then Some (gaussian_noise self)
  else if nt == "blur" then Some (gaussian_blur self)
  else if nt == "resize" then Some (resize self)
  else if nt == "jpeg" then Some (jpeg self)
  else None.

(** A layer that returns a well-formed tensor of the size it was given. *)
Definition preserves_shape (f : Tensor4 R -> Tensor4 R) : Prop :=
  forall x, wf x = true -> wf (f x) = true /\ size (f x) = size x.

End AttackNet.

Arguments AttackNet R : clear implicits.

(** ** networks.py: layers and the U-Net blocks *)

(** Layer descriptors.  Activation slopes and in-place flags do not
    influence anything stated below and are left out. *)
Inductive layer : Type :=
| Conv2d (in_channels out_channels kernel_size stride padding : nat) (bias : bool)
| ConvTranspose2d (in_channels out_channels kernel_size stride padding : nat) (bias : bool)
| LeakyReLU
| ReLU
| Tanh
| Sigmoid
| Norm (kind : norm_layer) (num_features : nat)
| Dropout
| NoModule.   (* a None entry of nn.Sequential *)

(** [nn.Linear(in_features, out_features)] *)
Definition linear : Type := (nat * nat)%type.

(** A block holds [nn.Sequential(down + [submodule] + up)]; the innermost
    block has no submodule entry.  [nn.Sequential] accepts a [None]
    entry, which fails when the sequence is called: a [None] passed for
    the submodule of an outermost or intermediate block is kept as the
    entry [NoModule] at the end of [down]. *)
#[warnings="-register-all"]
Inductive UnetSkipConnectionBlock : Type :=
  mkBlock {
    outmost : bool;
    redundance_size : option nat;
    encoder : option linear;
    down : list layer;
    submodule : option UnetSkipConnectionBlock;
    up : list layer
  }.

Definition use_bias_of (norm : norm_layer) : bool :=
  match norm with BatchNorm2d => false | _ => true end.

Definition UnetSkipConnectionBlock_init
    (outer_nc inner_nc : nat) (input_nc : option nat)
    (submodule : option UnetSkipConnectionBlock) (outermost innermost : bool)
    (norm : norm_layer) (use_dropout : bool) (output_function : string)
    (key_len redundance_size : option nat)
  : outcome UnetSkipConnectionBlock :=
  let use_bias := use_bias_of norm in
  let input_nc := match input_nc with None => outer_nc | Some n => n end in
  ' (downconv, encoder) <-
      match key_len with
      | None => Ret (Conv2d input_nc inner_nc 4 2 1 use_bias, None)
      | Some key_len =>
          _ <- py_assert outermost "" ;;
          match redundance_size with
          | None => Raise (TypeError "unsupported operand type(s) for ** or pow(): 'NoneType' and 'int'")
          | Some r =>
              Ret (Conv2d (input_nc * 2) inner_nc 4 2 1 use_bias,
                   Some (key_len, r ^ 2 * input_nc))
          end
      end ;;
  let downrelu := LeakyReLU in
  let downnorm := Norm norm inner_nc in
  let uprelu := ReLU in
  let upnorm := Norm norm outer_nc in
  (* down + [submodule] *)
  let with_sub (down : list layer) : list layer :=
    match submodule with
    | Some _ => down
    | None => down ++ [NoModule]
    end in
  if outermost then
    let upconv := ConvTranspose2d (inner_nc * 2) outer_nc 4 2 1 true in
    let down := [downconv] in
    up <- (if output_function == "tanh" then Ret [uprelu; upconv; Tanh]
           else if output_function == "sigmoid" then Ret [uprelu; upconv; Sigmoid]
           else Raise (NotImplementedError (not_found "activation funciton" output_function))) ;;
    Ret (mkBlock outermost redundance_size encoder (with_sub down) submodule up)
  else if innermost then
    let upconv := ConvTranspose2d inner_nc outer_nc 4 2 1 use_bias in
    let down := [downrelu; downconv] in
    let up := [uprelu; upconv; upnorm] in
    Ret (mkBlock outermost redundance_size encoder down None up)
  else
    let upconv := ConvTranspose2d (inner_nc * 2) outer_nc 4 2 1 use_bias in
    let down := [downrelu; downconv; downnorm] in
    let up := [uprelu; upconv; upnorm] in
    if use_dropout then
      Ret (mkBlock outermost redundance_size encoder (with_sub down) submodule
             (up ++ [Dropout]))
    else
      Ret (mkBlock outermost redundance_size encoder (with_sub down) submodule up).

(** [for i in range(n): x = body(x)] *)
Fixpoint for_range {A : Type} (n : nat) (body : A -> outcome A) (x : A) : outcome A :=
  match n with
  | O => Ret x
  | S n' => x' <- body x ;; for_range n' body x'
  end.

Section UnetGenerator.
Context {R : Type} `{Scalar R}.

Record UnetGenerator : Type := mkUnet {
  model : UnetSkipConnectionBlock;
  factor : R
}.

(** [range(num_downs - 5)] is empty when [num_downs <= 5]. *)
Definition UnetGenerator_init
    (input_nc output_nc : nat) (num_downs : Z) (nhf : nat)
    (norm_type : string) (use_dropout : bool) (output_function : string)
    (key_len redundance_size : option nat)
  : outcome UnetGenerator :=
  norm_layer <- get_norm_layer norm_type ;;
  unet_block <- UnetSkipConnectionBlock_init (nhf * 8) (nhf * 8) None None
                  false true norm_layer false "sigmoid" None None ;;
  unet_block <- for_range (Z.to_nat (num_downs - 5))
                  (fun unet_block =>
                     UnetSkipConnectionBlock_init (nhf * 8) (nhf * 8) None
                       (Some unet_block) false false norm_layer use_dropout
                       "sigmoid" None None)
                  unet_block ;;
  unet_block <- UnetSkipConnectionBlock_init (nhf * 4) (nhf * 8) None
                  (Some unet_block) false false norm_layer false "sigmoid" None None ;;
  unet_block <- UnetSkipConnectionBlock_init (nhf * 2) (nhf * 4) None
                  (Some unet_block) false false norm_layer false "sigmoid" None None ;;
  unet_block <- UnetSkipConnectionBlock_init nhf (nhf * 2) None
                  (Some unet_block) false false norm_layer false "sigmoid" None None ;;
  model <- UnetSkipConnectionBlock_init output_nc nhf (Some input_nc)
             (Some unet_block) true false norm_layer false output_function
             key_len redundance_size ;;
  if output_function == "tanh" then
    Ret (mkUnet model (sdiv (sint 10) (sint 255)))
  else if output_function == "sigmoid" then
    Ret (mkUnet model (sint 1))
  else
    Raise (NotImplementedError (not_found "activation funciton" output_function)).

(** [factor * t] *)
Definition tscale (a : R) (t : Tensor4 R) : Tensor4 R :=
  mkT (size t) (map (map (map (map (smul a)))) (imgs t)).

(** [UnetGenerator.forward]; [run] evaluates the block tree held in
    [self.model] with its current weights. *)
Definition UnetGenerator_forward
    (run : UnetSkipConnectionBlock -> Tensor4 R -> option (list R) -> outcome (Tensor4 R))
    (self : UnetGenerator) (X : Tensor4 R) (k : option (list R))
  : outcome (Tensor4 R) :=
  y <- run (model self) X k ;;
  Ret (tscale (factor self) y).

End UnetGenerator.

Arguments UnetGenerator R : clear implicits.

(** ** networks.py: [RevealNet] *)

Record RevealNet : Type := mkReveal {
  r_redundance_size : option nat;
  r_encoder : option linear;
  conv1 : layer; conv2 : layer; conv3 : layer;
  conv4 : layer; conv5 : layer; conv6 : layer;
  output : layer;
  relu : layer;
  norm1 : layer; norm2 : layer; norm3 : layer; norm4 : layer; norm5 : layer
}.

Definition RevealNet_init (input_nc output_nc nrf : nat) (norm_type output_function : string)
    (key_len redundance_size : option nat) : outcome RevealNet :=
  ' (conv1, encoder) <-
      match key_len with
      | None => Ret (Conv2d input_nc nrf 3 1 1 true, None)
      | Some key_len =>
          match redundance_size with
          | None => Raise (TypeError "unsupported operand type(s) for ** or pow(): 'NoneType' and 'int'")
          | Some r => Ret (Conv2d (input_nc * 2) nrf 3 1 1 true,
                           Some (key_len, r ^ 2 * input_nc))
          end
      end ;;
  let conv2 := Conv2d nrf (nrf * 2) 3 1 1 true in
  let conv3 := Conv2d (nrf * 2) (nrf * 4) 3 1 1 true in
  let conv4 := Conv2d (nrf * 4) (nrf * 2) 3 1 1 true in
  let conv5 := Conv2d (nrf * 2) nrf 3 1 1 true in
  let conv6 := Conv2d nrf output_nc 3 1 1 true in
  output <- (if output_function == "sigmoid" then Ret Sigmoid
             else Raise (NotImplementedError (not_found "activation funciton" output_function))) ;;
  let relu := ReLU in
  norm_layer <- get_norm_layer norm_type ;;
  Ret (mkReveal redundance_size encoder conv1 conv2 conv3 conv4 conv5 conv6
         output relu
         (Norm norm_layer nrf) (Norm norm_layer (nrf * 2)) (Norm norm_layer (nrf * 4))
         (Norm norm_layer (nrf * 2)) (Norm norm_layer nrf)).

(** ** Key injection (both [forward] methods), on tensor data *)

(** [h // r] on Python ints *)
Definition floordiv (h r : nat) : outcome nat :=
  if r =? 0 then Raise ZeroDivisionError else Ret (h / r).

(** [count] consecutive pieces of length [n] *)
Fixpoint chunks {A : Type} (n count : nat) (l : list A) : list (list A) :=
  match count with
  | O => []
  | S count' => firstn n l :: chunks n count' (skipn n l)
  end.

(** [n] copies of a list, one after the other *)
Definition tile {A : Type} (n : nat) (l : list A) : list A := concat (repeat l n).

Definition zip_app {A : Type} (xs ys : list (list A)) : list (list A) :=
  map (fun p => fst p ++ snd p) (combine xs ys).

Definition dim1_msg : string := "Sizes of tensors must match except in dimension 1".

Section KeyInjection.
Context {R : Type} `{Scalar R}.

(** The weights of an [nn.Linear]: one row of [weight] per output. *)
Record Linear : Type := mkLinear {
  in_features : nat;
  out_features : nat;
  weight : list (list R);
  bias : list R
}.

Definition Linear_ok (L : Linear) : bool :=
  (length (weight L) =? out_features L)
  && (length (bias L) =? out_features L)
  && forallb (fun row => length row =? in_features L) (weight L).

Definition dot (u v : list R) : R :=
  fold_left sadd (map (fun p => smul (fst p) (snd p)) (combine u v)) (sint 0).

(** [encoder(k)] for a rank-1 key *)
Definition Linear_apply (L : Linear) (k : list R) : outcome (list R) :=
  if length k =? in_features L then
    Ret (map (fun p => sadd (dot (fst p) k) (snd p)) (combine (weight L) (bias L)))
  else
    Raise (RuntimeError "mat1 and mat2 shapes cannot be multiplied").

(** [v.view(b, c, h, w)] of a contiguous rank-1 tensor *)
Definition view4 (v : list R) (s : shape) : outcome (Tensor4 R) :=
  let '(b, c, h, w) := s in
  if length v =? b * c * h * w then
    Ret (mkT s (chunks c b (chunks h (b * c) (chunks w (b * c * h) v))))
  else
    Raise (RuntimeError "shape is invalid for input size").

(** [t.repeat(rb, rc, rh, rw)] *)
Definition repeat4 (t : Tensor4 R) (rb rc rh rw : nat) : Tensor4 R :=
  let '(b, c, h, w) := size t in
  mkT (b * rb, c * rc, h * rh, w * rw)
      (tile rb (map (fun im => tile rc (map (fun ch => tile rh (map (tile rw) ch)) im))
                    (imgs t))).

Definition bhw (t : Tensor4 R) : nat * nat * nat :=
  let '(b, _, h, w) := size t in (b, h, w).

Definition channels (t : Tensor4 R) : nat := let '(_, c, _, _) := size t in c.

(** [torch.cat(ts, dim=1)]: the sizes must agree outside dimension 1. *)
Definition cat1 (ts : list (Tensor4 R)) : outcome (Tensor4 R) :=
  match ts with
  | [] => Raise (RuntimeError "torch.cat(): expected a non-empty list of Tensors")
  | t0 :: rest =>
      if forallb (fun t => chw_eqb (bhw t) (bhw t0)) ts then
        let '(b, h, w) := bhw t0 in
        Ret (mkT (b, list_sum (map channels ts), h, w)
                 (fold_left (fun acc t => zip_app acc (imgs t)) rest (imgs t0)))
      else
        Raise (RuntimeError dim1_msg)
  end.

(** [self.encoder(k).view(1, c, r, r).repeat(b, 1, h//r, w//r)] with
    [b, c, h, w = x.size()] and [r = self.redundance_size] *)
Definition key_tile (redundance_size : option nat) (encoder : option Linear)
    (x : Tensor4 R) (k : list R) : outcome (Tensor4 R) :=
  let '(b, c, h, w) := size x in
  match encoder with
  | None => Raise (TypeError "'NoneType' object is not callable")
  | Some encoder =>
      e <- Linear_apply encoder k ;;
      match redundance_size with
      | None => Raise (TypeError "view(): argument 'size' must be tuple of ints")
      | Some r =>
          v <- view4 e (1, c, r, r) ;;
          hr <- floordiv h r ;;
          wr <- floordiv w r ;;
          Ret (repeat4 v b 1 hr wr)
      end
  end.

(** [torch.cat((x, ke), dim=1)] with [ke] the key tile *)
Definition inject_key (redundance_size : option nat) (encoder : option Linear)
    (x : Tensor4 R) (k : list R) : outcome (Tensor4 R) :=
  ke <- key_tile redundance_size encoder x k ;;
  cat1 [x; ke].

(** [UnetSkipConnectionBlock.forward]; [model] is [self.model]. *)
Definition UnetSkipConnectionBlock_forward
    (outmost : bool) (redundance_size : option nat) (encoder : option Linear)
    (model : Tensor4 R -> outcome (Tensor4 R))
    (x : Tensor4 R) (k : option (list R)) : outcome (Tensor4 R) :=
  if outmost then
    match k with
    | None => model x
    | Some k =>
        xk <- inject_key redundance_size encoder x k ;;
        model xk
    end
  else
    y <- model x ;;
    cat1 [x; y].

(** [RevealNet.forward]; [convs] is the chain conv1 .. conv6 with its
    norms and activations. *)
Definition RevealNet_forward
    (redundance_size : option nat) (encoder : option Linear)
    (convs : Tensor4 R -> outcome (Tensor4 R))
    (X : Tensor4 R) (k : option (list R)) : outcome (Tensor4 R) :=
  X <- match k with
       | Some k => inject_key redundance_size encoder X k
       | None => Ret X
       end ;;
  convs X.

End KeyInjection.

Arguments Linear R : clear implicits.

(** ** Sizes through the networks *)

Definition conv_out (h kernel_size stride padding : nat) : nat :=
  (h + 2 * padding - kernel_size) / stride + 1.

Definition convT_out (h kernel_size stride padding : nat) : nat :=
  (h * stride + kernel_size) - stride - 2 * padding.

Definition weight_dim0_msg : string :=
  "expected weight to be at least 1 at dimension 0".

(** The size a layer returns, or the error torch raises.  A convolution
    first checks that its weight, of size [out_channels, in_channels, k, k]
    (for a transposed one [in_channels, out_channels, k, k]), is not empty
    along its first dimension, then the channels of the input, then the
    kernel against the padded input.  Both normalizations are built with
    [track_running_stats=False] and so use the statistics of the input in
    every mode: batch normalization needs more than one value per
    channel, instance normalization more than one spatial element.
    The returned sizes are torch's documented ones; its special cases
    for an empty batch and for tensors without channels are not
    modelled, and the statements that a call returns assume neither. *)
Definition layer_size (l : layer) (s : shape) : outcome shape :=
  let '(b, c, h, w) := s in
  match l with
  | Conv2d ic oc k st p _ =>
      if oc =? 0 then Raise (RuntimeError weight_dim0_msg)
      else if negb (c =? ic) then
        Raise (RuntimeError "expected input to have in_channels channels")
      else if (h + 2 * p <? k) || (w + 2 * p <? k) then
        Raise (RuntimeError "Kernel size can't be greater than actual input size")
      else Ret (b, oc, conv_out h k st p, conv_out w k st p)
  | ConvTranspose2d ic oc k st p _ =>
      if ic =? 0 then Raise (RuntimeError weight_dim0_msg)
      else if negb (c =? ic) then
        Raise (RuntimeError "expected input to have in_channels channels")
      else Ret (b, oc, convT_out h k st p, convT_out w k st p)
  | Norm BatchNorm2d nf =>
      if b * h * w =? 1 then
        Raise (ValueError "Expected more than 1 value per channel when training")
      else if c =? nf then Ret s
      else Raise (RuntimeError "weight should contain num_features elements")
  | Norm InstanceNorm2d _ =>
      if h * w =? 1 then
        Raise (ValueError "Expected more than 1 spatial element when training")
      else Ret s
  | Norm IdentityNorm _ | LeakyReLU | ReLU | Tanh | Sigmoid | Dropout => Ret s
  | NoModule => Raise (TypeError "'NoneType' object is not callable")
  end.

(** [nn.Sequential] *)
Fixpoint seq_size (ls : list layer) (s : shape) : outcome shape :=
  match ls with
  | [] => Ret s
  | l :: ls' => s' <- layer_size l s ;; seq_size ls' s'
  end.

Definition cat1_size (s1 s2 : shape) : outcome shape :=
  let '(b1, c1, h1, w1) := s1 in
  let '(b2, c2, h2, w2) := s2 in
  if (b1 =? b2) && (h1 =? h2) && (w1 =? w2) then Ret (b1, c1 + c2, h1, w1)
  else Raise (RuntimeError dim1_msg).

(** Size of [torch.cat((x, ke), dim=1)] for a key of [key_len] entries. *)
Definition inject_key_size (redundance_size : option nat) (encoder : option linear)
    (x : shape) (key_len : nat) : outcome shape :=
  let '(b, c, h, w) := x in
  match encoder with
  | None => Raise (TypeError "'NoneType' object is not callable")
  | Some (in_f, out_f) =>
      if negb (key_len =? in_f) then
        Raise (RuntimeError "mat1 and mat2 shapes cannot be multiplied")
      else
        match redundance_size with
        | None => Raise (TypeError "view(): argument 'size' must be tuple of ints")
        | Some r =>
            if negb (out_f =? 1 * c * r * r) then
              Raise (RuntimeError "shape is invalid for input size")
            else
              hr <- floordiv h r ;;
              wr <- floordiv w r ;;
              cat1_size x (1 * b, c * 1, r * hr, r * wr)
        end
  end.

(** [UnetSkipConnectionBlock.forward] on sizes; [k] is the key length. *)
Fixpoint block_size (self : UnetSkipConnectionBlock) (x : shape) (k : option nat)
  : outcome shape :=
  let model (x : shape) : outcome shape :=
    x <- seq_size (down self) x ;;
    x <- match submodule self with
         | Some sub => block_size sub x None
         | None => Ret x
         end ;;
    seq_size (up self) x in
  if outmost self then
    match k with
    | None => model x
    | Some key_len =>
        xk <- inject_key_size (redundance_size self) (encoder self) x key_len ;;
        model xk
    end
  else
    y <- model x ;;
    cat1_size x y.

Definition UnetGenerator_size {R : Type} (self : UnetGenerator R)
    (X : shape) (k : option nat) : outcome shape :=
  block_size (model self) X k.

Definition RevealNet_size (self : RevealNet) (X : shape) (k : option nat)
  : outcome shape :=
  X <- match k with
       | Some key_len =>
           inject_key_size (r_redundance_size self) (r_encoder self) X key_len
       | None => Ret X
       end ;;
  seq_size [conv1 self; norm1 self; relu self;
            conv2 self; norm2 self; relu self;
            conv3 self; norm3 self; relu self;
            conv4 self; norm4 self; relu self;
            conv5 self; norm5 self; relu self;
            conv6 self; output self] X.

(** The sizes a normalization layer accepts: batch normalization sees
    [b * h * w] values per channel, instance normalization [h * w]
    spatial elements, and each refuses exactly one. *)
Definition norm_accepts (norm : norm_layer) (b h w : nat) : Prop :=
  match norm with
  | BatchNorm2d => b * h * w <> 1
  | InstanceNorm2d => h * w <> 1
  | IdentityNorm => True
  end.

(** The chain of blocks from the outermost to the innermost one. *)
Fixpoint blocks_of (blk : UnetSkipConnectionBlock) : list UnetSkipConnectionBlock :=
  blk :: match submodule blk with
         | Some sub => blocks_of sub
         | None => []
         end.

(** Channels (in, out) of the strided convolution of a block. *)
Definition downconv_width (blk : UnetSkipConnectionBlock) : option (nat * nat) :=
  match filter (fun l => match l with Conv2d _ _ _ _ _ _ => true | _ => false end)
               (down blk) with
  | Conv2d ic oc _ _ _ _ :: _ => Some (ic, oc)
  | _ => None
  end.

Definition is_innermost (blk : UnetSkipConnectionBlock) : bool :=
  match submodule blk with None => true | Some _ => false end.

(** ** utils/util.py: [AverageMeter] *)

Section Training.
Context {R : Type} `{Scalar R}.

(** Every call of [update] in this program passes an int for [n], so
    the count stays an int. *)
Record AverageMeter : Type := mkMeter {
  val : R; avg : R; sum : R; count : Z
}.

Definition AverageMeter_reset : AverageMeter :=
  mkMeter (sint 0) (sint 0) (sint 0) 0%Z.

(** [update(val, n)]; [self.sum / self.count] raises when the count is 0. *)
Definition AverageMeter_update (self : AverageMeter) (v : R) (n : Z)
  : outcome AverageMeter :=
  let sum' := sadd (sum self) (smul v (sint n)) in
  let count' := (count self + n)%Z in
  if (count' =? 0)%Z then Raise ZeroDivisionError
  else Ret (mkMeter v (sdiv sum' (sint count')) sum' count').

(** ** utils/util.py: [forward_pass] *)

(** The successive values of [torch.randn(1) < 0]; a position in the
    sequence is the state of the generator. *)
Definition rng : Type := nat -> bool.

(** [[float(torch.randn(1)<0) for _ in range(w)]], kept as booleans:
    [float(True) = 1.0] and [float(False) = 0.0], so [torch.equal] on
    two such tensors of one length is equality of the boolean lists. *)
Definition draw_key (rnd : rng) (pos w : nat) : list bool * nat :=
  (map rnd (seq pos w), pos + w).

Definition key_equal (k1 k2 : list bool) : bool :=
  if list_eq_dec Bool.bool_dec k1 k2 then true else false.

Definition key_tensor (k : list bool) : list R :=
  map (fun bit : bool => if bit then sint 1 else sint 0) k.

(** [while torch.equal(fake_key, key): fake_key = ...] *)
Fixpoint resample (fuel : nat) (rnd : rng) (w : nat) (key fake_key : list bool)
    (pos : nat) : outcome (list bool * nat) :=
  if key_equal fake_key key then
    match fuel with
    | O => OutOfFuel
    | S fuel' =>
        let '(fake_key, pos) := draw_key rnd pos w in
        resample fuel' rnd w key fake_key pos
    end
  else Ret (fake_key, pos).

(** Lines 236-239: the key and the fake key. *)
Definition sample_keys (fuel : nat) (rnd : rng) (pos w : nat)
  : outcome (list bool * list bool * nat) :=
  let '(key, pos) := draw_key rnd pos w in
  let '(fake_key, pos) := draw_key rnd pos w in
  ' (fake_key, pos) <- resample fuel rnd w key fake_key pos ;;
  Ret (key, fake_key, pos).

Definition shape_eqb (s1 s2 : shape) : bool :=
  let '(b1, c1, h1, w1) := s1 in
  let '(b2, c2, h2, w2) := s2 in
  (b1 =? b2) && (c1 =? c2) && (h1 =? h2) && (w1 =? w2).

(** [torch.zeros(s)] *)
Definition tzeros (s : shape) : Tensor4 R :=
  let '(b, c, h, w) := s in
  mkT s (repeat (repeat (repeat (repeat (sint 0) w) h) c) b).

(** Broadcasting of one dimension: equal, or one of the two is 1. *)
Definition bdim (n m : nat) : option nat :=
  if n =? m then Some n
  else if n =? 1 then Some m
  else if m =? 1 then Some n
  else None.

Definition bzip {A : Type} (f : A -> A -> A) (xs ys : list A) : list A :=
  if length xs =? length ys then map (fun p => f (fst p) (snd p)) (combine xs ys)
  else match xs, ys with
       | [x], _ => map (f x) ys
       | _, [y] => map (fun x => f x y) xs
       | _, _ => []
       end.

(** Elementwise binary operation on two rank-4 tensors. *)
Definition tbinop (op : R -> R -> R) (t1 t2 : Tensor4 R) : outcome (Tensor4 R) :=
  let '(b1, c1, h1, w1) := size t1 in
  let '(b2, c2, h2, w2) := size t2 in
  match bdim b1 b2, bdim c1 c2, bdim h1 h2, bdim w1 w2 with
  | Some b, Some c, Some h, Some w =>
      Ret (mkT (b, c, h, w) (bzip (bzip (bzip (bzip op))) (imgs t1) (imgs t2)))
  | _, _, _, _ =>
      Raise (RuntimeError "The size of tensor a must match the size of tensor b")
  end.

Definition tadd := tbinop sadd.
Definition tsub := tbinop ssub.

(** [t.abs().mean() * 255] *)
Definition abs_mean_255 (t : Tensor4 R) : R :=
  let elems := concat (concat (concat (imgs t))) in
  smul (sdiv (fold_left sadd (map sabs elems) (sint 0))
             (sint (Z.of_nat (length elems))))
       (sint 255).

Record forward_result : Type := mkForward {
  cover : Tensor4 R; container : Tensor4 R; secret : Tensor4 R;
  rev_secret : Tensor4 R; rev_secret_ : Tensor4 R;
  H_loss : R; R_loss : R; R_loss_ : R;
  H_diff : R; R_diff : R; R_diff_ : R
}.

(** [key.view(1, 1, 1, w).repeat(b, c, h, 1)] *)
Definition red (key : list bool) (b c h w : nat) : outcome (Tensor4 R) :=
  v <- view4 (key_tensor key) (1, 1, 1, w) ;;
  Ret (repeat4 v b c h 1).

Definition unbound (var : string) {A : Type} (v : option A) : outcome A :=
  match v with
  | Some a => Ret a
  | None => Raise (UnboundLocalError var)
  end.

(** [forward_pass]; the moves to the device are not modelled, and the
    generator position is returned with the result. *)
Definition forward_pass (fuel : nat) (rnd : rng) (pos : nat)
    (secret cover : Tensor4 R)
    (Hnet Rnet : Tensor4 R -> outcome (Tensor4 R))
    (criterion : Tensor4 R -> Tensor4 R -> outcome R)
    (cover_dependent : bool) (Enet : option unit)
  : outcome (forward_result * nat) :=
  _ <- py_assert (shape_eqb (size cover) (size secret))
         "Shape of cover and secret images are expected to be the same!" ;;
  let '(b, c, h, w) := size cover in
  _ <- py_assert (h =? w) "cover and secret images are expected to be squares" ;;
  ' (key, fake_key, pos) <- sample_keys fuel rnd pos w ;;
  let zeros := tzeros (size cover) in
  ' (red_key, red_fake_key) <-
      match Enet with
      | None =>
          red_key <- red key b c h w ;;
          red_fake_key <- red fake_key b c h w ;;
          Ret (Some red_key, Some red_fake_key)
      | Some _ => Ret (None, None)   (* TODO branch: pass *)
      end ;;
  H_input <- (red_key <- unbound "red_key" red_key ;;
              if cover_dependent then cat1 [cover; secret; red_key]
              else cat1 [secret; red_key]) ;;
  H_output <- Hnet H_input ;;
  container <- (if cover_dependent then Ret H_output else tadd H_output cover) ;;
  H_loss <- criterion container cover ;;
  rev_secret <- (red_key <- unbound "red_key" red_key ;;
                 i <- cat1 [container; red_key] ;; Rnet i) ;;
  R_loss <- criterion rev_secret secret ;;
  rev_secret_ <- (red_fake_key <- unbound "red_fake_key" red_fake_key ;;
                  i <- cat1 [container; red_fake_key] ;; Rnet i) ;;
  R_loss_ <- criterion rev_secret_ zeros ;;
  let R_diff_ := abs_mean_255 rev_secret_ in
  H_diff <- (d <- tsub container cover ;; Ret (abs_mean_255 d)) ;;
  R_diff <- (d <- tsub rev_secret secret ;; Ret (abs_mean_255 d)) ;;
  Ret (mkForward cover container secret rev_secret rev_secret_
         H_loss R_loss R_loss_ H_diff R_diff R_diff_, pos).

(** ** utils/util.py: one iteration of [train] *)

Record options : Type := mkOpt { batch_size : Z; beta : R; gamma : R }.

Inductive optim_event : Type :=
| ZeroGrad                 (* optimizer.zero_grad() *)
| Backward (loss : R)      (* loss_sum.backward() *)
| Step.                    (* optimizer.step() *)

Record train_state : Type := mkTrain {
  Hlosses : AverageMeter; Rlosses : AverageMeter; Rlosses_ : AverageMeter;
  SumLosses : AverageMeter;
  Hdiff : AverageMeter; Rdiff : AverageMeter; Rdiff_ : AverageMeter;
  events : list optim_event;
  rng_pos : nat
}.

(** The meters of a training state, in the order an iteration updates
    them. *)
Definition meters (st : train_state) : list AverageMeter :=
  [Hlosses st; Rlosses st; Hdiff st; Rdiff st; Rlosses_ st; Rdiff_ st;
   SumLosses st].

(** Body of the loop over [train_loader], up to [optimizer.step()];
    the timers are left out. *)
Definition train_iteration (opt : options) (fuel : nat) (rnd : rng)
    (st : train_state) (secret cover : Tensor4 R)
    (Hnet Rnet : Tensor4 R -> outcome (Tensor4 R))
    (criterion : Tensor4 R -> Tensor4 R -> outcome R)
    (cover_dependent : bool) : outcome (forward_result * train_state) :=
  let batch_size := batch_size opt in
  ' (out, pos) <- forward_pass fuel rnd (rng_pos st) secret cover Hnet Rnet
                    criterion cover_dependent None ;;
  Hlosses <- AverageMeter_update (Hlosses st) (H_loss out) batch_size ;;
  Rlosses <- AverageMeter_update (Rlosses st) (R_loss out) batch_size ;;
  Hdiff <- AverageMeter_update (Hdiff st) (H_diff out) batch_size ;;
  Rdiff <- AverageMeter_update (Rdiff st) (R_diff out) batch_size ;;
  Rlosses_ <- AverageMeter_update (Rlosses_ st) (R_loss_ out) batch_size ;;
  Rdiff_ <- AverageMeter_update (Rdiff_ st) (R_diff_ out) batch_size ;;
  let loss_sum := sadd (sadd (H_loss out) (smul (beta opt) (R_loss out)))
                       (smul (gamma opt) (R_loss_ out)) in
  SumLosses <- AverageMeter_update (SumLosses st) loss_sum batch_size ;;
  Ret (out,
       mkTrain Hlosses Rlosses Rlosses_ SumLosses Hdiff Rdiff Rdiff_
         (events st ++ [ZeroGrad; Backward loss_sum; Step]) pos).

End Training.

Arguments forward_result R : clear implicits.
Arguments train_state R : clear implicits.
Arguments options R : clear implicits.
Arguments AverageMeter R : clear implicits.
Arguments optim_event R : clear implicits.

(** ** The block tree that [UnetGenerator.__init__] builds *)

Definition innermost_block (norm : norm_layer) (outer_nc inner_nc : nat)
  : UnetSkipConnectionBlock :=
  mkBlock false None None
    [LeakyReLU; Conv2d outer_nc inner_nc 4 2 1 (use_bias_of norm)]
    None
    [ReLU; ConvTranspose2d inner_nc outer_nc 4 2 1 (use_bias_of norm);
     Norm norm outer_nc].

Definition middle_block (norm : norm_layer) (use_dropout : bool)
    (outer_nc inner_nc : nat) (sub : UnetSkipConnectionBlock)
  : UnetSkipConnectionBlock :=
  mkBlock false None None
    [LeakyReLU; Conv2d outer_nc inner_nc 4 2 1 (use_bias_of norm); Norm norm inner_nc]
    (Some sub)
    (if use_dropout then
       [ReLU; ConvTranspose2d (inner_nc * 2) outer_nc 4 2 1 (use_bias_of norm);
        Norm norm outer_nc] ++ [Dropout]
     else
       [ReLU; ConvTranspose2d (inner_nc * 2) outer_nc 4 2 1 (use_bias_of norm);
        Norm norm outer_nc]).

(** Everything below the outermost block, with [n] blocks of width
    [nhf * 8] above the innermost one. *)
Definition unet_body (norm : norm_layer) (use_dropout : bool) (nhf n : nat)
  : UnetSkipConnectionBlock :=
  middle_block norm false nhf (nhf * 2)
    (middle_block norm false (nhf * 2) (nhf * 4)
       (middle_block norm false (nhf * 4) (nhf * 8)
          (Nat.iter n (middle_block norm use_dropout (nhf * 8) (nhf * 8))
             (innermost_block norm (nhf * 8) (nhf * 8))))).

(** In-channels of the first convolution and the key encoder of the
    outermost block. *)
Definition first_in_channels (input_nc : nat) (key_len : option nat) : nat :=
  match key_len with None => input_nc | Some _ => input_nc * 2 end.

Definition outermost_block (norm : norm_layer) (first_nc output_nc nhf : nat)
    (act : layer) (redundance_size : option nat) (encoder : option linear)
    (sub : UnetSkipConnectionBlock) : UnetSkipConnectionBlock :=
  mkBlock true redundance_size encoder
    [Conv2d first_nc nhf 4 2 1 (use_bias_of norm)]
    (Some sub)
    [ReLU; ConvTranspose2d (nhf * 2) output_nc 4 2 1 true; act].

(** A block that returns its input size with the channels doubled, on
    every positive height and width divisible by [2 ^ d]. *)
Definition doubles_channels (blk : UnetSkipConnectionBlock) (d o : nat) : Prop :=
  forall b h w,
    0 < h -> 0 < w -> Nat.divide (2 ^ d) h -> Nat.divide (2 ^ d) w ->
    block_size blk (b, o, h, w) None = Ret (b, o * 2, h, w).

(** Number of blocks from the outermost to the innermost one. *)
Definition depth (blk : UnetSkipConnectionBlock) : nat := length (blocks_of blk).

(** ** Worked examples *)

(** Integer scalars, enough to run the definitions on small inputs. *)
#[export] Instance ScalarZ : Scalar Z := {|
  sint := fun z => z;
  sadd := Z.add;
  ssub := Z.sub;
  smul := Z.mul;
  sdiv := Z.div;
  sabs := Z.abs
|}.

(** A layer that returns its input. *)
Definition pass_through (x : Tensor4 Z) : Tensor4 Z := x.

(** Five 1x1 images of one channel. *)
Definition batch_of_five : Tensor4 Z :=
  mkT (5, 1, 1, 1)
      [[[[1%Z]]]; [[[2%Z]]]; [[[3%Z]]]; [[[4%Z]]]; [[[5%Z]]]].

Definition attack_with (noise_type : string) : AttackNet Z :=
  mkAttackNet noise_type pass_through pass_through pass_through pass_through
    pass_through.

(** One 4x4 image of one channel. *)
Definition image_4x4 : Tensor4 Z :=
  mkT (1, 1, 4, 4)
      [[[[1; 2; 3; 4]; [5; 6; 7; 8]; [9; 10; 11; 12]; [13; 14; 15; 16]]]]%Z.

(** An encoder for keys of length 2 and redundancy size 2 on one channel. *)
Definition encoder_2x2 : Linear Z :=
  mkLinear 2 4 [[1; 0]; [0; 1]; [1; 1]; [1; -1]]%Z [0; 0; 0; 0]%Z.

(** An encoder for redundancy size 3 on one channel. *)
Definition encoder_3x3 : Linear Z :=
  mkLinear 2 9 (repeat [1; 1]%Z 9) (repeat 0%Z 9).

(** One pixel, for a run of the forward pass with keys of length 1. *)
Definition one_pixel (v : Z) : Tensor4 Z := mkT (1, 1, 1, 1) [[[[v]]]].

(** A batch of width 0. *)
Definition empty_width : Tensor4 Z := mkT (1, 1, 0, 0) [[[]]].

(** Alternating draws: True, False, True, ... *)
Definition alternating : rng := Nat.even.

Definition constant_net (v : Z) (x : Tensor4 Z) : outcome (Tensor4 Z) :=
  Ret (one_pixel v).

Definition zero_criterion (a b : Tensor4 Z) : outcome Z := Ret 0%Z.

Definition fresh_train_state : train_state Z :=
  mkTrain AverageMeter_reset AverageMeter_reset AverageMeter_reset
    AverageMeter_reset AverageMeter_reset AverageMeter_reset AverageMeter_reset
    [] 0.

Definition run_echo (blk : UnetSkipConnectionBlock) (X : Tensor4 Z)
    (k : option (list Z)) : outcome (Tensor4 Z) := Ret X.

(** A block that, whenever it returns, was given [o] channels and a
    positive height and width divisible by [2 ^ d], and returns the size
    of its input with the channels doubled. *)
Definition doubles_only (blk : UnetSkipConnectionBlock) (d o : nat) : Prop :=
  forall b c h w s,
    block_size blk (b, c, h, w) None = Ret s ->
    c = o /\ s = (b, o * 2, h, w) /\ 0 < h /\ 0 < w
    /\ Nat.divide (2 ^ d) h /\ Nat.divide (2 ^ d) w.

(** Depth of the generator built for [num_downs]. *)
Definition built_depth (num_downs : Z) : nat := Z.to_nat (Z.max num_downs 5).

(** One 33x33 and one 8x8 size, for the examples. *)
Definition size_33 : shape := (2, 6, 33, 33).

(** Three 1x1 images of one channel. *)
Definition batch_of_three : Tensor4 Z :=
  mkT (3, 1, 1, 1) [[[[1%Z]]]; [[[2%Z]]]; [[[3%Z]]]].

(** The entry [t[n, ch, y, x]], when the indices are in range. *)
Definition pixel {R : Type} (t : Tensor4 R) (n ch y x : nat) : option R :=
  match nth_error (imgs t) n with
  | Some im =>
      match nth_error im ch with
      | Some chn =>
          match nth_error chn y with
          | Some row => nth_error row x
          | None => None
          end
      | None => None
      end
  | None => None
  end.

(** Draws True, True, False, False, ... *)
Definition two_then_false : rng := fun i => i <? 2.

(** ** utils/util.py: [md5] *)

(** [format(n, 'b')], the characters '0' and '1' kept as booleans. *)
Fixpoint pos_digits (p : positive) : list bool :=
  match p with
  | xH => [true]
  | xO q => pos_digits q ++ [false]
  | xI q => pos_digits q ++ [true]
  end.

Definition format_b (n : N) : list bool :=
  match n with
  | N0 => [false]
  | Npos p => pos_digits p
  end.

(** [format(n, '08b')]: padded with '0' on the left to a width of 8. *)
Definition format_08b (n : N) : list bool :=
  repeat false (8 - length (format_b n)) ++ format_b n.

(** [md5(key)]; [digest] stands for
    [hashlib.md5(key.encode(encoding='UTF-8')).digest()], a sequence of
    byte values, and [float('0') = 0.0], [float('1') = 1.0]. *)
Definition md5 {R : Type} `{Scalar R} (digest : string -> list N) (key : string)
  : list R :=
  let hash_key := digest key in
  let binary_key := concat (map format_08b hash_key) in
  key_tensor binary_key.

(** The number a string of binary digits denotes. *)
Definition digits_value (l : list bool) : N :=
  fold_left (fun acc (d : bool) => (2 * acc + (if d then 1 else 0))%N) l 0%N.

(** A stand-in for a digest: the byte values 0, 17, 34, ..., 255. *)
Definition sample_digest (key : string) : list N :=
  map (fun i => (17 * N.of_nat i)%N) (seq 0 16).

(** ** utils/util.py: [adjust_learning_rate] *)

Section LearningRate.
Context {R : Type} `{Scalar R}.

(** An optimizer parameter group: its entry 'lr' and its other entries. *)
Record param_group (A : Type) : Type := mkGroup { lr : R; other : A }.
Arguments mkGroup {A} lr other.
Arguments lr {A} p.
Arguments other {A} p.

(** [1/decay_num ** k] on Python ints: [decay_num ** k] is an int for
    [k >= 0] and a float for [k < 0]; the float case is [recip_neg_pow]. *)
Definition decay_factor (recip_neg_pow : Z -> Z -> outcome R) (decay_num k : Z)
  : outcome R :=
  if (0 <=? k)%Z then
    if (decay_num ^ k =? 0)%Z then Raise ZeroDivisionError
    else Ret (sdiv (sint 1) (sint (decay_num ^ k)))
  else recip_neg_pow decay_num k.

(** [opt_lr] and [lr_decay_freq] are the fields of the global [opt]; the
    groups are returned instead of being updated in place. *)
Definition adjust_learning_rate {A : Type} (opt_lr : R) (lr_decay_freq : Z)
    (recip_neg_pow : Z -> Z -> outcome R)
    (param_groups : list (param_group A)) (epoch decay_num : Z)
  : outcome (list (param_group A)) :=
  k <- (if (lr_decay_freq =? 0)%Z then Raise ZeroDivisionError
        else Ret (epoch / lr_decay_freq)%Z) ;;
  factor <- decay_factor recip_neg_pow decay_num k ;;
  let lr := smul opt_lr factor in
  Ret (map (fun param_group => mkGroup lr (other param_group)) param_groups).

End LearningRate.

Arguments param_group R A : clear implicits.
Arguments mkGroup {R A} lr other.
Arguments lr {R A} p.
Arguments other {R A} p.

(** Two parameter groups, and a float power that is never reached. *)
Definition two_groups : list (param_group Z string) :=
  [mkGroup 5%Z "hiding"; mkGroup 7%Z "reveal"].

Definition no_float_pow (d k : Z) : outcome Z := Raise ZeroDivisionError.

(** ** utils/util.py: checkpoints ([save_checkpoint], end of an epoch of [train]) *)

Section Checkpoints.
Context {R : Type} `{Scalar R}.

(** Python's [<] on floats. *)
Variable flt : R -> R -> bool.

(** [min(a, b)]: the second argument only when it is smaller. *)
Definition py_min (a b : R) : R := if flt b a then b else a.

(** The file [save_checkpoint] writes to: ['%s/checkpoint_best.pth.tar'
    % save_path] or ['%s/checkpoint_newest.pth.tar' % save_path]. *)
Definition save_checkpoint (is_best : bool) (save_path : string) : string :=
  if is_best then String.append save_path "/checkpoint_best.pth.tar"
  else String.append save_path "/checkpoint_newest.pth.tar".

(** [sum_diff = val_hdiff + val_rdiff + val_rdiff_] *)
Definition sum_diff_of (val : R * R * R) : R :=
  let '(val_hdiff, val_rdiff, val_rdiff_) := val in
  sadd (sadd val_hdiff val_rdiff) val_rdiff_.

(** Lines 389-412 of [train] for one epoch, given the validation
    differences: the new MIN_LOSS and the checkpoint written, a file
    name with the entry 'epoch' of the saved state. *)
Definition checkpoint_epoch (save_path : string) (MIN_LOSS : R) (epoch : nat)
    (val : R * R * R) : R * (string * nat) :=
  let sum_diff := sum_diff_of val in
  let is_best := flt sum_diff MIN_LOSS in
  let MIN_LOSS := py_min MIN_LOSS sum_diff in
  (MIN_LOSS, (save_checkpoint is_best save_path, epoch + 1)).

(** The epochs [epoch], [epoch + 1], ... in turn, one triple of
    validation differences for each: the final MIN_LOSS and the
    checkpoints written, in order. *)
Fixpoint checkpoint_epochs (save_path : string) (MIN_LOSS : R) (epoch : nat)
    (vals : list (R * R * R)) : R * list (string * nat) :=
  match vals with
  | [] => (MIN_LOSS, [])
  | val :: vals' =>
      let '(MIN_LOSS, saved) := checkpoint_epoch save_path MIN_LOSS epoch val in
      let '(MIN_LOSS, rest) := checkpoint_epochs save_path MIN_LOSS (S epoch) vals' in
      (MIN_LOSS, saved :: rest)
  end.

End Checkpoints.

(** A checkpoint written to checkpoint_newest. *)
Definition is_newest (save_path : string) (w : string * nat) : Prop :=
  fst w = save_checkpoint false save_path.

(** Validation differences of four epochs; the second epoch is the best. *)
Definition four_epochs : list (Z * Z * Z) :=
  [(3, 4, 5); (1, 2, 3); (2, 2, 3); (1, 2, 3)]%Z.

(** ** utils/util.py: the loop over [train_loader] in an epoch of [train] *)

Section TrainLoop.
Context {R : Type} `{Scalar R}.

Record loop_options : Type := mkLoop {
  iters_per_epoch : Z; log_freq : Z; result_pic_freq : Z
}.

(** What the loop prints and saves; the optimizer's events are in the
    training state. *)
Inductive loop_event : Type :=
| PrintLog (epoch i : Z)        (* print(log) *)
| SaveResultPic (batch_size : Z) (out : forward_result R) (epoch i : Z).

(** The locals [batch_size], [cover], ..., [rev_secret_] and [i] of
    [train]: unbound until an iteration has assigned them, and kept from
    one epoch to the next. *)
Definition loop_locals : Type := option (Z * forward_result R * Z).

(** [i % n == 0] on ints. *)
Definition py_mod_is_zero (i n : Z) : outcome bool :=
  if (n =? 0)%Z then Raise ZeroDivisionError else Ret (i mod n =? 0)%Z.

(** The state an epoch starts in: seven fresh meters. *)
Definition new_meters (events : list (optim_event R)) (rng_pos : nat)
  : train_state R :=
  mkTrain AverageMeter_reset AverageMeter_reset AverageMeter_reset
    AverageMeter_reset AverageMeter_reset AverageMeter_reset
    AverageMeter_reset events rng_pos.

Variable opt : options R.
Variable lopt : loop_options.
Variable fuel : nat.
Variable rnd : rng.
Variable Hnet Rnet : Tensor4 R -> outcome (Tensor4 R).
Variable criterion : Tensor4 R -> Tensor4 R -> outcome R.
Variable cover_dependent : bool.

(** [for i, (secret, cover) in enumerate(train_loader, start=1)], from
    the iteration numbered [i] on. *)
Fixpoint train_loop (epoch i : Z) (st : train_state R) (log : list loop_event)
    (locals : loop_locals) (train_loader : list (Tensor4 R * Tensor4 R))
  : outcome (train_state R * list loop_event * loop_locals) :=
  match train_loader with
  | [] => Ret (st, log, locals)
  | (secret, cover) :: train_loader' =>
      ' (out, st) <- train_iteration opt fuel rnd st secret cover Hnet Rnet
                       criterion cover_dependent ;;
      let locals := Some (batch_size opt, out, i) in
      printed <- py_mod_is_zero i (log_freq lopt) ;;
      let log := if printed then log ++ [PrintLog epoch i] else log in
      log <- (if (epoch =? 0)%Z then
                saved <- py_mod_is_zero i (result_pic_freq lopt) ;;
                Ret (if saved
                     then log ++ [SaveResultPic (batch_size opt) out epoch i]
                     else log)
              else Ret log) ;;
      if (i =? iters_per_epoch lopt)%Z then Ret (st, log, locals)
      else train_loop epoch (i + 1) st log locals train_loader'
  end.

(** An epoch of [train] from the fresh meters to the [save_result_pic]
    that follows the loop; [zip] of the two loaders is [combine]. *)
Definition train_epoch_loop (epoch : Z) (events : list (optim_event R))
    (rng_pos : nat) (locals : loop_locals)
    (train_loader_secret train_loader_cover : list (Tensor4 R))
  : outcome (train_state R * list loop_event * loop_locals) :=
  let train_loader := combine train_loader_secret train_loader_cover in
  let st := new_meters events rng_pos in
  ' (st, log, locals) <- train_loop epoch 1 st [] locals train_loader ;;
  ' (batch_size, out, i) <- unbound "batch_size" locals ;;
  Ret (st, log ++ [SaveResultPic batch_size out epoch i], locals).

(** The number of iterations the loop runs on [n] batches from the
    iteration numbered [i]: up to the one numbered [iters_per_epoch], if
    there is one, and all of them otherwise. *)
Definition iterations_from (i : Z) (n : nat) : nat :=
  if ((i <=? iters_per_epoch lopt) && (iters_per_epoch lopt <? i + Z.of_nat n))%Z
  then Z.to_nat (iters_per_epoch lopt - i + 1) else n.

End TrainLoop.

Arguments loop_event R : clear implicits.
Arguments loop_locals R : clear implicits.

(** Three batches of one 1x1 image each. *)
Definition three_batches : list (Tensor4 Z) :=
  [one_pixel 7; one_pixel 8; one_pixel 9].

(** ** utils/util.py: [inference] *)

Section Inference.
Context {R : Type} `{Scalar R}.

Inductive pics_save_dir : Type := test_pics_save_dir | val_pics_save_dir.

(** The six averages [inference] returns. *)
Definition averages : Type := (R * R * R * R * R * R)%type.

Inductive inference_event : Type :=
| SavePic (save_path : pics_save_dir) (batch_size : Z)
    (out : forward_result R) (epoch : option Z) (i : Z)   (* save_result_pic *)
| PrintTest (avgs : averages)                             (* print_log(log) *)
| PrintValidation (epoch : Z) (avgs : averages).

Record inference_meters : Type := mkInference {
  test_Hlosses : AverageMeter R; test_Rlosses : AverageMeter R;
  test_Rlosses_ : AverageMeter R;
  test_Hdiff : AverageMeter R; test_Rdiff : AverageMeter R;
  test_Rdiff_ : AverageMeter R
}.

Definition meter_averages (m : inference_meters) : averages :=
  (avg (test_Hlosses m), avg (test_Rlosses m), avg (test_Rlosses_ m),
   avg (test_Hdiff m), avg (test_Rdiff m), avg (test_Rdiff_ m)).

Variable opt : options R.
Variable fuel : nat.
Variable rnd : rng.
Variable Hnet Rnet : Tensor4 R -> outcome (Tensor4 R).
Variable criterion : Tensor4 R -> Tensor4 R -> outcome R.
Variable cover_dependent : bool.

(** [for i, (secret, cover) in enumerate(data_loader, start=1)], from
    the iteration numbered [i] on. *)
Fixpoint inference_loop (save_num : Z) (mode : string) (epoch : option Z)
    (i : Z) (m : inference_meters) (log : list inference_event) (pos : nat)
    (data_loader : list (Tensor4 R * Tensor4 R))
  : outcome (inference_meters * list inference_event * nat) :=
  match data_loader with
  | [] => Ret (m, log, pos)
  | (secret, cover) :: data_loader' =>
      let batch_size := batch_size opt in
      ' (out, pos) <- forward_pass fuel rnd pos secret cover Hnet Rnet
                        criterion cover_dependent None ;;
      Hlosses <- AverageMeter_update (test_Hlosses m) (H_loss out) batch_size ;;
      Rlosses <- AverageMeter_update (test_Rlosses m) (R_loss out) batch_size ;;
      Hdiff <- AverageMeter_update (test_Hdiff m) (H_diff out) batch_size ;;
      Rdiff <- AverageMeter_update (test_Rdiff m) (R_diff out) batch_size ;;
      Rlosses_ <- AverageMeter_update (test_Rlosses_ m) (R_loss_ out) batch_size ;;
      Rdiff_ <- AverageMeter_update (test_Rdiff_ m) (R_diff_ out) batch_size ;;
      let log :=
        if (i <=? save_num)%Z then
          if mode == "test"
          then log ++ [SavePic test_pics_save_dir batch_size out None i]
          else log ++ [SavePic val_pics_save_dir batch_size out epoch i]
        else log in
      inference_loop save_num mode epoch (i + 1)
        (mkInference Hlosses Rlosses Rlosses_ Hdiff Rdiff Rdiff_) log pos
        data_loader'
  end.

(** [inference]; the generator position is returned with the averages.
    ['Validation[%02d]...' % (epoch, ...)] needs a number for [epoch]. *)
Definition inference (data_loader : list (Tensor4 R * Tensor4 R))
    (save_num : Z) (mode : string) (epoch : option Z) (pos : nat)
  : outcome (averages * list inference_event * nat) :=
  _ <- py_assert ((mode == "val") || (mode == "test"))
         "`mode` is expected to be `val` or `test`" ;;
  let fresh := mkInference AverageMeter_reset AverageMeter_reset
                 AverageMeter_reset AverageMeter_reset AverageMeter_reset
                 AverageMeter_reset in
  ' (m, log, pos) <- inference_loop save_num mode epoch 1 fresh [] pos
                       data_loader ;;
  line <- (if mode == "test" then Ret (PrintTest (meter_averages m))
           else match epoch with
                | Some epoch => Ret (PrintValidation epoch (meter_averages m))
                | None =>
                    Raise (TypeError
                             "%d format: a real number is required, not NoneType")
                end) ;;
  Ret (meter_averages m, log ++ [line], pos).

(** The averages and the generator position of a call, without what it
    saved and printed. *)
Definition returned_values
    (r : outcome (averages * list inference_event * nat))
  : outcome (averages * nat) :=
  ' (avgs, _, pos) <- r ;; Ret (avgs, pos).

End Inference.

Arguments inference_event R : clear implicits.
Arguments inference_meters R : clear implicits.
Arguments averages R : clear implicits.

(** The iteration numbers of the pictures saved, in order. *)
Definition saved_pictures {R : Type} (log : list (inference_event R)) : list Z :=
  flat_map (fun e => match e with SavePic _ _ _ _ i => [i] | _ => [] end) log.

(** Three pairs of a secret and a cover of one pixel. *)
Definition three_pairs : list (Tensor4 Z * Tensor4 Z) :=
  [(one_pixel 7, one_pixel 2); (one_pixel 8, one_pixel 3);
   (one_pixel 9, one_pixel 4)].

(** * Properties *)

(** ** Outcomes *)

Lemma bind_Ret_inv {A B : Type} (m : outcome A) (k : A -> outcome B) (b : B) :
  bind m k = Ret b -> exists a, m = Ret a /\ k a = Ret b.
Proof.
  destruct m as [a| |]; simpl; intros E; try discriminate.
  exists a; split; [reflexivity | exact E].
Qed.

Lemma eqb_string_false (s t : string) : s <> t -> (s == t) = false.
Proof. intros Hne. apply String.eqb_neq. exact Hne. Qed.

(** ** Well-formed tensors, slices and concatenation along the batch *)

Section TensorFacts.
Context {R : Type}.
Implicit Types (X : Tensor4 R) (l : list (image R)).

Lemma wf_intro b c h w l :
  length l = b -> forallb (image_ok c h w) l = true ->
  wf (mkT (b, c, h, w) l) = true.
Proof.
  intros Hlen Hall. unfold wf; simpl.
  rewrite Hall, andb_true_r. apply Nat.eqb_eq. exact Hlen.
Qed.

Lemma wf_elim X b c h w :
  wf X = true -> size X = (b, c, h, w) ->
  length (imgs X) = b /\ forallb (image_ok c h w) (imgs X) = true.
Proof.
  unfold wf. intros Hwf Hs. rewrite Hs in Hwf.
  apply andb_true_iff in Hwf. destruct Hwf as [Hl Ha].
  split; [apply Nat.eqb_eq; exact Hl | exact Ha].
Qed.

Lemma forallb_firstn {A} (p : A -> bool) n (l : list A) :
  forallb p l = true -> forallb p (firstn n l) = true.
Proof.
  revert n; induction l as [|a l IH]; intros [|n]; simpl; auto.
  intros Hp. apply andb_true_iff in Hp. destruct Hp as [Ha Hl].
  rewrite Ha. simpl. apply IH. exact Hl.
Qed.

Lemma forallb_skipn {A} (p : A -> bool) n (l : list A) :
  forallb p l = true -> forallb p (skipn n l) = true.
Proof.
  revert n; induction l as [|a l IH]; intros [|n]; simpl; auto.
  intros Hp. apply andb_true_iff in Hp. destruct Hp as [_ Hl].
  apply IH. exact Hl.
Qed.

Lemma chw_eqb_refl (s : nat * nat * nat) : chw_eqb s s = true.
Proof.
  destruct s as [[c h] w]. unfold chw_eqb. now rewrite !Nat.eqb_refl.
Qed.

(** A window of a well-formed batch is a well-formed batch. *)
Lemma wf_window X b c h w lo n :
  wf X = true -> size X = (b, c, h, w) -> lo + n <= b ->
  wf (mkT (n, c, h, w) (firstn n (skipn lo (imgs X)))) = true.
Proof.
  intros Hwf Hs Hle. destruct (wf_elim _ _ _ _ _ Hwf Hs) as [Hlen Hall].
  apply wf_intro.
  - rewrite length_firstn, length_skipn. lia.
  - apply forallb_firstn, forallb_skipn. exact Hall.
Qed.

Lemma tslice_window X b c h w lo hi :
  size X = (b, c, h, w) -> lo <= hi -> hi <= b ->
  tslice lo hi X = mkT (hi - lo, c, h, w) (firstn (hi - lo) (skipn lo (imgs X))).
Proof.
  intros Hs H1 H2. unfold tslice. rewrite Hs.
  rewrite !Nat.min_l by lia. reflexivity.
Qed.

Lemma tslice_from_window X b c h w lo :
  wf X = true -> size X = (b, c, h, w) -> lo <= b ->
  tslice_from lo X = mkT (b - lo, c, h, w) (firstn (b - lo) (skipn lo (imgs X))).
Proof.
  intros Hwf Hs Hle. destruct (wf_elim _ _ _ _ _ Hwf Hs) as [Hlen _].
  unfold tslice_from. rewrite Hs, Nat.min_l by lia.
  rewrite firstn_all2; [reflexivity | rewrite length_skipn; lia].
Qed.

Lemma firstn_skipn_next {A} (l : list A) lo n m :
  firstn n (skipn lo l) ++ firstn m (skipn (lo + n) l)
  = firstn (n + m) (skipn lo l).
Proof.
  rewrite Nat.add_comm with (n := lo), <- skipn_skipn.
  generalize (skipn lo l) as l'. clear l lo.
  induction n as [|n IH]; intros [|a l']; simpl;
    rewrite ?skipn_nil, ?firstn_nil; try reflexivity.
  f_equal. apply IH.
Qed.

(** What [preserves_shape] gives on a slice. *)
Lemma preserved (f : Tensor4 R -> Tensor4 R) (x : Tensor4 R) b c h w :
  preserves_shape f -> wf x = true -> size x = (b, c, h, w) ->
  size (f x) = (b, c, h, w) /\ length (imgs (f x)) = b
  /\ forallb (image_ok c h w) (imgs (f x)) = true.
Proof.
  intros Hf Hwf Hs. destruct (Hf x Hwf) as [Hwf' Hs'].
  rewrite Hs in Hs'. destruct (wf_elim _ _ _ _ _ Hwf' Hs') as [Hl Ha].
  auto.
Qed.

End TensorFacts.

(** ** The attack layer *)

Section AttackNetFacts.
Context {R : Type}.
Implicit Types (self : AttackNet R) (X : Tensor4 R).

Lemma cat0_sized (ts : list (Tensor4 R)) (t0 : Tensor4 R) c h w :
  Forall (fun t => chw t = (c, h, w)) (t0 :: ts) ->
  cat0 (t0 :: ts)
  = Ret (mkT (list_sum (map batch (t0 :: ts)), c, h, w)
             (concat (map imgs (t0 :: ts)))).
Proof.
  intros Hall. unfold cat0.
  assert (Hchk : forallb (fun t => chw_eqb (chw t) (chw t0)) (t0 :: ts) = true).
  { apply forallb_forall. intros t Hin.
    rewrite Forall_forall in Hall.
    rewrite (Hall t Hin), (Hall t0 (or_introl eq_refl)).
    apply chw_eqb_refl. }
  rewrite Hchk. inversion Hall as [|? ? H0 _]; subst.
  rewrite H0. reflexivity.
Qed.

Lemma chw_of_size (t : Tensor4 R) b c h w :
  size t = (b, c, h, w) -> chw t = (c, h, w) /\ batch t = b.
Proof. unfold chw, batch. intros ->. auto. Qed.

Lemma div5_1 q : 5 * q / 5 = q.
Proof. rewrite Nat.mul_comm. apply Nat.div_mul. discriminate. Qed.

Lemma div5_k k q : k * (5 * q) / 5 = k * q.
Proof.
  replace (k * (5 * q)) with (k * q * 5) by lia.
  apply Nat.div_mul. discriminate.
Qed.

(** The slice sizes of the single mode differ on a non-empty batch. *)
Lemma two_fifths_lt b : 0 < b -> 2 * b / 5 < b - 2 * b / 5.
Proof.
  intros Hb.
  assert (H5 : 5 * (2 * b / 5) <= 2 * b) by (apply Nat.Div0.mul_div_le).
  lia.
Qed.

Lemma two_fifths_le b : 2 * b / 5 <= b.
Proof.
  assert (H5 : 5 * (2 * b / 5) <= 2 * b) by (apply Nat.Div0.mul_div_le).
  lia.
Qed.

(** C2. In combine mode a batch of 5q images is cut into five
    consecutive slices of q images; the identity, Gaussian noise,
    Gaussian blur, resize and jpeg layers are applied to slices 0 to 4
    in this order, and when every layer returns a tensor of the size it
    was given, the concatenation has the size of the input. *)
Theorem combine_five_slices self X B c h w q :
  noise_type self = "combine" ->
  wf X = true -> size X = (B, c, h, w) -> B = 5 * q ->
  preserves_shape (identity self) ->
  preserves_shape (gaussian_noise self) ->
  preserves_shape (gaussian_blur self) ->
  preserves_shape (resize self) ->
  preserves_shape (jpeg self) ->
  let slice i := mkT (q, c, h, w) (firstn q (skipn (i * q) (imgs X))) in
  concat (map imgs [slice 0; slice 1; slice 2; slice 3; slice 4]) = imgs X
  /\ exists Y,
      AttackNet_forward self X = Ret Y
      /\ imgs Y = imgs (identity self (slice 0))
                  ++ imgs (gaussian_noise self (slice 1))
                  ++ imgs (gaussian_blur self (slice 2))
                  ++ imgs (resize self (slice 3))
                  ++ imgs (jpeg self (slice 4))
      /\ size Y = (B, c, h, w)
      /\ wf Y = true.
Proof.
  intros Hnt Hwf Hs HB Hid Hgn Hgb Hrs Hjp slice. subst B.
  destruct (wf_elim _ _ _ _ _ Hwf Hs) as [Hlen Hall].
  assert (Hw : forall i, i < 5 -> wf (slice i) = true).
  { intros i Hi. apply (wf_window X (5 * q) c h w); auto. nia. }
  split.
  - unfold slice. cbn [map concat imgs]. rewrite app_nil_r.
    replace (0 * q) with 0 by lia.
    replace (1 * q) with (0 + q) by lia.
    replace (2 * q) with (0 + q + q) by lia.
    replace (3 * q) with (0 + q + q + q) by lia.
    replace (4 * q) with (0 + q + q + q + q) by lia.
    rewrite !firstn_skipn_next.
    rewrite skipn_O. apply firstn_all2. lia.
  - unfold AttackNet_forward.
    rewrite Hnt, String.eqb_refl.
    assert (Hb : batch X = 5 * q) by (unfold batch; now rewrite Hs).
    rewrite Hb, div5_1, !div5_k.
    unfold tslice_to.
    rewrite (tslice_window X (5 * q) c h w 0 q) by (auto; lia).
    rewrite (tslice_window X (5 * q) c h w q (2 * q)) by (auto; lia).
    rewrite (tslice_window X (5 * q) c h w (2 * q) (3 * q)) by (auto; lia).
    rewrite (tslice_window X (5 * q) c h w (3 * q) (4 * q)) by (auto; lia).
    rewrite (tslice_from_window X (5 * q) c h w (4 * q)) by (auto; lia).
    replace (q - 0) with q by lia.
    replace (2 * q - q) with q by lia.
    replace (3 * q - 2 * q) with q by lia.
    replace (4 * q - 3 * q) with q by lia.
    replace (5 * q - 4 * q) with q by lia.
    change (skipn 0 (imgs X)) with (skipn (0 * q) (imgs X)).
    replace (skipn q (imgs X)) with (skipn (1 * q) (imgs X))
      by (f_equal; lia).
    fold (slice 0) (slice 1) (slice 2) (slice 3) (slice 4).
    destruct (preserved _ (slice 0) q c h w Hid (Hw 0 ltac:(lia)) eq_refl)
      as (S0 & L0 & A0).
    destruct (preserved _ (slice 1) q c h w Hgn (Hw 1 ltac:(lia)) eq_refl)
      as (S1 & L1 & A1).
    destruct (preserved _ (slice 2) q c h w Hgb (Hw 2 ltac:(lia)) eq_refl)
      as (S2 & L2 & A2).
    destruct (preserved _ (slice 3) q c h w Hrs (Hw 3 ltac:(lia)) eq_refl)
      as (S3 & L3 & A3).
    destruct (preserved _ (slice 4) q c h w Hjp (Hw 4 ltac:(lia)) eq_refl)
      as (S4 & L4 & A4).
    rewrite (cat0_sized _ _ c h w).
    2:{ repeat constructor; eapply chw_of_size; eassumption. }
    assert (Hsum : list_sum (map batch
              [identity self (slice 0); gaussian_noise self (slice 1);
               gaussian_blur self (slice 2); resize self (slice 3);
               jpeg self (slice 4)]) = 5 * q).
    { cbn [map list_sum]. unfold batch. rewrite S0, S1, S2, S3, S4.
      simpl. lia. }
    rewrite Hsum. cbn [map concat]. rewrite app_nil_r.
    eexists. split; [reflexivity|]. cbn [imgs size].
    split; [reflexivity|]. split; [reflexivity|].
    apply wf_intro.
    + rewrite !length_app, L0, L1, L2, L3, L4. lia.
    + rewrite !forallb_app, A0, A1, A2, A3, A4. reflexivity.
Qed.

(** C10. In a single mode the identity layer receives the first
    floor(2b/5) images and the selected layer the remaining
    b - floor(2b/5); the output is the concatenation in this order and
    has batch size b; the first slice is never the larger one and, on a
    non-empty batch, strictly the smaller one. *)
Theorem single_mode_split self X b c h w T :
  single_transform self (noise_type self) = Some T ->
  wf X = true -> size X = (b, c, h, w) ->
  preserves_shape (identity self) -> preserves_shape T ->
  let k := 2 * b / 5 in
  let X0 := mkT (k, c, h, w) (firstn k (imgs X)) in
  let X1 := mkT (b - k, c, h, w) (skipn k (imgs X)) in
  imgs X0 ++ imgs X1 = imgs X
  /\ length (imgs X0) = k /\ length (imgs X1) = b - k
  /\ (exists Y,
        AttackNet_forward self X = Ret Y
        /\ imgs Y = imgs (identity self X0) ++ imgs (T X1)
        /\ size Y = (b, c, h, w)
        /\ wf Y = true)
  /\ k <= b - k
  /\ (0 < b -> k < b - k).
Proof.
  intros HT Hwf Hs Hid HTp k X0 X1.
  destruct (wf_elim _ _ _ _ _ Hwf Hs) as [Hlen Hall].
  pose proof (two_fifths_le b) as Hk. fold k in Hk.
  split; [apply firstn_skipn|].
  split; [simpl; rewrite length_firstn; lia|].
  split; [simpl; rewrite length_skipn; lia|].
  split; [|split; [|apply two_fifths_lt]].
  2:{ destruct b as [|b']; [reflexivity|].
      apply Nat.lt_le_incl, two_fifths_lt. lia. }
  assert (Hw0 : wf X0 = true).
  { apply (wf_window X b c h w 0 k); auto. }
  assert (Hw1 : wf X1 = true).
  { unfold X1. rewrite <- (firstn_all2 (n := b - k) (skipn k (imgs X)))
      by (rewrite length_skipn; lia).
    apply (wf_window X b c h w k (b - k)); auto. lia. }
  assert (Hb : batch X = b) by (unfold batch; now rewrite Hs).
  assert (E0 : tslice_to k X = X0).
  { unfold tslice_to. rewrite (tslice_window X b c h w 0 k) by (auto; lia).
    unfold X0. now rewrite Nat.sub_0_r. }
  assert (E1 : tslice_from k X = X1).
  { rewrite (tslice_from_window X b c h w k) by auto.
    unfold X1. f_equal. apply firstn_all2. rewrite length_skipn. lia. }
  destruct (preserved _ X0 k c h w Hid Hw0 eq_refl) as (S0 & L0 & A0).
  destruct (preserved _ X1 (b - k) c h w HTp Hw1 eq_refl) as (S1 & L1 & A1).
  assert (Hcat : cat0 [identity self X0; T X1]
                 = Ret (mkT (b, c, h, w)
                            (imgs (identity self X0) ++ imgs (T X1)))).
  { rewrite (cat0_sized _ _ c h w).
    2:{ repeat constructor; eapply chw_of_size; eassumption. }
    simpl. unfold batch. rewrite S0, S1, app_nil_r.
    replace (k + (b - k + 0)) with b by lia. reflexivity. }
  exists (mkT (b, c, h, w) (imgs (identity self X0) ++ imgs (T X1))).
  split.
  - unfold AttackNet_forward. rewrite Hb.
    change (2 * b / 5) with k. rewrite E0, E1.
    unfold single_transform in HT.
    destruct (noise_type self == "combine") eqn:Ec.
    { apply String.eqb_eq in Ec. rewrite Ec in HT. discriminate. }
    destruct (noise_type self == "noise");
      [injection HT as <-; exact Hcat|].
    destruct (noise_type self == "blur");
      [injection HT as <-; exact Hcat|].
    destruct (noise_type self == "resize");
      [injection HT as <-; exact Hcat|].
    destruct (noise_type self == "jpeg");
      [injection HT as <-; exact Hcat|].
    discriminate.
  - split; [reflexivity|]. split; [reflexivity|].
    apply wf_intro.
    + rewrite length_app, L0, L1. lia.
    + rewrite forallb_app, A0, A1. reflexivity.
Qed.

(** C1, on the attack layer.  For a noise type outside combine, noise,
    blur, resize and jpeg, [AttackNet.forward] does not raise
    NotImplementedError: the exception object is built without being
    raised, and the call fails on reading the local [X_noise], which no
    branch has bound. *)
Theorem attack_unknown_noise_type self X :
  noise_type self <> "combine" -> noise_type self <> "noise" ->
  noise_type self <> "blur" -> noise_type self <> "resize" ->
  noise_type self <> "jpeg" ->
  AttackNet_forward self X = Raise (UnboundLocalError "X_noise")
  /\ is_NotImplementedError (AttackNet_forward self X) = false.
Proof.
  intros H1 H2 H3 H4 H5.
  assert (E : AttackNet_forward self X = Raise (UnboundLocalError "X_noise")).
  { unfold AttackNet_forward.
    rewrite !eqb_string_false by assumption. reflexivity. }
  rewrite E. split; reflexivity.
Qed.

End AttackNetFacts.

(** ** Construction of the networks *)

Lemma get_norm_layer_unsupported (norm_type : string) :
  norm_type <> "batch" -> norm_type <> "instance" -> norm_type <> "none" ->
  get_norm_layer norm_type
  = Raise (NotImplementedError (not_found "normalization layer" norm_type)).
Proof.
  intros H1 H2 H3. unfold get_norm_layer.
  now rewrite !eqb_string_false by assumption.
Qed.

Lemma init_innermost norm o i :
  UnetSkipConnectionBlock_init o i None None false true norm false "sigmoid" None None
  = Ret (innermost_block norm o i).
Proof. reflexivity. Qed.

Lemma init_middle norm use_dropout o i sub :
  UnetSkipConnectionBlock_init o i None (Some sub) false false norm use_dropout
    "sigmoid" None None
  = Ret (middle_block norm use_dropout o i sub).
Proof. destruct use_dropout; reflexivity. Qed.

Lemma for_range_middle norm use_dropout o i n blk :
  for_range n
    (fun unet_block =>
       UnetSkipConnectionBlock_init o i None (Some unet_block) false false norm
         use_dropout "sigmoid" None None) blk
  = Ret (Nat.iter n (middle_block norm use_dropout o i) blk).
Proof.
  revert blk. induction n as [|n IH]; intros blk; [reflexivity|].
  cbn [for_range]. rewrite init_middle. cbn [bind]. rewrite IH.
  now rewrite Nat.iter_succ_r.
Qed.

(** What the constructor does once the normalisation name is accepted:
    it builds the body, then the outermost block, then picks the factor. *)
Lemma UnetGenerator_init_body {R : Type} `{Scalar R}
    input_nc output_nc num_downs nhf norm_type norm use_dropout output_function
    key_len redundance_size :
  get_norm_layer norm_type = Ret norm ->
  UnetGenerator_init (R := R) input_nc output_nc num_downs nhf norm_type use_dropout
    output_function key_len redundance_size
  = (model <- UnetSkipConnectionBlock_init output_nc nhf (Some input_nc)
               (Some (unet_body norm use_dropout nhf (Z.to_nat (num_downs - 5))))
               true false norm false output_function key_len redundance_size ;;
     if output_function == "tanh" then
       Ret (mkUnet model (sdiv (sint 10) (sint 255)))
     else if output_function == "sigmoid" then
       Ret (mkUnet model (sint 1))
     else
       Raise (NotImplementedError (not_found "activation funciton" output_function))).
Proof.
  intros Hn. unfold UnetGenerator_init. rewrite Hn. cbn [bind].
  rewrite init_innermost. cbn [bind].
  rewrite for_range_middle. cbn [bind].
  rewrite !init_middle. cbn [bind]. reflexivity.
Qed.

(** The outermost block of a generator that was built. *)
Lemma init_outermost_inv norm input_nc output_nc nhf sub output_function
    key_len redundance_size blk :
  UnetSkipConnectionBlock_init output_nc nhf (Some input_nc) (Some sub) true false
    norm false output_function key_len redundance_size = Ret blk ->
  exists act encoder,
    blk = outermost_block norm (first_in_channels input_nc key_len) output_nc nhf
            act redundance_size encoder sub
    /\ ((output_function = "tanh" /\ act = Tanh)
        \/ (output_function = "sigmoid" /\ act = Sigmoid))
    /\ match key_len with
       | None => encoder = None
       | Some key_len =>
           exists r, redundance_size = Some r
                     /\ encoder = Some (key_len, r ^ 2 * input_nc)
       end.
Proof.
  unfold UnetSkipConnectionBlock_init.
  destruct key_len as [kl|]; [destruct redundance_size as [r|]|];
    cbn [py_assert bind]; try discriminate.
  all: destruct (output_function == "tanh") eqn:Et;
    [apply String.eqb_eq in Et
    |destruct (output_function == "sigmoid") eqn:Es;
     [apply String.eqb_eq in Es|discriminate]];
    cbn [bind]; intros E; injection E as <-.
  - exists Tanh, (Some (kl, r ^ 2 * input_nc)). repeat split; eauto.
  - exists Sigmoid, (Some (kl, r ^ 2 * input_nc)). repeat split; eauto.
  - exists Tanh, None. repeat split; auto.
  - exists Sigmoid, None. repeat split; auto.
Qed.

(** An activation name other than tanh and sigmoid is refused by the
    outermost block, with the name in the message. *)
Lemma UnetGenerator_init_unsupported_activation {R : Type} `{Scalar R}
    input_nc output_nc num_downs nhf norm_type norm use_dropout output_function
    key_len redundance_size :
  get_norm_layer norm_type = Ret norm ->
  (key_len = None \/ redundance_size <> None) ->
  output_function <> "tanh" -> output_function <> "sigmoid" ->
  UnetGenerator_init (R := R) input_nc output_nc num_downs nhf norm_type use_dropout
    output_function key_len redundance_size
  = Raise (NotImplementedError (not_found "activation funciton" output_function)).
Proof.
  intros Hn Hk Ht Hs.
  rewrite (UnetGenerator_init_body _ _ _ _ _ norm) by exact Hn.
  unfold UnetSkipConnectionBlock_init.
  rewrite !eqb_string_false by assumption.
  destruct key_len as [kl|]; [destruct redundance_size as [r|]|];
    try reflexivity.
  destruct Hk as [Hk|Hk]; [discriminate | now elim Hk].
Qed.

(** The outermost block refuses an activation name other than tanh and
    sigmoid. *)
Lemma outermost_init_unsupported_activation
    outer_nc inner_nc input_nc sub innermost norm use_dropout output_function
    key_len rs :
  (key_len = None \/ rs <> None) ->
  output_function <> "tanh" -> output_function <> "sigmoid" ->
  UnetSkipConnectionBlock_init outer_nc inner_nc input_nc sub true innermost norm
    use_dropout output_function key_len rs
  = Raise (NotImplementedError (not_found "activation funciton" output_function)).
Proof.
  intros Hk Ht Hs. unfold UnetSkipConnectionBlock_init.
  rewrite !eqb_string_false by assumption.
  destruct key_len as [kl|]; [destruct rs as [r|]|]; try reflexivity.
  destruct Hk as [Hk|Hk]; [discriminate | now elim Hk].
Qed.

(** A block that is not the outermost one never looks at the name. *)
Lemma middle_init_ignores_activation norm use_dropout o i sub output_function :
  UnetSkipConnectionBlock_init o i None (Some sub) false false norm use_dropout
    output_function None None
  = Ret (middle_block norm use_dropout o i sub).
Proof. destruct use_dropout; reflexivity. Qed.

Lemma RevealNet_init_unsupported_activation
    input_nc output_nc nrf norm_type output_function key_len redundance_size :
  (key_len = None \/ redundance_size <> None) ->
  output_function <> "sigmoid" ->
  RevealNet_init input_nc output_nc nrf norm_type output_function key_len
    redundance_size
  = Raise (NotImplementedError (not_found "activation funciton" output_function)).
Proof.
  intros Hk Hs. unfold RevealNet_init.
  rewrite !eqb_string_false by assumption.
  destruct key_len as [kl|]; [destruct redundance_size as [r|]|];
    try reflexivity.
  destruct Hk as [Hk|Hk]; [discriminate | now elim Hk].
Qed.

Lemma get_norm_layer_Ret_inv norm_type (o : outcome norm_layer) :
  o = get_norm_layer norm_type ->
  (exists norm, o = Ret norm) \/ (exists e, o = Raise e).
Proof.
  intros ->. unfold get_norm_layer.
  repeat match goal with |- context [if ?c then _ else _] => destruct c end;
    eauto.
Qed.

(** A generator that was built: its block tree and its factor. *)
Lemma UnetGenerator_init_inv {R : Type} `{Scalar R}
    input_nc output_nc num_downs nhf norm_type use_dropout output_function
    key_len redundance_size (G : UnetGenerator R) :
  UnetGenerator_init input_nc output_nc num_downs nhf norm_type use_dropout
    output_function key_len redundance_size = Ret G ->
  exists norm act encoder,
    model G = outermost_block norm (first_in_channels input_nc key_len) output_nc nhf
                act redundance_size encoder
                (unet_body norm use_dropout nhf (Z.to_nat (num_downs - 5)))
    /\ ((output_function = "tanh" /\ act = Tanh
         /\ factor G = sdiv (sint 10) (sint 255))
        \/ (output_function = "sigmoid" /\ act = Sigmoid
            /\ factor G = sint 1))
    /\ match key_len with
       | None => encoder = None
       | Some key_len =>
           exists r, redundance_size = Some r
                     /\ encoder = Some (key_len, r ^ 2 * input_nc)
       end.
Proof.
  intros E.
  destruct (get_norm_layer_Ret_inv norm_type _ eq_refl) as [[norm Hn]|[e He]].
  2:{ unfold UnetGenerator_init in E. rewrite He in E. discriminate. }
  rewrite (UnetGenerator_init_body _ _ _ _ _ norm) in E by exact Hn.
  apply bind_Ret_inv in E. destruct E as (blk & Hblk & E).
  apply init_outermost_inv in Hblk.
  destruct Hblk as (act & enc & -> & Hact & Henc).
  exists norm, act, enc.
  destruct Hact as [[-> ->]|[-> ->]]; cbn in E; injection E as <-;
    (split; [reflexivity|]); (split; [|exact Henc]); [left|right]; auto.
Qed.

(** ** Shape of the block chain *)

Lemma blocks_of_iter_outmost norm ud o i n :
  map outmost
    (blocks_of (Nat.iter n (middle_block norm ud o i) (innermost_block norm o i)))
  = repeat false (S n).
Proof.
  induction n as [|n IH]; [reflexivity|].
  rewrite Nat.iter_succ.
  cbn [blocks_of middle_block submodule map]. rewrite IH. reflexivity.
Qed.

Lemma blocks_of_iter_innermost norm ud o i n :
  map is_innermost
    (blocks_of (Nat.iter n (middle_block norm ud o i) (innermost_block norm o i)))
  = repeat false n ++ [true].
Proof.
  induction n as [|n IH]; [reflexivity|].
  rewrite Nat.iter_succ.
  cbn [blocks_of middle_block submodule map]. rewrite IH. reflexivity.
Qed.

Lemma blocks_of_iter_width norm ud o i n :
  map downconv_width
    (blocks_of (Nat.iter n (middle_block norm ud o i) (innermost_block norm o i)))
  = repeat (Some (o, i)) n ++ [Some (o, i)].
Proof.
  induction n as [|n IH]; [reflexivity|].
  rewrite Nat.iter_succ.
  cbn [blocks_of middle_block submodule map]. rewrite IH. reflexivity.
Qed.

(** C8, as the constructor has it.  A generator that was built is a
    chain of one outermost block, three blocks of widths nhf, 2 nhf and
    4 nhf, then [n] blocks of constant width 8 nhf and one innermost
    block, where [n] is num_downs - 5 cut off at 0; the chain has
    5 + n blocks, which is num_downs as soon as num_downs is at least 5. *)
Theorem unet_block_chain {R : Type} `{Scalar R}
    input_nc output_nc num_downs nhf norm_type use_dropout output_function
    key_len redundance_size (G : UnetGenerator R) :
  UnetGenerator_init input_nc output_nc num_downs nhf norm_type use_dropout
    output_function key_len redundance_size = Ret G ->
  let n := Z.to_nat (num_downs - 5) in
  let chain := blocks_of (model G) in
  map outmost chain = true :: repeat false (4 + n)
  /\ map is_innermost chain = repeat false (4 + n) ++ [true]
  /\ map downconv_width chain
     = Some (first_in_channels input_nc key_len, nhf)
       :: Some (nhf, nhf * 2) :: Some (nhf * 2, nhf * 4)
       :: Some (nhf * 4, nhf * 8)
       :: repeat (Some (nhf * 8, nhf * 8)) n ++ [Some (nhf * 8, nhf * 8)]
  /\ depth (model G) = 5 + n
  /\ ((5 <= num_downs)%Z -> Z.of_nat (depth (model G)) = num_downs).
Proof.
  intros E n chain.
  destruct (UnetGenerator_init_inv _ _ _ _ _ _ _ _ _ _ E)
    as (norm & act & enc & Hm & _ & _).
  fold n in Hm.
  assert (Hchain : chain
            = model G
              :: middle_block norm false nhf (nhf * 2)
                   (middle_block norm false (nhf * 2) (nhf * 4)
                      (middle_block norm false (nhf * 4) (nhf * 8)
                         (Nat.iter n (middle_block norm use_dropout (nhf * 8) (nhf * 8))
                            (innermost_block norm (nhf * 8) (nhf * 8)))))
              :: middle_block norm false (nhf * 2) (nhf * 4)
                   (middle_block norm false (nhf * 4) (nhf * 8)
                      (Nat.iter n (middle_block norm use_dropout (nhf * 8) (nhf * 8))
                         (innermost_block norm (nhf * 8) (nhf * 8))))
              :: middle_block norm false (nhf * 4) (nhf * 8)
                   (Nat.iter n (middle_block norm use_dropout (nhf * 8) (nhf * 8))
                      (innermost_block norm (nhf * 8) (nhf * 8)))
              :: blocks_of
                   (Nat.iter n (middle_block norm use_dropout (nhf * 8) (nhf * 8))
                      (innermost_block norm (nhf * 8) (nhf * 8)))).
  { unfold chain. rewrite Hm. reflexivity. }
  assert (Hlen : length chain = 5 + n).
  { rewrite <- (length_map outmost), Hchain. cbn [map].
    rewrite blocks_of_iter_outmost. cbn [length]. rewrite repeat_length. lia. }
  split; [|split; [|split; [|split]]].
  - rewrite Hchain. cbn [map]. rewrite blocks_of_iter_outmost, Hm. reflexivity.
  - rewrite Hchain. cbn [map]. rewrite blocks_of_iter_innermost, Hm. reflexivity.
  - rewrite Hchain. cbn [map]. rewrite blocks_of_iter_width, Hm. reflexivity.
  - exact Hlen.
  - intros Hge. unfold depth. fold chain. rewrite Hlen. unfold n. lia.
Qed.

(** C9. The factor chosen by the constructor is 10/255 for tanh and 1.0
    for sigmoid, and [forward] returns the factor times what the block
    tree returns, entry by entry. *)
Theorem unet_forward_scaled {R : Type} `{Scalar R}
    input_nc output_nc num_downs nhf norm_type use_dropout output_function
    key_len redundance_size (G : UnetGenerator R)
    (run : UnetSkipConnectionBlock -> Tensor4 R -> option (list R)
           -> outcome (Tensor4 R))
    (X : Tensor4 R) (k : option (list R)) (y : Tensor4 R) :
  UnetGenerator_init input_nc output_nc num_downs nhf norm_type use_dropout
    output_function key_len redundance_size = Ret G ->
  run (model G) X k = Ret y ->
  (output_function = "tanh" -> factor G = sdiv (sint 10) (sint 255))
  /\ (output_function = "sigmoid" -> factor G = sint 1)
  /\ (output_function = "tanh" \/ output_function = "sigmoid")
  /\ UnetGenerator_forward run G X k
     = Ret (mkT (size y) (map (map (map (map (smul (factor G))))) (imgs y))).
Proof.
  intros E Hrun.
  destruct (UnetGenerator_init_inv _ _ _ _ _ _ _ _ _ _ E)
    as (norm & act & enc & _ & Hf & _).
  split; [|split; [|split]].
  - intros ->. destruct Hf as [(_ & _ & Hf)|(Hs & _)];
      [exact Hf | discriminate].
  - intros ->. destruct Hf as [(Ht & _)|(_ & _ & Hf)];
      [discriminate | exact Hf].
  - destruct Hf as [(Ht & _)|(Hs & _)]; auto.
  - unfold UnetGenerator_forward. rewrite Hrun. reflexivity.
Qed.

(** ** Sizes through the hiding network *)

Lemma conv_out_half m : 0 < m -> conv_out (2 * m) 4 2 1 = m.
Proof.
  intros Hm. unfold conv_out.
  replace (2 * m + 2 * 1 - 4) with ((m - 1) * 2) by lia.
  rewrite Nat.div_mul by discriminate. lia.
Qed.

Lemma convT_out_double m : convT_out m 4 2 1 = 2 * m.
Proof. unfold convT_out. lia. Qed.

Lemma eqb_positive n : 0 < n -> (n =? 0) = false.
Proof. intros Hn. apply Nat.eqb_neq. lia. Qed.

Lemma layer_size_conv_half b c oc h w bias :
  0 < oc -> 0 < h -> 0 < w ->
  layer_size (Conv2d c oc 4 2 1 bias) (b, c, 2 * h, 2 * w) = Ret (b, oc, h, w).
Proof.
  intros Hoc Hh Hw. unfold layer_size.
  rewrite (eqb_positive oc Hoc), Nat.eqb_refl. cbn [negb].
  replace (2 * h + 2 * 1 <? 4) with false by (symmetry; apply Nat.ltb_ge; lia).
  replace (2 * w + 2 * 1 <? 4) with false by (symmetry; apply Nat.ltb_ge; lia).
  cbn [orb]. now rewrite !conv_out_half.
Qed.

Lemma layer_size_convT_double b c oc h w bias :
  0 < c ->
  layer_size (ConvTranspose2d c oc 4 2 1 bias) (b, c, h, w)
  = Ret (b, oc, 2 * h, 2 * w).
Proof.
  intros Hc. unfold layer_size.
  rewrite (eqb_positive c Hc), Nat.eqb_refl. cbn [negb].
  now rewrite !convT_out_double.
Qed.

(** What a normalization layer asks of the size it is given. *)
Lemma layer_size_norm norm b c h w :
  norm_accepts norm b h w ->
  layer_size (Norm norm c) (b, c, h, w) = Ret (b, c, h, w).
Proof.
  unfold norm_accepts, layer_size. destruct norm; intros Hn.
  - replace (b * h * w =? 1) with false by (symmetry; apply Nat.eqb_neq; exact Hn).
    now rewrite Nat.eqb_refl.
  - replace (h * w =? 1) with false by (symmetry; apply Nat.eqb_neq; exact Hn).
    reflexivity.
  - reflexivity.
Qed.

Lemma norm_accepts_even norm b h w : norm_accepts norm b (2 * h) w.
Proof. unfold norm_accepts. destruct norm; [nia | nia | exact I]. Qed.

Lemma layer_size_act l s :
  l = LeakyReLU \/ l = ReLU \/ l = Tanh \/ l = Sigmoid \/ l = Dropout ->
  layer_size l s = Ret s.
Proof.
  destruct s as [[[b c] h] w].
  intros [-> | [-> | [-> | [-> | ->]]]]; reflexivity.
Qed.

Ltac act_size := rewrite layer_size_act by tauto; cbn [bind].

Lemma cat1_size_same b c1 c2 h w :
  cat1_size (b, c1, h, w) (b, c2, h, w) = Ret (b, c1 + c2, h, w).
Proof. unfold cat1_size. now rewrite !Nat.eqb_refl. Qed.

Lemma halve d h :
  0 < h -> Nat.divide (2 ^ S d) h ->
  exists h', h = 2 * h' /\ 0 < h' /\ Nat.divide (2 ^ d) h'.
Proof.
  intros Hh [q Hq]. exists (q * 2 ^ d).
  rewrite Nat.pow_succ_r' in Hq.
  split; [lia|]. split; [nia|]. exists q. reflexivity.
Qed.

Lemma innermost_doubles norm o i :
  0 < i ->
  doubles_channels (innermost_block norm o i) 1 o.
Proof.
  intros Hi b h w Hh Hw Dh Dw.
  destruct (halve 0 h Hh Dh) as (h' & -> & Hh' & _).
  destruct (halve 0 w Hw Dw) as (w' & -> & Hw' & _).
  cbn [block_size innermost_block outmost down submodule up seq_size bind].
  act_size.
  rewrite layer_size_conv_half by assumption. cbn [bind].
  act_size.
  rewrite layer_size_convT_double by assumption. cbn [bind].
  rewrite layer_size_norm by apply norm_accepts_even. cbn [bind].
  rewrite cat1_size_same. replace (o + o) with (o * 2) by lia. reflexivity.
Qed.

(** Below an intermediate block the height is still even, so its
    normalization after the strided convolution sees more than one
    value. *)
Lemma middle_doubles norm use_dropout o i sub d :
  0 < i -> 0 < d ->
  doubles_channels sub d i ->
  doubles_channels (middle_block norm use_dropout o i sub) (S d) o.
Proof.
  intros Hi Hd Hsub b h w Hh Hw Dh Dw.
  destruct (halve d h Hh Dh) as (h' & -> & Hh' & Dh').
  destruct (halve d w Hw Dw) as (w' & -> & Hw' & Dw').
  cbn [block_size middle_block outmost down submodule up seq_size bind].
  act_size.
  rewrite layer_size_conv_half by assumption. cbn [bind].
  assert (Hn : norm_accepts norm b h' w').
  { destruct d as [|d']; [lia|].
    destruct (halve d' h' Hh' Dh') as (h'' & -> & _ & _).
    apply norm_accepts_even. }
  rewrite layer_size_norm by exact Hn. cbn [bind].
  rewrite (Hsub b h' w') by assumption. cbn [bind].
  assert (Hup :
            seq_size (if use_dropout
                      then [ReLU; ConvTranspose2d (i * 2) o 4 2 1 (use_bias_of norm);
                            Norm norm o] ++ [Dropout]
                      else [ReLU; ConvTranspose2d (i * 2) o 4 2 1 (use_bias_of norm);
                            Norm norm o]) (b, i * 2, h', w')
            = Ret (b, o, 2 * h', 2 * w')).
  { destruct use_dropout; cbn [app seq_size bind];
      act_size; rewrite layer_size_convT_double by lia; cbn [bind];
      rewrite layer_size_norm by apply norm_accepts_even; cbn [bind];
      try act_size; reflexivity. }
  rewrite Hup. cbn [bind].
  rewrite cat1_size_same. replace (o + o) with (o * 2) by lia. reflexivity.
Qed.

Lemma iter_middle_doubles norm use_dropout o n :
  0 < o ->
  doubles_channels
    (Nat.iter n (middle_block norm use_dropout o o) (innermost_block norm o o))
    (S n) o.
Proof.
  intros Ho. induction n as [|n IH]; [now apply innermost_doubles|].
  rewrite Nat.iter_succ. apply middle_doubles; [exact Ho | lia | exact IH].
Qed.

Lemma unet_body_doubles norm use_dropout nhf n :
  0 < nhf ->
  doubles_channels (unet_body norm use_dropout nhf n) (4 + n) nhf.
Proof.
  intros Hn. unfold unet_body.
  do 3 (apply middle_doubles; [lia | lia |]).
  apply iter_middle_doubles. lia.
Qed.

Lemma outermost_keeps_size norm first_nc output_nc nhf act rs enc sub d b h w :
  act = Tanh \/ act = Sigmoid ->
  0 < nhf ->
  doubles_channels sub d nhf ->
  0 < h -> 0 < w -> Nat.divide (2 ^ S d) h -> Nat.divide (2 ^ S d) w ->
  block_size (outermost_block norm first_nc output_nc nhf act rs enc sub)
    (b, first_nc, h, w) None
  = Ret (b, output_nc, h, w).
Proof.
  intros Hact Hn Hsub Hh Hw Dh Dw.
  destruct (halve d h Hh Dh) as (h' & -> & Hh' & Dh').
  destruct (halve d w Hw Dw) as (w' & -> & Hw' & Dw').
  cbn [block_size outermost_block outmost down submodule up seq_size bind].
  rewrite layer_size_conv_half by assumption. cbn [bind].
  rewrite (Hsub b h' w') by assumption. cbn [bind].
  act_size. rewrite layer_size_convT_double by lia. cbn [bind].
  destruct Hact as [-> | ->]; reflexivity.
Qed.

(** C6, as the constructor has it.  For a batch that is not empty, at
    least one input and one output channel and at least one filter
    (with nhf = 0 the first convolution has an empty weight and raises),
    a positive height and width divisible by 2 ^ max(num_downs, 5) and
    as many input channels as the first convolution expects, the hiding
    network returns a batch of the same batch size, height and width,
    with output_nc channels. *)
Theorem unet_output_size {R : Type} `{Scalar R}
    input_nc output_nc num_downs nhf norm_type use_dropout output_function
    key_len redundance_size (G : UnetGenerator R) (b h w : nat) :
  UnetGenerator_init input_nc output_nc num_downs nhf norm_type use_dropout
    output_function key_len redundance_size = Ret G ->
  0 < b -> 0 < input_nc -> 0 < output_nc -> 0 < nhf ->
  0 < h -> 0 < w ->
  Nat.divide (2 ^ Z.to_nat (Z.max num_downs 5)) h ->
  Nat.divide (2 ^ Z.to_nat (Z.max num_downs 5)) w ->
  UnetGenerator_size G (b, first_in_channels input_nc key_len, h, w) None
  = Ret (b, output_nc, h, w).
Proof.
  intros E _ _ _ Hnhf HH HW DH DW.
  destruct (UnetGenerator_init_inv _ _ _ _ _ _ _ _ _ _ E)
    as (norm & act & enc & Hm & Hf & _).
  unfold UnetGenerator_size. rewrite Hm.
  replace (Z.to_nat (Z.max num_downs 5))
    with (S (4 + Z.to_nat (num_downs - 5))) in DH, DW by lia.
  apply (outermost_keeps_size _ _ _ _ _ _ _ _ (4 + Z.to_nat (num_downs - 5)));
    auto using unet_body_doubles.
  destruct Hf as [(_ & -> & _)|(_ & -> & _)]; auto.
Qed.

(** ** Key injection *)

Section ListFacts.
Context {A : Type}.
Implicit Types (l : list A) (p : A -> bool).

Lemma length_chunks n count l : length (chunks n count l) = count.
Proof.
  revert l. induction count as [|count IH]; intros l; cbn [chunks length];
    [reflexivity | now rewrite IH].
Qed.

Lemma chunks_ok n count l p :
  n * count <= length l -> forallb p l = true ->
  forallb (fun ch => (length ch =? n) && forallb p ch) (chunks n count l) = true.
Proof.
  revert l. induction count as [|count IH]; intros l Hlen Hp; [reflexivity|].
  cbn [chunks forallb].
  rewrite length_firstn, Nat.min_l by lia.
  rewrite Nat.eqb_refl, forallb_firstn by exact Hp. cbn [andb].
  apply IH; [rewrite length_skipn; lia | now apply forallb_skipn].
Qed.

Lemma chunks_lengths n count l :
  n * count <= length l ->
  forallb (fun ch => length ch =? n) (chunks n count l) = true.
Proof.
  intros Hlen.
  assert (Hall : forallb (fun _ : A => true) l = true)
    by (apply forallb_forall; reflexivity).
  pose proof (chunks_ok n count l (fun _ => true) Hlen Hall) as Hc.
  rewrite forallb_forall in Hc. apply forallb_forall. intros ch Hin.
  specialize (Hc ch Hin). apply andb_true_iff in Hc. tauto.
Qed.

Lemma length_tile n l : length (tile n l) = n * length l.
Proof.
  unfold tile. induction n as [|n IH]; cbn [repeat concat length];
    [reflexivity | rewrite length_app, IH; lia].
Qed.

Lemma forallb_tile n l p : forallb p l = true -> forallb p (tile n l) = true.
Proof.
  intros Hp. unfold tile. induction n as [|n IH]; cbn [repeat concat];
    [reflexivity | now rewrite forallb_app, Hp, IH].
Qed.

Lemma forallb_map_in {B : Type} (f : B -> A) (q : B -> bool) p (lb : list B) :
  (forall x, q x = true -> p (f x) = true) ->
  forallb q lb = true -> forallb p (map f lb) = true.
Proof.
  intros Hf. induction lb as [|x lb IH]; cbn [map forallb]; [reflexivity|].
  intros Hq. apply andb_true_iff in Hq. destruct Hq as [Hx Hl].
  now rewrite (Hf x Hx), IH.
Qed.

End ListFacts.

Section KeyInjectionFacts.
Context {R : Type} `{Scalar R}.
Implicit Types (x y t : Tensor4 R) (k e : list R) (L : Linear R).

Lemma Linear_apply_ok L k :
  Linear_ok L = true -> length k = in_features L ->
  exists e, Linear_apply L k = Ret e /\ length e = out_features L.
Proof.
  unfold Linear_ok, Linear_apply. intros Hok Hk.
  apply andb_true_iff in Hok. destruct Hok as [Hok _].
  apply andb_true_iff in Hok. destruct Hok as [Hw Hb].
  apply Nat.eqb_eq in Hw, Hb.
  rewrite Hk, Nat.eqb_refl. eexists. split; [reflexivity|].
  rewrite length_map, length_combine. lia.
Qed.

Lemma view4_wf (v : list R) b c h w :
  length v = b * c * h * w ->
  exists t, view4 v (b, c, h, w) = Ret t /\ size t = (b, c, h, w) /\ wf t = true.
Proof.
  intros Hv. unfold view4. rewrite Hv, Nat.eqb_refl.
  eexists. split; [reflexivity|]. split; [reflexivity|].
  apply wf_intro; [apply length_chunks|].
  unfold image_ok. apply chunks_ok; [rewrite length_chunks; lia|].
  apply chunks_ok; [rewrite length_chunks; lia|].
  apply chunks_lengths. lia.
Qed.

Lemma repeat4_wf t b c h w rb rc rh rw :
  wf t = true -> size t = (b, c, h, w) ->
  size (repeat4 t rb rc rh rw) = (b * rb, c * rc, h * rh, w * rw)
  /\ wf (repeat4 t rb rc rh rw) = true.
Proof.
  intros Hwf Hs. destruct (wf_elim _ _ _ _ _ Hwf Hs) as [Hlen Hall].
  unfold repeat4. rewrite Hs. split; [reflexivity|].
  apply wf_intro.
  - rewrite length_tile, length_map. unfold image in *. nia.
  - apply forallb_tile.
    apply (forallb_map_in _ (image_ok c h w)); [|exact Hall].
    intros im Him. unfold image_ok in *.
    apply andb_true_iff in Him. destruct Him as [Hc Hch].
    apply Nat.eqb_eq in Hc.
    apply andb_true_iff. split.
    + apply Nat.eqb_eq. rewrite length_tile, length_map. nia.
    + apply forallb_tile.
      apply (forallb_map_in _
               (fun ch => (length ch =? h)
                          && forallb (fun row => length row =? w) ch));
        [|exact Hch].
      intros ch Hok. apply andb_true_iff in Hok. destruct Hok as [Hh Hrow].
      apply Nat.eqb_eq in Hh.
      apply andb_true_iff. split.
      * apply Nat.eqb_eq. rewrite length_tile, length_map. nia.
      * apply forallb_tile.
        apply (forallb_map_in _ (fun row => length row =? w)); [|exact Hrow].
        intros row Hr. apply Nat.eqb_eq in Hr. apply Nat.eqb_eq.
        rewrite length_tile. nia.
Qed.

Lemma cat1_pair x y b c1 c2 h w :
  size x = (b, c1, h, w) -> size y = (b, c2, h, w) ->
  cat1 [x; y] = Ret (mkT (b, c1 + c2, h, w) (zip_app (imgs x) (imgs y))).
Proof.
  intros Hx Hy. unfold cat1, bhw, channels. cbn [forallb map list_sum fold_left].
  rewrite Hx, Hy. rewrite chw_eqb_refl. cbn [andb].
  replace (list_sum [c1; c2]) with (c1 + c2) by (simpl; lia).
  reflexivity.
Qed.

Lemma cat1_mismatch x y b c1 h w b' c2 h' w' :
  size x = (b, c1, h, w) -> size y = (b', c2, h', w') ->
  b' <> b \/ h' <> h \/ w' <> w ->
  cat1 [x; y] = Raise (RuntimeError dim1_msg).
Proof.
  intros Hx Hy Hne. unfold cat1, bhw. cbn [forallb].
  rewrite Hx, Hy. rewrite chw_eqb_refl. cbn [andb].
  assert (Hf : chw_eqb (b', h', w') (b, h, w) = false).
  { unfold chw_eqb. apply andb_false_iff.
    rewrite andb_false_iff, !Nat.eqb_neq. tauto. }
  now rewrite Hf.
Qed.

Lemma zip_app_ok (xs ys : list (image R)) c1 c2 h w :
  forallb (image_ok c1 h w) xs = true -> forallb (image_ok c2 h w) ys = true ->
  forallb (image_ok (c1 + c2) h w) (zip_app xs ys) = true.
Proof.
  revert ys. induction xs as [|im xs IH]; intros [|im' ys]; try reflexivity.
  cbn [forallb zip_app combine map fst snd]. intros Hx Hy.
  apply andb_true_iff in Hx, Hy. destruct Hx as [Hi Hx], Hy as [Hi' Hy].
  apply andb_true_iff. split; [|apply IH; assumption].
  unfold image_ok in *.
  apply andb_true_iff in Hi, Hi'. destruct Hi as [Hl Hc], Hi' as [Hl' Hc'].
  apply Nat.eqb_eq in Hl, Hl'.
  rewrite length_app, forallb_app, Hc, Hc', Hl, Hl', Nat.eqb_refl.
  reflexivity.
Qed.

Lemma cat1_pair_wf x y b c1 c2 h w :
  wf x = true -> wf y = true ->
  size x = (b, c1, h, w) -> size y = (b, c2, h, w) ->
  wf (mkT (b, c1 + c2, h, w) (zip_app (imgs x) (imgs y))) = true.
Proof.
  intros Wx Wy Hx Hy.
  destruct (wf_elim _ _ _ _ _ Wx Hx) as [Lx Ax].
  destruct (wf_elim _ _ _ _ _ Wy Hy) as [Ly Ay].
  apply wf_intro; [|now apply zip_app_ok].
  unfold zip_app. rewrite length_map, length_combine.
  unfold image in *. lia.
Qed.

Lemma divide_mul_div r h : 0 < r -> Nat.divide r h -> r * (h / r) = h.
Proof.
  intros Hr [q ->]. rewrite Nat.div_mul by lia. lia.
Qed.

Lemma not_divide_mul_div r h : ~ Nat.divide r h -> r * (h / r) <> h.
Proof.
  intros Hnd Heq. apply Hnd. exists (h / r). lia.
Qed.

(** The tile before the concatenation: the projected key reshaped to
    [1, c, r, r] and repeated to [b, c, r (h//r), r (w//r)]. *)
Lemma key_tile_ok L k x r b c h w :
  Linear_ok L = true -> length k = in_features L ->
  out_features L = r ^ 2 * c -> 0 < r -> size x = (b, c, h, w) ->
  exists e v,
    Linear_apply L k = Ret e
    /\ view4 e (1, c, r, r) = Ret v
    /\ size v = (1, c, r, r) /\ wf v = true
    /\ key_tile (Some r) (Some L) x k = Ret (repeat4 v b 1 (h / r) (w / r))
    /\ size (repeat4 v b 1 (h / r) (w / r)) = (b, c, r * (h / r), r * (w / r))
    /\ wf (repeat4 v b 1 (h / r) (w / r)) = true.
Proof.
  intros Hok Hk Hout Hr Hs.
  destruct (Linear_apply_ok L k Hok Hk) as (e & He & Hlen).
  destruct (view4_wf e 1 c r r) as (v & Hv & Sv & Wv).
  { rewrite Hlen, Hout. cbn [Nat.pow]. lia. }
  destruct (repeat4_wf v 1 c r r b 1 (h / r) (w / r) Wv Sv) as [Sr Wr].
  exists e, v. repeat split; auto.
  - unfold key_tile. rewrite Hs, He. cbn [bind]. rewrite Hv. cbn [bind].
    unfold floordiv. destruct (Nat.eqb_spec r 0) as [->|_]; [lia|].
    reflexivity.
  - rewrite Sr. repeat f_equal; lia.
Qed.

End KeyInjectionFacts.

Section KeyInjectionClaim.
Context {R : Type} `{Scalar R}.
Implicit Types (x : Tensor4 R) (k : list R) (L : Linear R).

(** Whatever the encoder and the redundancy size are, a height or width
    that the redundancy size does not divide makes the injection raise. *)
Lemma inject_key_not_divisible_raises (enc : option (Linear R)) r x k b c h w :
  size x = (b, c, h, w) ->
  ~ Nat.divide r h \/ ~ Nat.divide r w ->
  exists err, inject_key (Some r) enc x k = Raise err.
Proof.
  intros Hs Hnd. unfold inject_key, key_tile. rewrite Hs.
  destruct enc as [L|]; [|eexists; reflexivity].
  unfold Linear_apply.
  destruct (length k =? in_features L); [|eexists; reflexivity].
  cbn [bind]. unfold view4.
  match goal with |- context [if ?c then _ else _] => destruct c end;
    [|eexists; reflexivity].
  cbn [bind]. unfold floordiv.
  destruct (r =? 0); [eexists; reflexivity|]. cbn [bind].
  eexists. eapply cat1_mismatch; [exact Hs | reflexivity |].
  destruct Hnd as [Hd|Hd]; apply not_divide_mul_div in Hd; lia.
Qed.

(** C7. The key is projected by the encoder, reshaped to [1, c, r, r]
    and repeated b times over the batch and h//r, w//r times over
    height and width.  When r divides h and w the tile has the size
    [b, c, h, w] of the input and both [forward] methods pass the
    channel-wise concatenation [b, 2c, h, w] on; when r does not divide
    h or w both raise the size-mismatch error of the concatenation. *)
Theorem key_injection L k x r b c h w
    (model convs : Tensor4 R -> outcome (Tensor4 R)) :
  Linear_ok L = true -> length k = in_features L ->
  out_features L = r ^ 2 * c -> 0 < r ->
  wf x = true -> size x = (b, c, h, w) ->
  (exists e v,
      Linear_apply L k = Ret e /\ view4 e (1, c, r, r) = Ret v
      /\ size v = (1, c, r, r) /\ wf v = true
      /\ key_tile (Some r) (Some L) x k = Ret (repeat4 v b 1 (h / r) (w / r)))
  /\ (Nat.divide r h -> Nat.divide r w ->
      exists ke xk,
        key_tile (Some r) (Some L) x k = Ret ke
        /\ size ke = (b, c, h, w) /\ wf ke = true
        /\ inject_key (Some r) (Some L) x k = Ret xk
        /\ xk = mkT (b, c + c, h, w) (zip_app (imgs x) (imgs ke))
        /\ wf xk = true
        /\ UnetSkipConnectionBlock_forward true (Some r) (Some L) model x (Some k)
           = model xk
        /\ RevealNet_forward (Some r) (Some L) convs x (Some k) = convs xk)
  /\ (~ Nat.divide r h \/ ~ Nat.divide r w ->
      UnetSkipConnectionBlock_forward true (Some r) (Some L) model x (Some k)
      = Raise (RuntimeError dim1_msg)
      /\ RevealNet_forward (Some r) (Some L) convs x (Some k)
         = Raise (RuntimeError dim1_msg)).
Proof.
  intros Hok Hk Hout Hr Hwf Hs.
  destruct (key_tile_ok L k x r b c h w Hok Hk Hout Hr Hs)
    as (e & v & He & Hv & Sv & Wv & Ht & St & Wt).
  split; [exists e, v; auto|]. split.
  - intros Dh Dw.
    rewrite (divide_mul_div r h Hr Dh), (divide_mul_div r w Hr Dw) in St.
    pose proof (cat1_pair x _ b c c h w Hs St) as Hcat.
    exists (repeat4 v b 1 (h / r) (w / r)).
    exists (mkT (b, c + c, h, w)
              (zip_app (imgs x) (imgs (repeat4 v b 1 (h / r) (w / r))))).
    assert (Hinj : inject_key (Some r) (Some L) x k
                   = Ret (mkT (b, c + c, h, w)
                            (zip_app (imgs x)
                               (imgs (repeat4 v b 1 (h / r) (w / r)))))).
    { unfold inject_key. rewrite Ht. cbn [bind]. exact Hcat. }
    repeat split; auto.
    + now apply cat1_pair_wf.
    + unfold UnetSkipConnectionBlock_forward. rewrite Hinj. reflexivity.
    + unfold RevealNet_forward. rewrite Hinj. reflexivity.
  - intros Hnd.
    assert (Hinj : inject_key (Some r) (Some L) x k
                   = Raise (RuntimeError dim1_msg)).
    { unfold inject_key. rewrite Ht. cbn [bind].
      eapply cat1_mismatch; [exact Hs | exact St |].
      destruct Hnd as [Hd|Hd]; apply not_divide_mul_div in Hd; lia. }
    split.
    + unfold UnetSkipConnectionBlock_forward. rewrite Hinj. reflexivity.
    + unfold RevealNet_forward. rewrite Hinj. reflexivity.
Qed.

End KeyInjectionClaim.

(** ** The forward pass *)

Section ForwardPassFacts.
Context {R : Type} `{Scalar R}.
Implicit Types (rnd : rng) (key fake : list bool) (sec cov : Tensor4 R).

Lemma key_equal_true key fake : key_equal fake key = true <-> fake = key.
Proof.
  unfold key_equal. destruct (list_eq_dec Bool.bool_dec fake key);
    split; congruence.
Qed.

Lemma key_equal_false key fake : key_equal fake key = false <-> fake <> key.
Proof.
  unfold key_equal. destruct (list_eq_dec Bool.bool_dec fake key);
    split; congruence.
Qed.

(** The loop leaves only with a fake key that differs from the key. *)
Lemma resample_sound fuel rnd w key :
  forall fake pos fk pos',
    resample fuel rnd w key fake pos = Ret (fk, pos') -> fk <> key.
Proof.
  induction fuel as [|fuel IH]; intros fake pos fk pos'; cbn [resample];
    destruct (key_equal fake key) eqn:E; try discriminate.
  - intros [= <- <-]. now apply key_equal_false.
  - unfold draw_key. apply IH.
  - intros [= <- <-]. now apply key_equal_false.
Qed.

Lemma resample_length fuel rnd w key :
  forall fake pos fk pos',
    length fake = w ->
    resample fuel rnd w key fake pos = Ret (fk, pos') -> length fk = w.
Proof.
  induction fuel as [|fuel IH]; intros fake pos fk pos' Hl; cbn [resample];
    destruct (key_equal fake key) eqn:E; try discriminate.
  - now intros [= <- <-].
  - unfold draw_key. apply IH. now rewrite length_map, length_seq.
  - now intros [= <- <-].
Qed.

(** The loop ends as soon as one of the next [n] draws differs. *)
Lemma resample_terminates rnd w key n :
  forall fake pos,
    (fake <> key
     \/ exists j, j < n /\ map rnd (seq (pos + j * w) w) <> key) ->
    exists fk pos', resample n rnd w key fake pos = Ret (fk, pos').
Proof.
  induction n as [|n IH]; intros fake pos Hex; cbn [resample];
    destruct (key_equal fake key) eqn:E; eauto.
  - apply key_equal_true in E.
    destruct Hex as [Hne|(j & Hj & _)]; [contradiction | lia].
  - apply key_equal_true in E. unfold draw_key. apply IH.
    destruct Hex as [Hne|(j & Hj & Hd)]; [contradiction|].
    destruct j as [|j].
    + left. now rewrite Nat.add_0_r in Hd.
    + right. exists j. split; [lia|].
      replace (pos + w + j * w) with (pos + S j * w) by lia. exact Hd.
Qed.

(** With width 0 every draw is the empty key and the loop never ends. *)
Lemma resample_width_zero fuel rnd pos :
  resample fuel rnd 0 [] [] pos = OutOfFuel.
Proof.
  revert pos. induction fuel as [|fuel IH]; intros pos; cbn [resample];
    [reflexivity|].
  cbn [key_equal draw_key seq map]. apply IH.
Qed.

(** C3, as the loop has it.  If one of the draws that follow the key
    differs from it, then with enough fuel the sampling returns the key
    and a fake key of the same length that is unequal to it (so the
    width is at least 1); and whatever the fuel, a returned fake key is
    unequal to the returned key. *)
Theorem fake_key_sampling rnd pos w n :
  map rnd (seq (pos + S n * w) w) <> map rnd (seq pos w) ->
  (exists fuel fake pos',
      sample_keys fuel rnd pos w = Ret (map rnd (seq pos w), fake, pos')
      /\ fake <> map rnd (seq pos w)
      /\ length fake = w)
  /\ 0 < w
  /\ (forall fuel key fake pos',
        sample_keys fuel rnd pos w = Ret (key, fake, pos') -> fake <> key).
Proof.
  intros Hd. split; [|split].
  - destruct (resample_terminates rnd w (map rnd (seq pos w)) (S n)
                (map rnd (seq (pos + w) w)) (pos + w + w)) as (fk & p' & Hr).
    { destruct n as [|n].
      - left. replace (pos + 1 * w) with (pos + w) in Hd by lia. exact Hd.
      - right. exists n. split; [lia|].
        replace (pos + w + w + n * w) with (pos + S (S n) * w) by lia.
        exact Hd. }
    exists (S n), fk, p'. unfold sample_keys, draw_key.
    rewrite Hr. cbn [bind]. split; [reflexivity|]. split.
    + eapply resample_sound; exact Hr.
    + eapply resample_length; [|exact Hr]. now rewrite length_map, length_seq.
  - destruct w as [|w]; [|lia]. now elim Hd.
  - intros fuel key fake pos'. unfold sample_keys, draw_key.
    intros E. apply bind_Ret_inv in E. destruct E as ([fk p] & Hr & E).
    injection E as <- <- <-. eapply resample_sound; exact Hr.
Qed.

End ForwardPassFacts.

Section ForwardPassClaims.
Context {R : Type} `{Scalar R}.
Implicit Types (rnd : rng) (key fake : list bool) (sec cov : Tensor4 R).

Lemma tile_singleton {A : Type} (n : nat) (a : A) : tile n [a] = repeat a n.
Proof.
  unfold tile. induction n as [|n IH]; [reflexivity|].
  cbn [repeat concat app]. now rewrite IH.
Qed.

Lemma tile_one {A : Type} (l : list A) : tile 1 l = l.
Proof. unfold tile. cbn. apply app_nil_r. Qed.

(** The key tile of [forward_pass]: every row of every channel of every
    image is the key. *)
Lemma red_rows key b c h w :
  length key = w ->
  red key b c h w
  = Ret (mkT (1 * b, 1 * c, 1 * h, w * 1)
             (repeat (repeat (repeat (key_tensor key) h) c) b)).
Proof.
  intros Hk. unfold red, view4.
  assert (Hl : length (key_tensor key) = w)
    by (unfold key_tensor; now rewrite length_map).
  replace (length (key_tensor key) =? 1 * 1 * 1 * w) with true
    by (symmetry; apply Nat.eqb_eq; lia).
  cbn [bind]. unfold repeat4. cbn [size imgs].
  cbn [chunks Nat.mul Nat.add firstn skipn map].
  rewrite firstn_all2 by lia.
  rewrite tile_one, !tile_singleton. reflexivity.
Qed.

(** Every quantity a returned forward pass was computed from. *)
Lemma forward_pass_inv fuel rnd pos sec cov Hnet Rnet criterion
    (cover_dependent : bool) out pos' :
  forward_pass fuel rnd pos sec cov Hnet Rnet criterion cover_dependent None
  = Ret (out, pos') ->
  exists b c h key fake red_key red_fake_key H_input H_output i i_,
    size cov = (b, c, h, h) /\ size sec = size cov
    /\ sample_keys fuel rnd pos h = Ret (key, fake, pos')
    /\ red key b c h h = Ret red_key
    /\ red fake b c h h = Ret red_fake_key
    /\ (if cover_dependent then cat1 [cov; sec; red_key]
        else cat1 [sec; red_key]) = Ret H_input
    /\ Hnet H_input = Ret H_output
    /\ (if cover_dependent then Ret H_output else tadd H_output cov)
       = Ret (container out)
    /\ criterion (container out) cov = Ret (H_loss out)
    /\ cat1 [container out; red_key] = Ret i
    /\ Rnet i = Ret (rev_secret out)
    /\ criterion (rev_secret out) sec = Ret (R_loss out)
    /\ cat1 [container out; red_fake_key] = Ret i_
    /\ Rnet i_ = Ret (rev_secret_ out)
    /\ criterion (rev_secret_ out) (tzeros (size cov)) = Ret (R_loss_ out)
    /\ cover out = cov /\ secret out = sec.
Proof.
  unfold forward_pass. intros E.
  apply bind_Ret_inv in E. destruct E as ([] & Hshape & E).
  destruct (size cov) as [[[b c] h] w] eqn:Hs.
  apply bind_Ret_inv in E. destruct E as ([] & Hsq & E).
  apply bind_Ret_inv in E. destruct E as ([[key fake] p] & Hkeys & E).
  apply bind_Ret_inv in E. destruct E as ([rk rfk] & Hred & E).
  apply bind_Ret_inv in Hred. destruct Hred as (red_key & Hrk & Hred).
  apply bind_Ret_inv in Hred. destruct Hred as (red_fake_key & Hrfk & Hred).
  injection Hred as <- <-. cbn [unbound bind] in E.
  apply bind_Ret_inv in E. destruct E as (H_input & Hin & E).
  apply bind_Ret_inv in E. destruct E as (H_output & Hout & E).
  apply bind_Ret_inv in E. destruct E as (cont & Hcont & E).
  apply bind_Ret_inv in E. destruct E as (hl & Hhl & E).
  apply bind_Ret_inv in E. destruct E as (rs & Hrs & E).
  apply bind_Ret_inv in Hrs. destruct Hrs as (i & Hi & Hrs).
  apply bind_Ret_inv in E. destruct E as (rl & Hrl & E).
  apply bind_Ret_inv in E. destruct E as (rs_ & Hrs_ & E).
  apply bind_Ret_inv in Hrs_. destruct Hrs_ as (i_ & Hi_ & Hrs_).
  apply bind_Ret_inv in E. destruct E as (rl_ & Hrl_ & E).
  apply bind_Ret_inv in E. destruct E as (hd & Hhd & E).
  apply bind_Ret_inv in E. destruct E as (rd & Hrd & E).
  injection E as <- <-. cbn [container H_loss rev_secret R_loss rev_secret_
                               R_loss_ cover secret].
  unfold py_assert in Hshape, Hsq.
  destruct (shape_eqb (b, c, h, w) (size sec)) eqn:Hse; [|discriminate].
  destruct (Nat.eqb_spec h w) as [<-|]; [|discriminate].
  assert (Hsec : size sec = (b, c, h, h)).
  { destruct (size sec) as [[[b2 c2] h2] w2]. unfold shape_eqb in Hse.
    repeat (apply andb_true_iff in Hse; destruct Hse as [Hse ?]).
    repeat match goal with
           | Hq : (_ =? _) = true |- _ => apply Nat.eqb_eq in Hq
           end.
    congruence. }
  exists b, c, h, key, fake, red_key, red_fake_key, H_input, H_output, i, i_.
  repeat split; auto.
Qed.

(** C4. In a forward pass that returns, the hiding network was called
    on cat(cover, secret, key tile) in the cover-dependent mode, where
    the container is its output, and on cat(secret, key tile)
    otherwise, where the container is its output plus the cover; the
    key tile repeats the sampled key along every row. *)
Theorem forward_pass_hiding_input fuel rnd pos sec cov Hnet Rnet criterion
    (cover_dependent : bool) out pos' :
  forward_pass fuel rnd pos sec cov Hnet Rnet criterion cover_dependent None
  = Ret (out, pos') ->
  exists b c h red_key H_input H_output,
    size cov = (b, c, h, h)
    /\ red_key = mkT (1 * b, 1 * c, 1 * h, h * 1)
                   (repeat (repeat (repeat (key_tensor (map rnd (seq pos h))) h) c) b)
    /\ Hnet H_input = Ret H_output
    /\ (cover_dependent = true ->
        cat1 [cov; sec; red_key] = Ret H_input
        /\ container out = H_output)
    /\ (cover_dependent = false ->
        cat1 [sec; red_key] = Ret H_input
        /\ tadd H_output cov = Ret (container out)).
Proof.
  intros E. apply forward_pass_inv in E.
  destruct E as (b & c & h & key & fake & red_key & rfk & H_input & H_output
                 & i & i_ & Hs & _ & Hkeys & Hrk & _ & Hin & Hout & Hcont & _).
  assert (Hkey : key = map rnd (seq pos h)).
  { unfold sample_keys, draw_key in Hkeys.
    apply bind_Ret_inv in Hkeys. destruct Hkeys as ([fk p] & _ & Hk).
    now injection Hk as <- _ _. }
  subst key.
  rewrite red_rows in Hrk by now rewrite length_map, length_seq.
  injection Hrk as <-.
  eexists b, c, h, _, H_input, H_output.
  split; [exact Hs|]. split; [reflexivity|]. split; [exact Hout|].
  split; intros ->; split; try assumption.
  now injection Hcont as <-.
Qed.

Lemma AverageMeter_update_returns (self : AverageMeter R) (v : R) (n : Z) :
  (count self + n <> 0)%Z ->
  AverageMeter_update self v n
  = Ret (mkMeter v (sdiv (sadd (sum self) (smul v (sint n)))
                         (sint (count self + n)))
           (sadd (sum self) (smul v (sint n))) (count self + n)%Z).
Proof.
  intros Hc. unfold AverageMeter_update.
  destruct (Z.eqb_spec (count self + n) 0); [contradiction | reflexivity].
Qed.

(** C5. When the forward pass returns and no meter is left with a count
    of 0 by its update (with meters that start from [reset], as those of
    [train] do: when the batch size is not 0), the training iteration
    returns and the scalar handed to backward, between zero_grad and
    step, is H_loss + beta * R_loss + gamma * R_loss_, where the three
    losses are the criterion on (container, cover), on (revealed secret,
    secret) and on (secret revealed with the fake key, zeros of the
    cover's size). *)
Theorem train_iteration_loss_sum opt fuel rnd st sec cov Hnet Rnet criterion
    (cover_dependent : bool) out pos' :
  forward_pass fuel rnd (rng_pos st) sec cov Hnet Rnet criterion
    cover_dependent None = Ret (out, pos') ->
  Forall (fun m => (count m + batch_size opt <> 0)%Z) (meters st) ->
  exists st',
    train_iteration opt fuel rnd st sec cov Hnet Rnet criterion cover_dependent
      = Ret (out, st')
    /\ events st'
       = events st
         ++ [ZeroGrad;
             Backward (sadd (sadd (H_loss out) (smul (beta opt) (R_loss out)))
                            (smul (gamma opt) (R_loss_ out)));
             Step]
    /\ criterion (container out) cov = Ret (H_loss out)
    /\ criterion (rev_secret out) sec = Ret (R_loss out)
    /\ criterion (rev_secret_ out) (tzeros (size cov)) = Ret (R_loss_ out)
    /\ size (tzeros (size cov)) = size cov
    /\ Forall (Forall (Forall (Forall (eq (sint 0))))) (imgs (tzeros (size cov))).
Proof.
  intros E Hm. unfold train_iteration. rewrite E. cbn [bind].
  unfold meters in Hm.
  repeat match goal with
         | Hm : Forall _ (_ :: _) |- _ =>
             let Hc := fresh "Hc" in
             apply Forall_cons_iff in Hm; destruct Hm as [Hc Hm]
         end.
  rewrite !AverageMeter_update_returns by assumption. cbn [bind].
  eexists. split; [reflexivity|]. cbn [events].
  split; [reflexivity|].
  apply forward_pass_inv in E.
  destruct E as (b & c & h & key & fake & red_key & rfk & H_input & H_output
                 & i & i_ & Hs & _ & _ & _ & _ & _ & _ & _ & Hhl & _ & _ & Hrl
                 & _ & _ & Hrl_ & _).
  repeat split; auto.
  - unfold tzeros. rewrite Hs. reflexivity.
  - unfold tzeros. rewrite Hs. cbn [imgs].
    repeat (apply Forall_forall; intros ? ->%repeat_spec).
    reflexivity.
Qed.

End ForwardPassClaims.

(** ** Keys followed on sizes *)

Lemma inject_key_size_ok r len b c h w :
  0 < r -> Nat.divide r h -> Nat.divide r w ->
  inject_key_size (Some r) (Some (len, r ^ 2 * c)) (b, c, h, w) len
  = Ret (b, c * 2, h, w).
Proof.
  intros Hr Dh Dw. unfold inject_key_size.
  rewrite Nat.eqb_refl. cbn [negb].
  replace (r ^ 2 * c =? 1 * c * r * r) with true
    by (symmetry; apply Nat.eqb_eq; cbn [Nat.pow]; lia).
  cbn [negb]. unfold floordiv.
  destruct (Nat.eqb_spec r 0) as [->|_]; [lia|]. cbn [bind].
  rewrite (divide_mul_div r h Hr Dh), (divide_mul_div r w Hr Dw).
  replace (1 * b) with b by lia. replace (c * 1) with c by lia.
  rewrite cat1_size_same. replace (c + c) with (c * 2) by lia. reflexivity.
Qed.

(** The sizes computed by [inject_key_size] are those of [inject_key] on
    tensor data, and both raise the same exception. *)
Lemma inject_key_size_sound {R : Type} `{Scalar R}
    (rs : option nat) (L : Linear R) (x : Tensor4 R) (k : list R) :
  Linear_ok L = true ->
  match inject_key rs (Some L) x k with
  | Ret t =>
      inject_key_size rs (Some (in_features L, out_features L)) (size x) (length k)
      = Ret (size t)
  | Raise err =>
      inject_key_size rs (Some (in_features L, out_features L)) (size x) (length k)
      = Raise err
  | OutOfFuel => False
  end.
Proof.
  intros Hok. unfold inject_key, key_tile, inject_key_size.
  destruct (size x) as [[[b c] h] w] eqn:Hs.
  destruct (Nat.eqb_spec (length k) (in_features L)) as [Hk|Hk].
  2:{ unfold Linear_apply.
      destruct (Nat.eqb_spec (length k) (in_features L)); [contradiction|].
      reflexivity. }
  destruct (Linear_apply_ok L k Hok Hk) as (e & He & Hlen).
  rewrite He. cbn [bind negb].
  destruct rs as [r|]; [|reflexivity].
  unfold view4. rewrite Hlen.
  destruct (out_features L =? 1 * c * r * r); [|reflexivity].
  cbn [bind negb]. unfold floordiv.
  destruct (r =? 0); [reflexivity|]. cbn [bind].
  unfold cat1, cat1_size, bhw, channels, repeat4.
  cbn [forallb size imgs map list_sum fold_left]. rewrite Hs.
  rewrite chw_eqb_refl. cbn [andb]. unfold chw_eqb.
  rewrite (Nat.eqb_sym (1 * b) b), (Nat.eqb_sym (r * (h / r)) h),
    (Nat.eqb_sym (r * (w / r)) w), andb_true_r.
  destruct ((b =? 1 * b) && (h =? r * (h / r)) && (w =? r * (w / r)));
    [|reflexivity].
  cbn [size]. replace (list_sum [c; c * 1]) with (c + c * 1) by (simpl; lia).
  reflexivity.
Qed.

(** The size law with a key: for a batch that is not empty, positive
    channel and filter counts, and a height and width that are positive
    multiples of both the redundancy size and 2 ^ max(num_downs, 5), the
    keyed hiding network returns the size of its input with output_nc
    channels. *)
Lemma unet_output_size_keyed {R : Type} `{Scalar R}
    input_nc output_nc num_downs nhf norm_type use_dropout output_function
    key_len r (G : UnetGenerator R) (b h w : nat) :
  UnetGenerator_init input_nc output_nc num_downs nhf norm_type use_dropout
    output_function (Some key_len) (Some r) = Ret G ->
  0 < b -> 0 < input_nc -> 0 < output_nc -> 0 < nhf ->
  0 < r -> Nat.divide r h -> Nat.divide r w ->
  0 < h -> 0 < w ->
  Nat.divide (2 ^ Z.to_nat (Z.max num_downs 5)) h ->
  Nat.divide (2 ^ Z.to_nat (Z.max num_downs 5)) w ->
  UnetGenerator_size G (b, input_nc, h, w) (Some key_len)
  = Ret (b, output_nc, h, w).
Proof.
  intros E _ _ _ Hnhf Hr Rh Rw Hh Hw Dh Dw.
  destruct (UnetGenerator_init_inv _ _ _ _ _ _ _ _ _ _ E)
    as (norm & act & enc & Hm & Hf & (r' & [= <-] & ->)).
  unfold UnetGenerator_size. rewrite Hm.
  replace (Z.to_nat (Z.max num_downs 5))
    with (S (4 + Z.to_nat (num_downs - 5))) in Dh, Dw by lia.
  pose proof (outermost_keeps_size norm (input_nc * 2) output_nc nhf act (Some r)
                (Some (key_len, r ^ 2 * input_nc))
                (unet_body norm use_dropout nhf (Z.to_nat (num_downs - 5)))
                (4 + Z.to_nat (num_downs - 5)) b h w) as Hout.
  cbn [first_in_channels] in *.
  cbn [block_size outermost_block outmost redundance_size encoder down
       submodule up] in Hout |- *.
  rewrite inject_key_size_ok by assumption. cbn [bind].
  apply Hout; auto using unet_body_doubles.
  destruct Hf as [(_ & -> & _)|(_ & -> & _)]; auto.
Qed.

(** ** Sizes through the reveal network *)

Lemma layer_size_conv_same b c oc h w bias :
  0 < oc -> 0 < h -> 0 < w ->
  layer_size (Conv2d c oc 3 1 1 bias) (b, c, h, w) = Ret (b, oc, h, w).
Proof.
  intros Hoc Hh Hw. unfold layer_size, conv_out.
  rewrite (eqb_positive oc Hoc), Nat.eqb_refl. cbn [negb].
  replace (h + 2 * 1 <? 3) with false by (symmetry; apply Nat.ltb_ge; lia).
  replace (w + 2 * 1 <? 3) with false by (symmetry; apply Nat.ltb_ge; lia).
  cbn [orb]. rewrite !Nat.div_1_r.
  replace (h + 2 * 1 - 3 + 1) with h by lia.
  replace (w + 2 * 1 - 3 + 1) with w by lia. reflexivity.
Qed.

Lemma RevealNet_init_inv input_nc output_nc nrf norm_type output_function
    key_len rs (N : RevealNet) :
  RevealNet_init input_nc output_nc nrf norm_type output_function key_len rs
  = Ret N ->
  exists norm enc,
    N = mkReveal rs enc
          (Conv2d (first_in_channels input_nc key_len) nrf 3 1 1 true)
          (Conv2d nrf (nrf * 2) 3 1 1 true)
          (Conv2d (nrf * 2) (nrf * 4) 3 1 1 true)
          (Conv2d (nrf * 4) (nrf * 2) 3 1 1 true)
          (Conv2d (nrf * 2) nrf 3 1 1 true)
          (Conv2d nrf output_nc 3 1 1 true)
          Sigmoid ReLU
          (Norm norm nrf) (Norm norm (nrf * 2)) (Norm norm (nrf * 4))
          (Norm norm (nrf * 2)) (Norm norm nrf)
    /\ output_function = "sigmoid"
    /\ match key_len with
       | None => enc = None
       | Some key_len =>
           exists r, rs = Some r /\ enc = Some (key_len, r ^ 2 * input_nc)
       end.
Proof.
  unfold RevealNet_init. intros E.
  apply bind_Ret_inv in E. destruct E as ([c1 enc] & Hc1 & E).
  apply bind_Ret_inv in E. destruct E as (out & Hout & E).
  apply bind_Ret_inv in E. destruct E as (norm & Hnorm & E).
  injection E as <-.
  destruct (output_function == "sigmoid") eqn:Es; [|discriminate].
  apply String.eqb_eq in Es. injection Hout as <-.
  exists norm, enc.
  destruct key_len as [kl|]; [destruct rs as [r|]; [|discriminate]|];
    injection Hc1 as <- <-; (split; [reflexivity|]); (split; [exact Es|]).
  - exists r. auto.
  - reflexivity.
Qed.

(** The normalization a constructor was given by name, and the sizes
    it accepts. *)
Lemma RevealNet_init_norm input_nc output_nc nrf norm_type output_function
    key_len rs (N : RevealNet) :
  RevealNet_init input_nc output_nc nrf norm_type output_function key_len rs
  = Ret N ->
  exists norm, get_norm_layer norm_type = Ret norm /\ norm1 N = Norm norm nrf.
Proof.
  unfold RevealNet_init. intros E.
  apply bind_Ret_inv in E. destruct E as ([c1 enc] & _ & E).
  apply bind_Ret_inv in E. destruct E as (out & _ & E).
  apply bind_Ret_inv in E. destruct E as (norm & Hnorm & E).
  injection E as <-. exists norm. split; [exact Hnorm | reflexivity].
Qed.

Lemma norm_accepts_of_type norm_type norm b h w :
  get_norm_layer norm_type = Ret norm ->
  (norm_accepts norm b h w
   <-> (norm_type = "batch" -> b * h * w <> 1)
       /\ (norm_type = "instance" -> h * w <> 1)).
Proof.
  unfold get_norm_layer, norm_accepts.
  destruct (String.eqb_spec norm_type "batch") as [->|Hb].
  { intros [= <-]. split; [intros Hn; split; [auto | discriminate] | tauto]. }
  destruct (String.eqb_spec norm_type "instance") as [->|Hi].
  { intros [= <-]. split; [intros Hn; split; [discriminate | auto] | tauto]. }
  destruct (String.eqb_spec norm_type "none") as [->|Hn]; [|discriminate].
  intros [= <-]. split; [intros _; split; discriminate | auto].
Qed.

Lemma reveal_convs_size norm c1 nrf output_nc b h w :
  0 < nrf -> 0 < output_nc -> norm_accepts norm b h w ->
  0 < h -> 0 < w ->
  seq_size [Conv2d c1 nrf 3 1 1 true; Norm norm nrf; ReLU;
            Conv2d nrf (nrf * 2) 3 1 1 true; Norm norm (nrf * 2); ReLU;
            Conv2d (nrf * 2) (nrf * 4) 3 1 1 true; Norm norm (nrf * 4); ReLU;
            Conv2d (nrf * 4) (nrf * 2) 3 1 1 true; Norm norm (nrf * 2); ReLU;
            Conv2d (nrf * 2) nrf 3 1 1 true; Norm norm nrf; ReLU;
            Conv2d nrf output_nc 3 1 1 true; Sigmoid] (b, c1, h, w)
  = Ret (b, output_nc, h, w).
Proof.
  intros Hnrf Hout Hn Hh Hw. cbn [seq_size].
  repeat (rewrite layer_size_conv_same by lia; cbn [bind];
          rewrite ?layer_size_norm by exact Hn; cbn [bind]; act_size).
  reflexivity.
Qed.

(** The normalization the reveal network was built with. *)
Lemma RevealNet_init_norm_inv input_nc output_nc nrf norm_type output_function
    key_len rs (N : RevealNet) :
  RevealNet_init input_nc output_nc nrf norm_type output_function key_len rs
  = Ret N ->
  exists norm enc,
    get_norm_layer norm_type = Ret norm
    /\ N = mkReveal rs enc
              (Conv2d (first_in_channels input_nc key_len) nrf 3 1 1 true)
              (Conv2d nrf (nrf * 2) 3 1 1 true)
              (Conv2d (nrf * 2) (nrf * 4) 3 1 1 true)
              (Conv2d (nrf * 4) (nrf * 2) 3 1 1 true)
              (Conv2d (nrf * 2) nrf 3 1 1 true)
              (Conv2d nrf output_nc 3 1 1 true)
              Sigmoid ReLU
              (Norm norm nrf) (Norm norm (nrf * 2)) (Norm norm (nrf * 4))
              (Norm norm (nrf * 2)) (Norm norm nrf).
Proof.
  intros E.
  destruct (RevealNet_init_inv _ _ _ _ _ _ _ _ E) as (norm & enc & EN & _ & _).
  destruct (RevealNet_init_norm _ _ _ _ _ _ _ _ E) as (norm' & Hg & Hn1).
  rewrite EN in Hn1. cbn [norm1] in Hn1. injection Hn1 as ->.
  exists norm', enc. split; [exact Hg | exact EN].
Qed.

(** The reveal network returns a batch of the height and width it was
    given, with output_nc channels, without and with a key, when its
    normalization accepts the size. *)
Lemma RevealNet_output_size input_nc output_nc nrf norm_type output_function
    key_len rs (N : RevealNet) b h w :
  RevealNet_init input_nc output_nc nrf norm_type output_function key_len rs
  = Ret N ->
  0 < output_nc -> 0 < nrf ->
  (norm_type = "batch" -> b * h * w <> 1) ->
  (norm_type = "instance" -> h * w <> 1) ->
  0 < h -> 0 < w ->
  RevealNet_size N (b, first_in_channels input_nc key_len, h, w) None
  = Ret (b, output_nc, h, w).
Proof.
  intros E Hout Hnrf Hb Hi Hh Hw.
  destruct (RevealNet_init_norm_inv _ _ _ _ _ _ _ _ E) as (norm & enc & Hg & ->).
  unfold RevealNet_size. cbn [bind conv1 conv2 conv3 conv4 conv5 conv6 output
                              relu norm1 norm2 norm3 norm4 norm5].
  apply reveal_convs_size; try assumption.
  apply (norm_accepts_of_type norm_type); [exact Hg | split; assumption].
Qed.

(** The reveal network with a key: for a batch that is not empty,
    positive channel and filter counts, a height and width that are
    positive multiples of the redundancy size, and a size its
    normalization accepts (batch normalization refuses a single 1x1
    image, instance normalization every 1x1 image), it returns the size
    of its input with output_nc channels. *)
Lemma RevealNet_output_size_keyed input_nc output_nc nrf norm_type output_function
    key_len r (N : RevealNet) b h w :
  RevealNet_init input_nc output_nc nrf norm_type output_function
    (Some key_len) (Some r) = Ret N ->
  0 < b -> 0 < input_nc -> 0 < output_nc -> 0 < nrf ->
  (norm_type = "batch" -> b * h * w <> 1) ->
  (norm_type = "instance" -> h * w <> 1) ->
  0 < r -> Nat.divide r h -> Nat.divide r w -> 0 < h -> 0 < w ->
  RevealNet_size N (b, input_nc, h, w) (Some key_len) = Ret (b, output_nc, h, w).
Proof.
  intros E _ _ Hout Hnrf Hb Hi Hr Rh Rw Hh Hw.
  destruct (RevealNet_init_norm_inv _ _ _ _ _ _ _ _ E) as (norm & enc & Hg & EN).
  destruct (RevealNet_init_inv _ _ _ _ _ _ _ _ E)
    as (norm' & enc' & EN' & _ & (r' & [= <-] & Henc)).
  assert (enc = enc') by congruence. subst enc' enc. rewrite EN.
  unfold RevealNet_size.
  cbn [bind conv1 conv2 conv3 conv4 conv5 conv6 output relu norm1 norm2 norm3
       norm4 norm5 r_redundance_size r_encoder first_in_channels].
  rewrite inject_key_size_ok by assumption. cbn [bind].
  apply reveal_convs_size; try assumption.
  apply (norm_accepts_of_type norm_type); [exact Hg | split; assumption].
Qed.

(** ** Worked examples of the statements above *)

Lemma pass_through_preserves : preserves_shape pass_through.
Proof. intros x Hx. split; [exact Hx | reflexivity]. Qed.

(** In combine mode a batch of five pass-through images comes back whole. *)
Lemma combine_five_slices_example :
  exists Y,
    AttackNet_forward (attack_with "combine") batch_of_five = Ret Y
    /\ size Y = (5, 1, 1, 1) /\ wf Y = true.
Proof.
  destruct (combine_five_slices (attack_with "combine") batch_of_five 5 1 1 1 1
              eq_refl eq_refl eq_refl eq_refl
              pass_through_preserves pass_through_preserves
              pass_through_preserves pass_through_preserves
              pass_through_preserves)
    as (_ & Y & HY & _ & HS & HW).
  exists Y. auto.
Defined.

(** The noise type "rotate" is none of the five recognised names. *)
Lemma attack_unknown_noise_type_example :
  AttackNet_forward (attack_with "rotate") batch_of_five
  = Raise (UnboundLocalError "X_noise")
  /\ is_NotImplementedError
       (AttackNet_forward (attack_with "rotate") batch_of_five) = false.
Proof.
  apply (attack_unknown_noise_type (attack_with "rotate") batch_of_five);
    cbn; discriminate.
Defined.

(** In blur mode two of five images go through the identity layer. *)
Lemma single_mode_split_example :
  exists Y,
    AttackNet_forward (attack_with "blur") batch_of_five = Ret Y
    /\ size Y = (5, 1, 1, 1) /\ 2 * 5 / 5 < 5 - 2 * 5 / 5.
Proof.
  destruct (single_mode_split (attack_with "blur") batch_of_five 5 1 1 1
              pass_through eq_refl eq_refl eq_refl
              pass_through_preserves pass_through_preserves)
    as (_ & _ & _ & (Y & HY & _ & HS & _) & _ & Hlt).
  exists Y. split; [exact HY|]. split; [exact HS|]. apply Hlt. lia.
Defined.

(** With alternating draws the first fake key already differs. *)
Lemma fake_key_sampling_example :
  exists fuel fake pos',
    sample_keys fuel alternating 0 1 = Ret ([true], fake, pos')
    /\ fake <> [true].
Proof.
  destruct (fake_key_sampling alternating 0 1 0) as ((fuel & fake & p & E & Hne & _) & _).
  - cbn. discriminate.
  - exists fuel, fake, p. split; assumption.
Defined.

(** For images of width 0 the sampling of the fake key never returns:
    the key and every draw are empty. *)
Lemma fake_key_sampling_width_zero :
  ~ exists fuel out,
      forward_pass fuel alternating 0 empty_width empty_width
        (constant_net 0) (constant_net 0) zero_criterion true None = Ret out.
Proof.
  intros (fuel & out & E). unfold forward_pass in E.
  cbn [empty_width size shape_eqb Nat.eqb andb py_assert bind] in E.
  unfold sample_keys in E. cbn [draw_key seq map] in E.
  rewrite resample_width_zero in E. discriminate.
Qed.

(** A cover-independent pass on one pixel: the container is the output
    of the hiding network plus the cover. *)
Lemma forward_pass_hiding_input_example :
  exists out pos' H_input,
    forward_pass 0 alternating 0 (one_pixel 7) (one_pixel 2)
      (constant_net 3) (constant_net 9) zero_criterion false None
    = Ret (out, pos')
    /\ constant_net 3 H_input = Ret (one_pixel 3)
    /\ tadd (one_pixel 3) (one_pixel 2) = Ret (container out).
Proof.
  assert (E : forward_pass 0 alternating 0 (one_pixel 7) (one_pixel 2)
                (constant_net 3) (constant_net 9) zero_criterion false None
              = Ret (mkForward (one_pixel 2) (one_pixel 5) (one_pixel 7)
                       (one_pixel 9) (one_pixel 9) 0%Z 0%Z 0%Z 765%Z 510%Z 2295%Z,
                     2))
    by (vm_compute; reflexivity).
  destruct (forward_pass_hiding_input _ _ _ _ _ _ _ _ _ _ _ E)
    as (b & c & h & rk & H_input & H_output & _ & _ & Hnet & _ & Hudh).
  destruct (Hudh eq_refl) as [_ Hadd].
  eexists _, _, H_input. split; [exact E|].
  assert (Ho : H_output = one_pixel 3) by (unfold constant_net in Hnet; congruence).
  subst H_output. split; [exact Hnet | exact Hadd].
Defined.

(** The same pass inside a training iteration with beta = 2, gamma = 3. *)
Lemma train_iteration_loss_sum_example :
  exists out st',
    train_iteration (mkOpt 1%Z 2%Z 3%Z) 0 alternating fresh_train_state
      (one_pixel 7) (one_pixel 2) (constant_net 3) (constant_net 9)
      zero_criterion false = Ret (out, st')
    /\ events st'
       = [ZeroGrad;
          Backward (H_loss out + 2 * R_loss out + 3 * R_loss_ out)%Z;
          Step].
Proof.
  assert (E : forward_pass 0 alternating (rng_pos fresh_train_state)
                (one_pixel 7) (one_pixel 2)
                (constant_net 3) (constant_net 9) zero_criterion false None
              = Ret (mkForward (one_pixel 2) (one_pixel 5) (one_pixel 7)
                       (one_pixel 9) (one_pixel 9) 0%Z 0%Z 0%Z 765%Z 510%Z 2295%Z,
                     2))
    by (vm_compute; reflexivity).
  destruct (train_iteration_loss_sum (mkOpt 1%Z 2%Z 3%Z) _ _ _ _ _ _ _ _ _ _ _ E
              ltac:(repeat constructor; discriminate))
    as (st' & Hst & Hev & _).
  eexists _, st'. split; [exact Hst | exact Hev].
Defined.

(** A depth-5 generator on 32x32 images. *)
Lemma unet_output_size_example :
  exists G : UnetGenerator Z,
    UnetGenerator_init 6 3 5 1 "none" false "sigmoid" None None = Ret G
    /\ UnetGenerator_size G (2, 6, 32, 32) None = Ret (2, 3, 32, 32).
Proof.
  eexists. split; [vm_compute; reflexivity|].
  apply (unet_output_size 6 3 5 1 "none" false "sigmoid" None None _ 2 32 32);
    try lia.
  - vm_compute; reflexivity.
  - exists 1. reflexivity.
  - exists 1. reflexivity.
Defined.

(** With num_downs = 3 the chain still has five blocks: an 8x8 input,
    although divisible by 2^3, is used up before the innermost block. *)
Lemma unet_output_size_fails_below_five :
  exists G : UnetGenerator Z,
    UnetGenerator_init 6 3 3 1 "none" false "sigmoid" None None = Ret G
    /\ Nat.divide (2 ^ 3) 8
    /\ UnetGenerator_size G (2, 6, 8, 8) None
       = Raise (RuntimeError "Kernel size can't be greater than actual input size").
Proof.
  eexists. split; [vm_compute; reflexivity|].
  split; [exists 1; reflexivity | vm_compute; reflexivity].
Qed.

(** A key of length 2 against a 4x4 image, redundancy size 2. *)
Lemma key_injection_example :
  (exists ke xk,
      key_tile (Some 2) (Some encoder_2x2) image_4x4 [1; 0]%Z = Ret ke
      /\ size ke = (1, 1, 4, 4)
      /\ inject_key (Some 2) (Some encoder_2x2) image_4x4 [1; 0]%Z = Ret xk
      /\ size xk = (1, 2, 4, 4))
  /\ RevealNet_forward (Some 3) (Some encoder_3x3) (fun x => Ret x) image_4x4
       (Some [1; 0]%Z)
     = Raise (RuntimeError dim1_msg).
Proof.
  split.
  - destruct (key_injection encoder_2x2 [1; 0]%Z image_4x4 2 1 1 4 4
                (fun x => Ret x) (fun x => Ret x)
                eq_refl eq_refl eq_refl ltac:(lia) eq_refl eq_refl)
      as (_ & Hdiv & _).
    destruct Hdiv as (ke & xk & Hke & Sk & _ & Hxk & -> & _);
      [exists 2; reflexivity | exists 2; reflexivity |].
    exists ke. eexists. repeat split; eauto.
  - destruct (key_injection encoder_3x3 [1; 0]%Z image_4x4 3 1 1 4 4
                (fun x => Ret x) (fun x => Ret x)
                eq_refl eq_refl eq_refl ltac:(lia) eq_refl eq_refl)
      as (_ & _ & Hnd).
    apply Hnd. left. intros [q Hq]. lia.
Defined.

(** A generator with num_downs = 7 has seven blocks, two of them of
    constant width between the halving blocks and the innermost one. *)
Lemma unet_block_chain_example :
  exists G : UnetGenerator Z,
    UnetGenerator_init 6 3 7 1 "none" false "tanh" None None = Ret G
    /\ depth (model G) = 7
    /\ map downconv_width (blocks_of (model G))
       = [Some (6, 1); Some (1, 2); Some (2, 4); Some (4, 8);
          Some (8, 8); Some (8, 8); Some (8, 8)].
Proof.
  eexists. split; [vm_compute; reflexivity|].
  destruct (unet_block_chain (R := Z) 6 3 7 1 "none" false "tanh" None None _
              ltac:(vm_compute; reflexivity))
    as (_ & _ & Hw & Hd & _).
  split; [exact Hd | exact Hw].
Defined.

(** With num_downs = 3 the generator has five blocks, not three, and no
    block of constant width is removed to make up for it. *)
Lemma unet_depth_below_five :
  exists G : UnetGenerator Z,
    UnetGenerator_init 6 3 3 1 "none" false "sigmoid" None None = Ret G
    /\ depth (model G) = 5
    /\ Z.of_nat (depth (model G)) <> 3%Z.
Proof.
  eexists. split; [vm_compute; reflexivity|].
  split; [reflexivity | vm_compute; discriminate].
Qed.

(** A tanh generator scales by 10/255 (0 on integer scalars). *)
Lemma unet_forward_scaled_example :
  exists G : UnetGenerator Z,
    UnetGenerator_init 6 3 5 1 "none" false "tanh" None None = Ret G
    /\ factor G = (10 / 255)%Z
    /\ UnetGenerator_forward run_echo G image_4x4 None
       = Ret (mkT (1, 1, 4, 4)
                (map (map (map (map (Z.mul (factor G))))) (imgs image_4x4))).
Proof.
  eexists. split; [vm_compute; reflexivity|].
  destruct (unet_forward_scaled (R := Z) 6 3 5 1 "none" false "tanh" None None _
              run_echo image_4x4 None image_4x4
              ltac:(vm_compute; reflexivity) eq_refl)
    as (Ht & _ & _ & Hf).
  split; [exact (Ht eq_refl) | exact Hf].
Defined.

(** The scenario of a batch of ten 256x256 colour images, num_downs = 7,
    keys of length 256 and redundancy size 16: the hiding network returns
    a batch of the size of its input. *)
Lemma unet_output_size_keyed_example :
  exists G : UnetGenerator Z,
    UnetGenerator_init 3 3 7 64 "none" false "sigmoid" (Some 256) (Some 16) = Ret G
    /\ UnetGenerator_size G (10, 3, 256, 256) (Some 256) = Ret (10, 3, 256, 256).
Proof.
  eexists. split; [vm_compute; reflexivity|].
  apply (unet_output_size_keyed 3 3 7 64 "none" false "sigmoid" 256 16);
    try lia; try (vm_compute; reflexivity).
  - exists 16. reflexivity.
  - exists 16. reflexivity.
  - exists 2. reflexivity.
  - exists 2. reflexivity.
Defined.

(** The same scenario for the reveal network. *)
Lemma RevealNet_output_size_keyed_example :
  exists N : RevealNet,
    RevealNet_init 3 3 64 "none" "sigmoid" (Some 256) (Some 16) = Ret N
    /\ RevealNet_size N (10, 3, 256, 256) (Some 256) = Ret (10, 3, 256, 256).
Proof.
  eexists. split; [vm_compute; reflexivity|].
  apply (RevealNet_output_size_keyed 3 3 64 "none" "sigmoid" 256 16);
    try lia; try discriminate; try (vm_compute; reflexivity).
  - exists 16. reflexivity.
  - exists 16. reflexivity.
Defined.

(** * Further properties of the code *)

(** ** Which configurations the constructors accept *)

Lemma get_norm_layer_supported norm_type :
  (exists norm, get_norm_layer norm_type = Ret norm)
  <-> norm_type = "batch" \/ norm_type = "instance" \/ norm_type = "none".
Proof.
  unfold get_norm_layer. split.
  - intros [norm E].
    destruct (String.eqb_spec norm_type "batch"); [tauto|].
    destruct (String.eqb_spec norm_type "instance"); [tauto|].
    destruct (String.eqb_spec norm_type "none"); [tauto|discriminate].
  - intros [-> | [-> | ->]]; cbn; eauto.
Qed.

(** [UnetGenerator.__init__] returns exactly for a supported
    normalisation name, the activation tanh or sigmoid, and a key length
    that comes with a redundancy size; num_downs plays no role. *)
Theorem UnetGenerator_init_returns_iff {R : Type} `{Scalar R}
    input_nc output_nc num_downs nhf norm_type use_dropout output_function
    key_len rs :
  (exists G : UnetGenerator R,
      UnetGenerator_init input_nc output_nc num_downs nhf norm_type use_dropout
        output_function key_len rs = Ret G)
  <-> (norm_type = "batch" \/ norm_type = "instance" \/ norm_type = "none")
      /\ (output_function = "tanh" \/ output_function = "sigmoid")
      /\ (key_len = None \/ rs <> None).
Proof.
  split.
  - intros [G E]. split; [|split].
    + apply get_norm_layer_supported.
      destruct (get_norm_layer_Ret_inv norm_type _ eq_refl) as [Hn|[e He]];
        [exact Hn|].
      unfold UnetGenerator_init in E. rewrite He in E. discriminate.
    + destruct (UnetGenerator_init_inv _ _ _ _ _ _ _ _ _ _ E)
        as (_ & _ & _ & _ & [(Ht & _)|(Hs & _)] & _); auto.
    + destruct (UnetGenerator_init_inv _ _ _ _ _ _ _ _ _ _ E)
        as (norm & act & enc & _ & _ & Hk).
      destruct key_len as [kl|]; [right|left; reflexivity].
      destruct Hk as (r & Hr & _). rewrite Hr. discriminate.
  - intros (Hn & Hof & Hk).
    apply get_norm_layer_supported in Hn. destruct Hn as [norm Hn].
    rewrite (UnetGenerator_init_body _ _ _ _ _ norm) by exact Hn.
    unfold UnetSkipConnectionBlock_init.
    destruct key_len as [kl|]; [destruct rs as [r|]|].
    + destruct Hof as [-> | ->]; cbn; eauto.
    + destruct Hk as [Hk|Hk]; [discriminate | now elim Hk].
    + destruct Hof as [-> | ->]; cbn; eauto.
Qed.

(** [RevealNet.__init__] returns exactly for the activation sigmoid, a
    supported normalisation name, and a key length that comes with a
    redundancy size: tanh, which the hiding network accepts, is refused. *)
Theorem RevealNet_init_returns_iff
    input_nc output_nc nrf norm_type output_function key_len rs :
  (exists N, RevealNet_init input_nc output_nc nrf norm_type output_function
               key_len rs = Ret N)
  <-> (norm_type = "batch" \/ norm_type = "instance" \/ norm_type = "none")
      /\ output_function = "sigmoid"
      /\ (key_len = None \/ rs <> None).
Proof.
  split.
  - intros [N E].
    destruct (RevealNet_init_inv _ _ _ _ _ _ _ _ E) as (norm & enc & _ & Hs & Hk).
    split; [|split; [exact Hs|]].
    + apply get_norm_layer_supported. unfold RevealNet_init in E.
      apply bind_Ret_inv in E. destruct E as ([c1 e1] & _ & E).
      apply bind_Ret_inv in E. destruct E as (out & _ & E).
      apply bind_Ret_inv in E. destruct E as (n & Hn & _). eauto.
    + destruct key_len as [kl|]; [right|left; reflexivity].
      destruct Hk as (r & Hr & _). rewrite Hr. discriminate.
  - intros (Hn & -> & Hk).
    apply get_norm_layer_supported in Hn. destruct Hn as [norm Hn].
    unfold RevealNet_init.
    destruct key_len as [kl|]; [destruct rs as [r|]|]; cbn [bind].
    + rewrite String.eqb_refl. cbn [bind]. rewrite Hn. cbn [bind]. eauto.
    + destruct Hk as [Hk|Hk]; [discriminate | now elim Hk].
    + rewrite String.eqb_refl. cbn [bind]. rewrite Hn. cbn [bind]. eauto.
Qed.

(** A key length without a redundancy size makes both constructors fail
    on [redundance_size**2] with a TypeError, before the activation name
    is looked at. *)
Theorem key_len_without_redundance_size {R : Type} `{Scalar R}
    input_nc output_nc num_downs nhf nrf norm_type norm use_dropout
    output_function key_len :
  get_norm_layer norm_type = Ret norm ->
  UnetGenerator_init (R := R) input_nc output_nc num_downs nhf norm_type
    use_dropout output_function (Some key_len) None
  = Raise (TypeError "unsupported operand type(s) for ** or pow(): 'NoneType' and 'int'")
  /\ RevealNet_init input_nc output_nc nrf norm_type output_function
       (Some key_len) None
     = Raise (TypeError "unsupported operand type(s) for ** or pow(): 'NoneType' and 'int'").
Proof.
  intros Hn. split; [|reflexivity].
  rewrite (UnetGenerator_init_body _ _ _ _ _ norm) by exact Hn. reflexivity.
Qed.

Lemma key_len_without_redundance_size_example :
  UnetGenerator_init (R := Z) 3 3 7 64 "batch" false "relu" (Some 256) None
  = Raise (TypeError "unsupported operand type(s) for ** or pow(): 'NoneType' and 'int'")
  /\ RevealNet_init 3 3 64 "batch" "relu" (Some 256) None
     = Raise (TypeError "unsupported operand type(s) for ** or pow(): 'NoneType' and 'int'").
Proof.
  apply (key_len_without_redundance_size (R := Z) 3 3 7 64 64 "batch" BatchNorm2d
           false "relu" 256).
  reflexivity.
Defined.

(** ** When the hiding network returns, and what size *)

Lemma conv_out_div2 h : 2 <= h -> conv_out h 4 2 1 = h / 2.
Proof.
  intros Hh. unfold conv_out.
  pose proof (Nat.div_mod_eq h 2) as Hd.
  pose proof (Nat.mod_upper_bound h 2 ltac:(lia)) as Hm.
  assert (Hq : 1 <= h / 2) by (apply Nat.div_le_lower_bound; lia).
  assert (Hu : h / 2 - 1 = (h + 2 * 1 - 4) / 2)
    by (apply (Nat.div_unique _ 2 _ (h mod 2)); lia).
  lia.
Qed.

Lemma layer_size_conv_inv b c h w ic oc bias s :
  layer_size (Conv2d ic oc 4 2 1 bias) (b, c, h, w) = Ret s ->
  c = ic /\ 2 <= h /\ 2 <= w /\ s = (b, oc, h / 2, w / 2).
Proof.
  unfold layer_size.
  destruct (oc =? 0); [discriminate|].
  destruct (Nat.eqb_spec c ic) as [->|]; cbn [negb]; [|discriminate].
  destruct (Nat.ltb_spec (h + 2 * 1) 4); cbn [orb]; [discriminate|].
  destruct (Nat.ltb_spec (w + 2 * 1) 4); [discriminate|].
  intros [= <-]. rewrite !conv_out_div2 by lia. repeat split; lia.
Qed.

Lemma layer_size_conv_div2 b c oc h w bias :
  0 < oc -> 2 <= h -> 2 <= w ->
  layer_size (Conv2d c oc 4 2 1 bias) (b, c, h, w) = Ret (b, oc, h / 2, w / 2).
Proof.
  intros Hoc Hh Hw. unfold layer_size.
  rewrite (eqb_positive oc Hoc), Nat.eqb_refl. cbn [negb].
  replace (h + 2 * 1 <? 4) with false by (symmetry; apply Nat.ltb_ge; lia).
  replace (w + 2 * 1 <? 4) with false by (symmetry; apply Nat.ltb_ge; lia).
  cbn [orb]. now rewrite !conv_out_div2.
Qed.

Lemma layer_size_convT_inv b c h w ic oc bias s :
  layer_size (ConvTranspose2d ic oc 4 2 1 bias) (b, c, h, w) = Ret s ->
  c = ic /\ s = (b, oc, 2 * h, 2 * w).
Proof.
  unfold layer_size.
  destruct (ic =? 0); [discriminate|].
  destruct (Nat.eqb_spec c ic) as [->|]; cbn [negb]; [|discriminate].
  intros [= <-]. now rewrite !convT_out_double.
Qed.

Lemma layer_size_norm_inv norm nf s s' :
  layer_size (Norm norm nf) s = Ret s' -> s' = s.
Proof.
  destruct s as [[[b c] h] w]. destruct norm; cbn [layer_size].
  - destruct (b * h * w =? 1); [discriminate|].
    destruct (c =? nf); [now intros [= <-] | discriminate].
  - destruct (h * w =? 1); [discriminate | now intros [= <-]].
  - now intros [= <-].
Qed.

Lemma layer_size_norm_accepts norm nf b c h w s' :
  layer_size (Norm norm nf) (b, c, h, w) = Ret s' -> norm_accepts norm b h w.
Proof.
  unfold layer_size, norm_accepts. destruct norm.
  - destruct (Nat.eqb_spec (b * h * w) 1); [discriminate | auto].
  - destruct (Nat.eqb_spec (h * w) 1); [discriminate | auto].
  - auto.
Qed.

Lemma cat1_size_inv b1 c1 h1 w1 b2 c2 h2 w2 s :
  cat1_size (b1, c1, h1, w1) (b2, c2, h2, w2) = Ret s ->
  b1 = b2 /\ h1 = h2 /\ w1 = w2 /\ s = (b1, c1 + c2, h1, w1).
Proof.
  unfold cat1_size.
  destruct (Nat.eqb_spec b1 b2); cbn [andb]; [|discriminate].
  destruct (Nat.eqb_spec h1 h2); cbn [andb]; [|discriminate].
  destruct (Nat.eqb_spec w1 w2); [|discriminate].
  intros [= <-]. auto.
Qed.

Lemma divide_double d h q :
  h = 2 * q -> Nat.divide (2 ^ d) q -> Nat.divide (2 ^ S d) h.
Proof.
  intros -> [m ->]. exists m. rewrite Nat.pow_succ_r'. lia.
Qed.

Ltac inv_sizes :=
  repeat match goal with
    | H : bind _ _ = Ret _ |- _ =>
        apply bind_Ret_inv in H; destruct H as (? & ? & H)
    | H : Ret _ = Ret _ |- _ => injection H as H; try subst
    | H : layer_size (Conv2d _ _ 4 2 1 _) (_, _, _, _) = Ret _ |- _ =>
        apply layer_size_conv_inv in H; destruct H as (? & ? & ? & ?); subst
    | H : layer_size (ConvTranspose2d _ _ 4 2 1 _) (_, _, _, _) = Ret _ |- _ =>
        apply layer_size_convT_inv in H; destruct H as (? & ?); subst
    | H : layer_size (Norm _ _) _ = Ret _ |- _ =>
        apply layer_size_norm_inv in H; subst
    | H : layer_size ?l _ = Ret _ |- _ =>
        rewrite (layer_size_act l) in H by tauto
    | H : cat1_size (_, _, _, _) (_, _, _, _) = Ret _ |- _ =>
        apply cat1_size_inv in H; destruct H as (? & ? & ? & ?); subst
    end.

Lemma innermost_only norm o i : doubles_only (innermost_block norm o i) 1 o.
Proof.
  intros b c h w s E.
  cbn [block_size innermost_block outmost down submodule up seq_size bind] in E.
  inv_sizes.
  split; [reflexivity|]. split; [replace (o + o) with (o * 2) by lia; reflexivity|].
  split; [lia|]. split; [lia|].
  split; [exists (h / 2) | exists (w / 2)]; rewrite Nat.pow_1_r; lia.
Qed.

Lemma middle_only norm use_dropout o i sub d :
  doubles_only sub d i ->
  doubles_only (middle_block norm use_dropout o i sub) (S d) o.
Proof.
  intros Hsub b c h w s E.
  cbn [block_size middle_block outmost down submodule up seq_size bind] in E.
  inv_sizes.
  match goal with
  | Hs : block_size sub _ None = Ret _ |- _ =>
      apply Hsub in Hs; destruct Hs as (_ & -> & Hh2 & Hw2 & Dh & Dw)
  end.
  match goal with
  | Hy : seq_size _ _ = Ret _ |- _ =>
      destruct use_dropout; cbn [app seq_size bind] in Hy
  end; inv_sizes;
    (split; [reflexivity|]);
    (split; [replace (o + o) with (o * 2) by lia; reflexivity|]);
    (split; [lia|]); (split; [lia|]);
    split; eapply divide_double; eauto.
Qed.

Lemma unet_body_only norm use_dropout nhf n :
  doubles_only (unet_body norm use_dropout nhf n) (4 + n) nhf.
Proof.
  unfold unet_body. do 3 apply middle_only.
  induction n as [|n IH]; [apply innermost_only|].
  rewrite Nat.iter_succ. apply middle_only. exact IH.
Qed.

(** What a generator that returns without a key was given, and what it
    returns. *)
Lemma generator_size_sound {R : Type} `{Scalar R}
    input_nc output_nc num_downs nhf norm_type use_dropout output_function
    key_len rs (G : UnetGenerator R) b c h w s :
  UnetGenerator_init input_nc output_nc num_downs nhf norm_type use_dropout
    output_function key_len rs = Ret G ->
  UnetGenerator_size G (b, c, h, w) None = Ret s ->
  c = first_in_channels input_nc key_len
  /\ 0 < h / 2 /\ 0 < w / 2
  /\ Nat.divide (2 ^ (built_depth num_downs - 1)) (h / 2)
  /\ Nat.divide (2 ^ (built_depth num_downs - 1)) (w / 2)
  /\ s = (b, output_nc, 2 * (h / 2), 2 * (w / 2)).
Proof.
  intros E Hs.
  destruct (UnetGenerator_init_inv _ _ _ _ _ _ _ _ _ _ E)
    as (norm & act & enc & Hm & Hf & _).
  unfold UnetGenerator_size in Hs. rewrite Hm in Hs.
  cbn [block_size outermost_block outmost down submodule up seq_size bind] in Hs.
  assert (Hact : act = Tanh \/ act = Sigmoid)
    by (destruct Hf as [(_ & -> & _)|(_ & -> & _)]; tauto).
  clear Hf Hm.
  destruct Hact as [-> | ->]; inv_sizes;
    match goal with
    | Hb : block_size (unet_body _ _ _ _) _ None = Ret _ |- _ =>
        apply unet_body_only in Hb; destruct Hb as (_ & -> & Hh2 & Hw2 & Dh & Dw)
    end; inv_sizes;
    (replace (built_depth num_downs - 1) with (4 + Z.to_nat (num_downs - 5))
       by (unfold built_depth; lia));
    auto 10.
Qed.

Lemma generator_size_complete {R : Type} `{Scalar R}
    input_nc output_nc num_downs nhf norm_type use_dropout output_function
    key_len rs (G : UnetGenerator R) b h w :
  UnetGenerator_init input_nc output_nc num_downs nhf norm_type use_dropout
    output_function key_len rs = Ret G ->
  0 < nhf ->
  0 < h / 2 -> 0 < w / 2 ->
  Nat.divide (2 ^ (built_depth num_downs - 1)) (h / 2) ->
  Nat.divide (2 ^ (built_depth num_downs - 1)) (w / 2) ->
  UnetGenerator_size G (b, first_in_channels input_nc key_len, h, w) None
  = Ret (b, output_nc, 2 * (h / 2), 2 * (w / 2)).
Proof.
  intros E Hnhf Hh Hw Dh Dw.
  destruct (UnetGenerator_init_inv _ _ _ _ _ _ _ _ _ _ E)
    as (norm & act & enc & Hm & Hf & _).
  replace (built_depth num_downs - 1) with (4 + Z.to_nat (num_downs - 5))
    in Dh, Dw by (unfold built_depth; lia).
  assert (H2h : 2 <= h).
  { destruct h as [|[|h]]; cbn in Hh; lia. }
  assert (H2w : 2 <= w).
  { destruct w as [|[|w]]; cbn in Hw; lia. }
  unfold UnetGenerator_size. rewrite Hm.
  cbn [block_size outermost_block outmost down submodule up seq_size bind].
  rewrite layer_size_conv_div2 by assumption. cbn [bind].
  rewrite (unet_body_doubles norm use_dropout nhf _ Hnhf b (h / 2) (w / 2))
    by assumption.
  cbn [bind]. act_size. rewrite layer_size_convT_double by lia. cbn [bind].
  rewrite layer_size_act; [reflexivity|].
  destruct Hf as [(_ & -> & _)|(_ & -> & _)]; tauto.
Qed.

(** Without a key, and for a batch that is not empty and positive
    channel and filter counts, the hiding network returns exactly when
    the input has the channels of its first convolution and the halves of
    its height and width are positive multiples of 2 ^ (depth - 1); it
    then returns output_nc channels of twice these halves, so an odd
    height or width comes back one pixel smaller and no exception is
    raised. *)
Theorem UnetGenerator_size_returns_iff {R : Type} `{Scalar R}
    input_nc output_nc num_downs nhf norm_type use_dropout output_function
    key_len rs (G : UnetGenerator R) b c h w s :
  UnetGenerator_init input_nc output_nc num_downs nhf norm_type use_dropout
    output_function key_len rs = Ret G ->
  0 < b -> 0 < input_nc -> 0 < output_nc -> 0 < nhf ->
  (UnetGenerator_size G (b, c, h, w) None = Ret s
   <-> c = first_in_channels input_nc key_len
       /\ 0 < h / 2 /\ 0 < w / 2
       /\ Nat.divide (2 ^ (built_depth num_downs - 1)) (h / 2)
       /\ Nat.divide (2 ^ (built_depth num_downs - 1)) (w / 2)
       /\ s = (b, output_nc, 2 * (h / 2), 2 * (w / 2))).
Proof.
  intros E _ _ _ Hnhf. split.
  - intros Hs. eapply generator_size_sound; eassumption.
  - intros (-> & Hh & Hw & Dh & Dw & ->).
    eapply generator_size_complete; eassumption.
Qed.

(** A 33x33 input to a depth-5 generator comes back 32x32. *)
Lemma UnetGenerator_size_returns_iff_example :
  exists G : UnetGenerator Z,
    UnetGenerator_init 6 3 5 1 "none" false "sigmoid" None None = Ret G
    /\ UnetGenerator_size G size_33 None = Ret (2, 3, 32, 32).
Proof.
  eexists. split; [vm_compute; reflexivity|].
  apply (UnetGenerator_size_returns_iff (R := Z) 6 3 5 1 "none" false "sigmoid"
           None None _ 2 6 33 33 (2, 3, 32, 32));
    [vm_compute; reflexivity | lia | lia | lia | lia |].
  repeat split; try (cbn; lia); exists 1; reflexivity.
Defined.

(** The converse of the size law: if the hiding network returns a batch
    of the height and width of its input, these are positive multiples of
    2 ^ depth, depth being max(num_downs, 5). *)
Theorem UnetGenerator_same_size_only_if {R : Type} `{Scalar R}
    input_nc output_nc num_downs nhf norm_type use_dropout output_function
    key_len rs (G : UnetGenerator R) b c h w b' c' :
  UnetGenerator_init input_nc output_nc num_downs nhf norm_type use_dropout
    output_function key_len rs = Ret G ->
  UnetGenerator_size G (b, c, h, w) None = Ret (b', c', h, w) ->
  0 < h /\ 0 < w
  /\ Nat.divide (2 ^ built_depth num_downs) h
  /\ Nat.divide (2 ^ built_depth num_downs) w
  /\ b' = b /\ c' = output_nc.
Proof.
  intros E Hs.
  destruct (generator_size_sound _ _ _ _ _ _ _ _ _ _ _ _ _ _ _ E Hs)
    as (_ & Hh & Hw & Dh & Dw & Heq).
  assert (Eb : b' = b) by congruence.
  assert (Ec : c' = output_nc) by congruence.
  assert (Eh : h = 2 * (h / 2)) by congruence.
  assert (Ew : w = 2 * (w / 2)) by congruence.
  assert (Hd : built_depth num_downs = S (built_depth num_downs - 1))
    by (unfold built_depth; lia).
  rewrite Hd.
  split; [lia|]. split; [lia|].
  split; [eapply divide_double; eauto|].
  split; [eapply divide_double; eauto|]. auto.
Qed.

Lemma UnetGenerator_same_size_only_if_example :
  exists G : UnetGenerator Z,
    UnetGenerator_init 6 3 5 1 "none" false "sigmoid" None None = Ret G
    /\ (0 < 32 /\ 0 < 32
        /\ Nat.divide (2 ^ built_depth 5) 32
        /\ Nat.divide (2 ^ built_depth 5) 32
        /\ 2 = 2 /\ 3 = 3).
Proof.
  eexists. split; [vm_compute; reflexivity|].
  eapply (UnetGenerator_same_size_only_if (R := Z) 6 3 5 1 "none" false "sigmoid"
            None None _ 2 6 32 32 2 3);
    vm_compute; reflexivity.
Defined.

(** ** When the reveal network returns, and what size *)

Lemma layer_size_conv3_inv b c h w ic oc bias s :
  layer_size (Conv2d ic oc 3 1 1 bias) (b, c, h, w) = Ret s ->
  c = ic /\ 0 < h /\ 0 < w /\ s = (b, oc, h, w).
Proof.
  unfold layer_size, conv_out.
  destruct (oc =? 0); [discriminate|].
  destruct (Nat.eqb_spec c ic) as [->|]; cbn [negb]; [|discriminate].
  destruct (Nat.ltb_spec (h + 2 * 1) 3); cbn [orb]; [discriminate|].
  destruct (Nat.ltb_spec (w + 2 * 1) 3); [discriminate|].
  intros E.
  assert (Es : s = (b, oc, (h + 2 * 1 - 3) / 1 + 1, (w + 2 * 1 - 3) / 1 + 1))
    by congruence.
  rewrite !Nat.div_1_r in Es.
  replace (h + 2 * 1 - 3 + 1) with h in Es by lia.
  replace (w + 2 * 1 - 3 + 1) with w in Es by lia.
  repeat split; try lia. exact Es.
Qed.

(** Without a key, and for a batch that is not empty and positive
    channel and filter counts, the reveal network returns exactly on
    inputs with the channels of its first convolution, a positive height
    and width and a size its normalization accepts: batch normalization
    refuses a single 1x1 image, instance normalization every 1x1 image.
    It returns output_nc channels of the same height and width: no
    divisibility is needed, and an empty image is refused. *)
Theorem RevealNet_size_returns_iff
    input_nc output_nc nrf norm_type output_function key_len rs
    (N : RevealNet) b c h w s :
  RevealNet_init input_nc output_nc nrf norm_type output_function key_len rs
  = Ret N ->
  0 < b -> 0 < input_nc -> 0 < output_nc -> 0 < nrf ->
  (RevealNet_size N (b, c, h, w) None = Ret s
   <-> c = first_in_channels input_nc key_len /\ 0 < h /\ 0 < w
       /\ (norm_type = "batch" -> b * h * w <> 1)
       /\ (norm_type = "instance" -> h * w <> 1)
       /\ s = (b, output_nc, h, w)).
Proof.
  intros E _ _ Hout Hnrf. split.
  - intros Hs.
    destruct (RevealNet_init_norm_inv _ _ _ _ _ _ _ _ E)
      as (norm & enc & Hg & ->).
    unfold RevealNet_size in Hs.
    cbn [bind conv1 conv2 conv3 conv4 conv5 conv6 output relu norm1 norm2
         norm3 norm4 norm5 seq_size] in Hs.
    pose proof Hs as Hs0.
    apply bind_Ret_inv in Hs. destruct Hs as (s1 & Hc & Hs).
    apply layer_size_conv3_inv in Hc. destruct Hc as (-> & Hh & Hw & ->).
    apply bind_Ret_inv in Hs. destruct Hs as (s2 & Hn & _).
    apply layer_size_norm_accepts in Hn.
    pose proof (reveal_convs_size norm (first_in_channels input_nc key_len)
                  nrf output_nc b h w Hnrf Hout Hn Hh Hw) as Ht.
    cbn [seq_size] in Ht.
    assert (Es : Ret s = Ret (b, output_nc, h, w))
      by (rewrite <- Hs0, <- Ht; reflexivity).
    injection Es as ->.
    apply (norm_accepts_of_type norm_type) in Hn; [|exact Hg].
    destruct Hn as [Hb Hi]. auto 10.
  - intros (-> & Hh & Hw & Hb & Hi & ->).
    eapply RevealNet_output_size; eassumption.
Qed.

Lemma RevealNet_size_returns_iff_example :
  exists N : RevealNet,
    RevealNet_init 6 3 4 "batch" "sigmoid" None None = Ret N
    /\ RevealNet_size N (2, 6, 7, 5) None = Ret (2, 3, 7, 5).
Proof.
  eexists. split; [vm_compute; reflexivity|].
  apply (RevealNet_size_returns_iff 6 3 4 "batch" "sigmoid" None None _
           2 6 7 5 (2, 3, 7, 5));
    [vm_compute; reflexivity | lia | lia | lia | lia |].
  repeat split; try lia; discriminate.
Defined.

(** ** Networks and keys that do not match *)

(** Networks built for a key, with at least one filter, but called
    without a key refuse an input of input_nc channels at their first
    convolution, which expects twice as many.  (With no filter the first
    convolution fails before that, on its empty weight.) *)
Theorem keyed_networks_called_without_key {R : Type} `{Scalar R}
    input_nc output_nc num_downs nhf nrf norm_type use_dropout output_function
    output_function' key_len rs (G : UnetGenerator R) (N : RevealNet) b h w :
  UnetGenerator_init input_nc output_nc num_downs nhf norm_type use_dropout
    output_function (Some key_len) rs = Ret G ->
  RevealNet_init input_nc output_nc nrf norm_type output_function'
    (Some key_len) rs = Ret N ->
  0 < input_nc -> 0 < nhf -> 0 < nrf ->
  UnetGenerator_size G (b, input_nc, h, w) None
  = Raise (RuntimeError "expected input to have in_channels channels")
  /\ RevealNet_size N (b, input_nc, h, w) None
     = Raise (RuntimeError "expected input to have in_channels channels").
Proof.
  intros EG EN Hc Hnhf Hnrf.
  destruct (UnetGenerator_init_inv _ _ _ _ _ _ _ _ _ _ EG)
    as (norm & act & enc & Hm & _ & _).
  destruct (RevealNet_init_inv _ _ _ _ _ _ _ _ EN) as (norm' & enc' & -> & _ & _).
  assert (Hne : (input_nc =? input_nc * 2) = false)
    by (apply Nat.eqb_neq; lia).
  split.
  - unfold UnetGenerator_size. rewrite Hm.
    cbn [block_size outermost_block outmost down seq_size first_in_channels
         layer_size bind].
    rewrite (eqb_positive nhf Hnhf), Hne. reflexivity.
  - unfold RevealNet_size.
    cbn [bind conv1 seq_size first_in_channels layer_size].
    rewrite (eqb_positive nrf Hnrf), Hne. reflexivity.
Qed.

Lemma keyed_networks_called_without_key_example :
  exists (G : UnetGenerator Z) (N : RevealNet),
    UnetGenerator_size G (1, 3, 32, 32) None
    = Raise (RuntimeError "expected input to have in_channels channels")
    /\ RevealNet_size N (1, 3, 32, 32) None
       = Raise (RuntimeError "expected input to have in_channels channels").
Proof.
  eexists. eexists.
  eapply (keyed_networks_called_without_key (R := Z) 3 3 5 1 1 "none" false
            "tanh" "sigmoid" 32 (Some 4) _ _ 1 32 32).
  - vm_compute; reflexivity.
  - vm_compute; reflexivity.
  - lia.
  - lia.
  - lia.
Defined.

(** Networks built without a key length have no encoder: passing a key
    makes both fail on calling it. *)
Theorem key_passed_to_keyless_networks {R : Type} `{Scalar R}
    input_nc output_nc num_downs nhf nrf norm_type use_dropout output_function
    output_function' rs (G : UnetGenerator R) (N : RevealNet) x key_len :
  UnetGenerator_init input_nc output_nc num_downs nhf norm_type use_dropout
    output_function None rs = Ret G ->
  RevealNet_init input_nc output_nc nrf norm_type output_function' None rs
  = Ret N ->
  UnetGenerator_size G x (Some key_len)
  = Raise (TypeError "'NoneType' object is not callable")
  /\ RevealNet_size N x (Some key_len)
     = Raise (TypeError "'NoneType' object is not callable").
Proof.
  intros EG EN.
  destruct (UnetGenerator_init_inv _ _ _ _ _ _ _ _ _ _ EG)
    as (norm & act & enc & Hm & _ & ->).
  destruct (RevealNet_init_inv _ _ _ _ _ _ _ _ EN) as (norm' & enc' & -> & _ & ->).
  destruct x as [[[b c] h] w]. split.
  - unfold UnetGenerator_size. rewrite Hm. reflexivity.
  - reflexivity.
Qed.

Lemma key_passed_to_keyless_networks_example :
  exists (G : UnetGenerator Z) (N : RevealNet),
    UnetGenerator_size G (1, 3, 32, 32) (Some 32)
    = Raise (TypeError "'NoneType' object is not callable")
    /\ RevealNet_size N (1, 3, 32, 32) (Some 32)
       = Raise (TypeError "'NoneType' object is not callable").
Proof.
  eexists. eexists.
  eapply (key_passed_to_keyless_networks (R := Z) 3 3 5 1 1 "none" false
            "tanh" "sigmoid" None _ _ (1, 3, 32, 32) 32).
  - vm_compute; reflexivity.
  - vm_compute; reflexivity.
Defined.

(** ** Worked examples for the error paths *)

Lemma inject_key_not_divisible_raises_example :
  exists err,
    inject_key (Some 0) (Some encoder_2x2) image_4x4 [1; 0]%Z = Raise err.
Proof.
  apply (inject_key_not_divisible_raises (Some encoder_2x2) 0 image_4x4
           [1; 0]%Z 1 1 4 4 eq_refl).
  left. intros [q Hq]. lia.
Defined.

Lemma UnetGenerator_init_unsupported_activation_example :
  UnetGenerator_init (R := Z) 3 3 7 64 "instance" true "relu" (Some 8) (Some 2)
  = Raise (NotImplementedError "activation funciton [relu] is not found").
Proof.
  apply (UnetGenerator_init_unsupported_activation (R := Z) 3 3 7 64 "instance"
           InstanceNorm2d true "relu" (Some 8) (Some 2));
    [reflexivity | right | |]; discriminate.
Defined.

Lemma RevealNet_init_unsupported_activation_example :
  RevealNet_init 3 3 64 "lol" "tanh" None None
  = Raise (NotImplementedError "activation funciton [tanh] is not found").
Proof.
  apply (RevealNet_init_unsupported_activation 3 3 64 "lol" "tanh" None None);
    [left; reflexivity | discriminate].
Defined.

(** ** The attack layer on batches of any size *)

Lemma fifths_monotone b :
  b / 5 <= 2 * b / 5 /\ 2 * b / 5 <= 3 * b / 5 /\ 3 * b / 5 <= 4 * b / 5
  /\ 4 * b / 5 <= b.
Proof.
  repeat split; try (apply Nat.Div0.div_le_mono; lia).
  pose proof (Nat.Div0.mul_div_le (4 * b) 5). lia.
Qed.

Lemma mul_div5 k b : k * b / 5 = k * (b / 5) + k * (b mod 5) / 5.
Proof.
  rewrite (Nat.div_mod_eq b 5) at 1.
  replace (k * (5 * (b / 5) + b mod 5)) with (k * (b / 5) * 5 + k * (b mod 5))
    by lia.
  apply Nat.div_add_l. discriminate.
Qed.

Lemma fifth_step k b :
  k < 5 ->
  S k * b / 5 - k * b / 5 = b / 5 \/ S k * b / 5 - k * b / 5 = b / 5 + 1.
Proof.
  intros Hk. rewrite (mul_div5 (S k) b), (mul_div5 k b).
  pose proof (Nat.mod_upper_bound b 5 ltac:(discriminate)) as Hr.
  generalize dependent (b mod 5). generalize (b / 5). intros q r Hr.
  destruct k as [|[|[|[|[|k]]]]]; try lia;
    destruct r as [|[|[|[|[|r]]]]]; try lia; cbn; lia.
Qed.

Section Combine.
Context {R : Type}.
Implicit Types (self : AttackNet R) (X : Tensor4 R).

(** In combine mode every batch, whatever its size b, is cut at
    floor(k b / 5), k = 1..4, into five consecutive slices that make up
    the whole batch; each slice has floor(b/5) or floor(b/5) + 1 images,
    and for b < 5 the identity slice is empty.  When the layers return
    tensors of the size they are given, the output is the concatenation
    of the five transformed slices and has the size of the input. *)
Theorem combine_any_batch self X b c h w :
  noise_type self = "combine" ->
  wf X = true -> size X = (b, c, h, w) ->
  preserves_shape (identity self) ->
  preserves_shape (gaussian_noise self) ->
  preserves_shape (gaussian_blur self) ->
  preserves_shape (resize self) ->
  preserves_shape (jpeg self) ->
  let window lo hi := mkT (hi - lo, c, h, w)
                          (firstn (hi - lo) (skipn lo (imgs X))) in
  let s0 := window 0 (b / 5) in
  let s1 := window (b / 5) (2 * b / 5) in
  let s2 := window (2 * b / 5) (3 * b / 5) in
  let s3 := window (3 * b / 5) (4 * b / 5) in
  let s4 := window (4 * b / 5) b in
  concat (map imgs [s0; s1; s2; s3; s4]) = imgs X
  /\ (exists Y,
        AttackNet_forward self X = Ret Y
        /\ imgs Y = imgs (identity self s0)
                    ++ imgs (gaussian_noise self s1)
                    ++ imgs (gaussian_blur self s2)
                    ++ imgs (resize self s3)
                    ++ imgs (jpeg self s4)
        /\ size Y = (b, c, h, w)
        /\ wf Y = true)
  /\ Forall (fun s => batch s = b / 5 \/ batch s = b / 5 + 1) [s0; s1; s2; s3; s4]
  /\ (b < 5 -> batch s0 = 0).
Proof.
  intros Hnt Hwf Hs Hid Hgn Hgb Hrs Hjp window s0 s1 s2 s3 s4.
  destruct (wf_elim _ _ _ _ _ Hwf Hs) as [Hlen Hall].
  destruct (fifths_monotone b) as (M1 & M2 & M3 & M4).
  pose proof (fifth_step 0 b ltac:(lia)) as F0.
  pose proof (fifth_step 1 b ltac:(lia)) as F1.
  pose proof (fifth_step 2 b ltac:(lia)) as F2.
  pose proof (fifth_step 3 b ltac:(lia)) as F3.
  pose proof (fifth_step 4 b ltac:(lia)) as F4.
  replace (5 * b / 5) with b in F4
    by (symmetry; rewrite Nat.mul_comm; apply Nat.div_mul; discriminate).
  replace (1 * b) with b in F0, F1 by lia.
  replace (0 * b / 5) with 0 in F0 by reflexivity.
  assert (Hb : batch X = b) by (unfold batch; now rewrite Hs).
  unfold s0, s1, s2, s3, s4, window in *. clear s0 s1 s2 s3 s4 window.
  set (c1 := b / 5) in *. set (c2 := 2 * b / 5) in *.
  set (c3 := 3 * b / 5) in *. set (c4 := 4 * b / 5) in *.
  assert (Hw : forall lo hi, lo <= hi -> hi <= b ->
            wf (mkT (hi - lo, c, h, w) (firstn (hi - lo) (skipn lo (imgs X))))
            = true).
  { intros lo hi H1 H2. apply (wf_window X b c h w); auto. lia. }
  split; [|split; [|split]].
  - cbn [map concat imgs]. rewrite app_nil_r.
    replace (skipn c1 (imgs X)) with (skipn (0 + (c1 - 0)) (imgs X))
      by (f_equal; lia).
    rewrite app_assoc, firstn_skipn_next.
    replace (skipn c2 (imgs X)) with (skipn (0 + (c1 - 0 + (c2 - c1))) (imgs X))
      by (f_equal; lia).
    rewrite app_assoc, firstn_skipn_next.
    replace (skipn c3 (imgs X))
      with (skipn (0 + (c1 - 0 + (c2 - c1) + (c3 - c2))) (imgs X))
      by (f_equal; lia).
    rewrite app_assoc, firstn_skipn_next.
    replace (skipn c4 (imgs X))
      with (skipn (0 + (c1 - 0 + (c2 - c1) + (c3 - c2) + (c4 - c3))) (imgs X))
      by (f_equal; lia).
    rewrite firstn_skipn_next.
    rewrite skipn_O. apply firstn_all2. lia.
  - unfold AttackNet_forward. rewrite Hnt, String.eqb_refl, Hb.
    fold c1 c2 c3 c4. unfold tslice_to.
    rewrite (tslice_window X b c h w 0 c1) by (auto; lia).
    rewrite (tslice_window X b c h w c1 c2) by (auto; lia).
    rewrite (tslice_window X b c h w c2 c3) by (auto; lia).
    rewrite (tslice_window X b c h w c3 c4) by (auto; lia).
    rewrite (tslice_from_window X b c h w c4) by (auto; lia).
    destruct (preserved _ _ _ c h w Hid (Hw 0 c1 ltac:(lia) ltac:(lia)) eq_refl)
      as (S0 & L0 & A0).
    destruct (preserved _ _ _ c h w Hgn (Hw c1 c2 ltac:(lia) ltac:(lia)) eq_refl)
      as (S1 & L1 & A1).
    destruct (preserved _ _ _ c h w Hgb (Hw c2 c3 ltac:(lia) ltac:(lia)) eq_refl)
      as (S2 & L2 & A2).
    destruct (preserved _ _ _ c h w Hrs (Hw c3 c4 ltac:(lia) ltac:(lia)) eq_refl)
      as (S3 & L3 & A3).
    destruct (preserved _ _ _ c h w Hjp (Hw c4 b ltac:(lia) ltac:(lia)) eq_refl)
      as (S4 & L4 & A4).
    rewrite (cat0_sized _ _ c h w).
    2:{ repeat constructor; eapply chw_of_size; eassumption. }
    cbn [map concat list_sum fold_right]. unfold batch at 1 2 3 4 5.
    rewrite S0, S1, S2, S3, S4, app_nil_r. cbn iota beta.
    eexists. split; [reflexivity|]. cbn [imgs size].
    split; [reflexivity|]. split;
      [match goal with |- (?n, _, _, _) = _ => replace n with b by lia end;
       reflexivity|].
    apply wf_intro.
    + rewrite !length_app, L0, L1, L2, L3, L4. lia.
    + rewrite !forallb_app, A0, A1, A2, A3, A4. reflexivity.
  - repeat (apply Forall_cons; [unfold batch; cbn [size]; assumption|]).
    apply Forall_nil.
  - intros Hlt. unfold batch; cbn [size].
    assert (c1 = 0) by (apply Nat.div_small; exact Hlt). lia.
Qed.
End Combine.

(** Three images in combine mode: none for the identity layer. *)
Lemma combine_any_batch_example :
  exists Y,
    AttackNet_forward (attack_with "combine") batch_of_three = Ret Y
    /\ size Y = (3, 1, 1, 1)
    /\ 3 / 5 - 0 = 0.
Proof.
  destruct (combine_any_batch (attack_with "combine") batch_of_three 3 1 1 1
              eq_refl eq_refl eq_refl
              pass_through_preserves pass_through_preserves
              pass_through_preserves pass_through_preserves
              pass_through_preserves)
    as (_ & (Y & HY & _ & HS & _) & _ & Hsmall).
  exists Y. split; [exact HY|]. split; [exact HS|].
  apply Hsmall. lia.
Defined.

(** ** What the key tile holds *)

Section TileContent.
Context {A : Type}.
Implicit Types (l : list A).

Lemma nth_error_tile n l i :
  i < n * length l ->
  nth_error (tile n l) i = nth_error l (i mod length l).
Proof.
  unfold tile. revert i. induction n as [|n IH]; intros i Hi; [lia|].
  cbn [repeat concat].
  assert (Hl : 0 < length l) by (destruct (length l); lia).
  destruct (Nat.lt_ge_cases i (length l)) as [Hlt|Hge].
  - rewrite nth_error_app1 by exact Hlt. now rewrite Nat.mod_small.
  - rewrite nth_error_app2 by exact Hge.
    rewrite IH by lia. f_equal.
    replace i with ((i - length l) + 1 * length l) at 2 by lia.
    now rewrite Nat.Div0.mod_add.
Qed.

Lemma nth_error_chunks n count l j :
  j < count ->
  nth_error (chunks n count l) j = Some (firstn n (skipn (j * n) l)).
Proof.
  revert l j. induction count as [|count IH]; intros l j Hj; [lia|].
  cbn [chunks]. destruct j as [|j]; [reflexivity|].
  cbn [nth_error]. rewrite IH by lia. rewrite skipn_skipn.
  do 3 f_equal. lia.
Qed.

Lemma nth_error_window n lo l x :
  x < n -> nth_error (firstn n (skipn lo l)) x = nth_error l (lo + x).
Proof.
  intros Hx. rewrite nth_error_firstn.
  replace (x <? n) with true by (symmetry; apply Nat.ltb_lt; exact Hx).
  rewrite nth_error_skipn. reflexivity.
Qed.
End TileContent.

Section KeyTileContent.
Context {R : Type} `{Scalar R}.
Implicit Types (v x : Tensor4 R) (e k : list R).

Lemma pixel_view4 e c r v ch y xx :
  view4 e (1, c, r, r) = Ret v ->
  ch < c -> y < r -> xx < r ->
  pixel v 0 ch y xx = nth_error e ((ch * r + y) * r + xx).
Proof.
  unfold view4.
  destruct (length e =? 1 * c * r * r); [|discriminate].
  intros E Hch Hy Hx.
  assert (Ev : v = mkT (1, c, r, r)
                 (chunks c 1 (chunks r (1 * c) (chunks r (1 * c * r) e))))
    by congruence.
  subst v. unfold pixel. cbn [imgs]. unfold image.
  rewrite nth_error_chunks by lia. cbn [Nat.mul].
  rewrite nth_error_window by exact Hch. cbn [Nat.add].
  rewrite nth_error_chunks by lia.
  rewrite nth_error_window by exact Hy.
  rewrite nth_error_chunks by nia.
  rewrite nth_error_window by exact Hx. reflexivity.
Qed.

Lemma pixel_repeat4 v c r b m n i ch y xx :
  wf v = true -> size v = (1, c, r, r) -> 0 < r ->
  i < b -> ch < c -> y < r * m -> xx < r * n ->
  pixel (repeat4 v b 1 m n) i ch y xx = pixel v 0 ch (y mod r) (xx mod r).
Proof.
  intros Hwf Hs Hr Hi Hch Hy Hx.
  destruct (wf_elim _ _ _ _ _ Hwf Hs) as [Hlen Hall].
  unfold pixel, repeat4. rewrite Hs. cbn [imgs]. unfold image in *.
  destruct (imgs v) as [|im [|im' rest]] eqn:Him; try discriminate.
  cbn [forallb] in Hall. rewrite andb_true_r in Hall.
  unfold image_ok in Hall. apply andb_true_iff in Hall.
  destruct Hall as [Hc Hchn]. apply Nat.eqb_eq in Hc.
  cbn [map]. rewrite nth_error_tile by (cbn [length]; lia).
  cbn [length]. rewrite Nat.mod_1_r. cbn [nth_error].
  rewrite nth_error_tile by (rewrite length_map; lia).
  rewrite length_map, Hc, Nat.mod_small by lia.
  rewrite nth_error_map.
  destruct (nth_error im ch) as [chn|] eqn:Hn.
  2:{ apply nth_error_None in Hn. lia. }
  cbn [option_map].
  assert (Hok : (length chn =? r)
                && forallb (fun row : list R => length row =? r) chn = true).
  { rewrite forallb_forall in Hchn. apply Hchn.
    eapply nth_error_In; exact Hn. }
  apply andb_true_iff in Hok. destruct Hok as [Hlc Hrows].
  apply Nat.eqb_eq in Hlc.
  rewrite nth_error_tile by (rewrite length_map; nia).
  rewrite length_map, Hlc. rewrite nth_error_map.
  assert (Hym : y mod r < r) by (apply Nat.mod_upper_bound; lia).
  destruct (nth_error chn (y mod r)) as [row|] eqn:Hrow.
  2:{ apply nth_error_None in Hrow. lia. }
  cbn [option_map].
  assert (Hlr : length row = r).
  { rewrite forallb_forall in Hrows. apply Nat.eqb_eq, Hrows.
    eapply nth_error_In; exact Hrow. }
  rewrite nth_error_tile by (rewrite Hlr; nia).
  now rewrite Hlr.
Qed.

(** The key tile entry at (i, ch, y, x) is the encoder output of index
    (ch r + y mod r) r + x mod r: the same for every image of the batch
    and periodic of period r along height and width. *)
Theorem key_tile_entries (L : Linear R) k x r b c h w :
  Linear_ok L = true -> length k = in_features L ->
  out_features L = r ^ 2 * c -> 0 < r -> size x = (b, c, h, w) ->
  exists e ke,
    Linear_apply L k = Ret e
    /\ key_tile (Some r) (Some L) x k = Ret ke
    /\ forall i ch y xx,
        i < b -> ch < c -> y < r * (h / r) -> xx < r * (w / r) ->
        pixel ke i ch y xx = nth_error e ((ch * r + y mod r) * r + xx mod r)
        /\ (ch * r + y mod r) * r + xx mod r < length e.
Proof.
  intros Hok Hk Hout Hr Hs.
  destruct (key_tile_ok L k x r b c h w Hok Hk Hout Hr Hs)
    as (e & v & He & Hv & Sv & Wv & Ht & _ & _).
  exists e, (repeat4 v b 1 (h / r) (w / r)).
  split; [exact He|]. split; [exact Ht|].
  intros i ch y xx Hi Hch Hy Hx.
  assert (Hym : y mod r < r) by (apply Nat.mod_upper_bound; lia).
  assert (Hxm : xx mod r < r) by (apply Nat.mod_upper_bound; lia).
  split.
  - rewrite (pixel_repeat4 v c r) by assumption.
    now apply (pixel_view4 e c r).
  - destruct (Linear_apply_ok L k Hok Hk) as (e' & He' & Hlen).
    assert (e' = e) by congruence. subst e'.
    rewrite Hlen, Hout. cbn [Nat.pow]. nia.
Qed.

End KeyTileContent.

(** Row 3, column 2 of the tile of a 4x4 image repeats entry 2 of the
    encoder output (row 1, column 0 of the 2x2 patch). *)
Lemma key_tile_entries_example :
  exists e ke,
    Linear_apply encoder_2x2 [1; 0]%Z = Ret e
    /\ key_tile (Some 2) (Some encoder_2x2) image_4x4 [1; 0]%Z = Ret ke
    /\ pixel ke 0 0 3 2 = nth_error e 2.
Proof.
  destruct (key_tile_entries encoder_2x2 [1; 0]%Z image_4x4 2 1 1 4 4
              eq_refl eq_refl eq_refl ltac:(lia) eq_refl)
    as (e & ke & He & Hk & Hpix).
  exists e, ke. split; [exact He|]. split; [exact Hk|].
  destruct (Hpix 0 0 3 2) as [Hp _]; try (cbn; lia). exact Hp.
Defined.

(** ** More on the forward pass *)

Section ForwardPassMore.
Context {R : Type} `{Scalar R}.
Implicit Types (rnd : rng) (key fake : list bool) (sec cov : Tensor4 R).

Lemma resample_done fuel rnd w key fake pos :
  fake <> key -> resample fuel rnd w key fake pos = Ret (fake, pos).
Proof.
  intros Hne. apply key_equal_false in Hne.
  destruct fuel; cbn [resample]; now rewrite Hne.
Qed.

Lemma resample_first rnd w key n :
  forall fuel pos fake,
    fake = key ->
    (forall j, j < n -> map rnd (seq (pos + j * w) w) = key) ->
    map rnd (seq (pos + n * w) w) <> key ->
    S n <= fuel ->
    resample fuel rnd w key fake pos
    = Ret (map rnd (seq (pos + n * w) w), pos + S n * w).
Proof.
  induction n as [|n IH]; intros fuel pos fake -> Heq Hne Hfuel;
    (destruct fuel as [|fuel]; [lia|]); cbn [resample];
    replace (key_equal key key) with true
      by (symmetry; now apply key_equal_true);
    unfold draw_key.
  - rewrite Nat.add_0_r in Hne. rewrite resample_done by exact Hne.
    replace (pos + 0 * w) with pos by lia.
    replace (pos + 1 * w) with (pos + w) by lia. reflexivity.
  - rewrite (IH fuel (pos + w) (map rnd (seq pos w))).
    + replace (pos + w + n * w) with (pos + S n * w) by lia.
      replace (pos + w + S n * w) with (pos + S (S n) * w) by lia. reflexivity.
    + specialize (Heq 0 ltac:(lia)). now rewrite Nat.add_0_r in Heq.
    + intros j Hj. specialize (Heq (S j) ltac:(lia)).
      replace (pos + w + j * w) with (pos + S j * w) by lia. exact Heq.
    + replace (pos + w + n * w) with (pos + S n * w) by lia. exact Hne.
    + lia.
Qed.

(** The fake key is the first draw after the key that differs from it,
    and the generator stops right after that draw. *)
Theorem sample_keys_first_differing rnd pos w n fuel :
  (forall j, 1 <= j <= n ->
     map rnd (seq (pos + j * w) w) = map rnd (seq pos w)) ->
  map rnd (seq (pos + S n * w) w) <> map rnd (seq pos w) ->
  n <= fuel ->
  sample_keys fuel rnd pos w
  = Ret (map rnd (seq pos w), map rnd (seq (pos + S n * w) w),
         pos + S (S n) * w).
Proof.
  intros Heq Hne Hfuel. unfold sample_keys, draw_key.
  destruct n as [|n].
  - replace (pos + 1 * w) with (pos + w) in Hne by lia.
    rewrite resample_done by exact Hne. cbn [bind].
    replace (pos + 1 * w) with (pos + w) by lia.
    replace (pos + 2 * w) with (pos + w + w) by lia. reflexivity.
  - rewrite (resample_first rnd w (map rnd (seq pos w)) n fuel (pos + w + w)).
    + cbn [bind].
      replace (pos + w + w + n * w) with (pos + S (S n) * w) by lia.
      replace (pos + w + w + S n * w) with (pos + S (S (S n)) * w) by lia.
      reflexivity.
    + specialize (Heq 1 ltac:(lia)).
      replace (pos + 1 * w) with (pos + w) in Heq by lia. exact Heq.
    + intros j Hj. specialize (Heq (S (S j)) ltac:(lia)).
      replace (pos + w + w + j * w) with (pos + S (S j) * w) by lia. exact Heq.
    + replace (pos + w + w + n * w) with (pos + S (S n) * w) by lia. exact Hne.
    + lia.
Qed.
End ForwardPassMore.

Ltac eq_shape :=
  apply f_equal2; [apply f_equal2; [apply f_equal2|]|]; lia.

Section ForwardPassErrors.
Context {R : Type} `{Scalar R}.
Implicit Types (rnd : rng) (sec cov : Tensor4 R).

Lemma shape_eqb_eq (s1 s2 : shape) : shape_eqb s1 s2 = true <-> s1 = s2.
Proof.
  destruct s1 as [[[b1 c1] h1] w1], s2 as [[[b2 c2] h2] w2].
  unfold shape_eqb. rewrite !andb_true_iff, !Nat.eqb_eq.
  split; [intros [[[-> ->] ->] ->]; reflexivity | intros [= -> -> -> ->]; auto].
Qed.

(** Covers and secrets of different sizes, or equal sizes that are not
    square, are refused by the two assertions, whatever the networks, the
    loss, the mode and the random draws are. *)
Theorem forward_pass_preconditions fuel rnd pos sec cov Hnet Rnet criterion
    (cover_dependent : bool) Enet b c h w :
  size cov = (b, c, h, w) ->
  size sec <> size cov \/ h <> w ->
  forward_pass fuel rnd pos sec cov Hnet Rnet criterion cover_dependent Enet
  = Raise (AssertionError
             (if shape_eqb (size cov) (size sec)
              then "cover and secret images are expected to be squares"
              else "Shape of cover and secret images are expected to be the same!")).
Proof.
  intros Hs Hbad. unfold forward_pass, py_assert.
  destruct (shape_eqb (size cov) (size sec)) eqn:E; [|reflexivity].
  cbn [bind]. rewrite Hs.
  apply shape_eqb_eq in E.
  destruct Hbad as [Hne|Hne]; [congruence|].
  destruct (Nat.eqb_spec h w); [contradiction | reflexivity].
Qed.

(** With an [Enet] the key tiles are never built: once the assertions
    pass and the keys are sampled, the pass fails on the unbound local
    [red_key], so [forward_pass] cannot return with an [Enet]. *)
Theorem forward_pass_Enet_unbound fuel rnd pos sec cov Hnet Rnet criterion
    (cover_dependent : bool) (Enet : unit) b c h keys :
  size cov = (b, c, h, h) -> size sec = size cov ->
  sample_keys fuel rnd pos h = Ret keys ->
  forward_pass fuel rnd pos sec cov Hnet Rnet criterion cover_dependent
    (Some Enet) = Raise (UnboundLocalError "red_key").
Proof.
  intros Hs Hsec Hk. unfold forward_pass, py_assert.
  replace (shape_eqb (size cov) (size sec)) with true
    by (symmetry; apply shape_eqb_eq; congruence).
  cbn [bind]. rewrite Hs, Nat.eqb_refl. cbn [bind]. rewrite Hk.
  destruct keys as [[key fake] p]. reflexivity.
Qed.

Lemma cat1_Ret_inv (ts : list (Tensor4 R)) t0 y :
  cat1 (t0 :: ts) = Ret y ->
  Forall (fun t => bhw t = bhw t0) ts
  /\ size y = (let '(b, h, w) := bhw t0 in
               (b, list_sum (map channels (t0 :: ts)), h, w)).
Proof.
  unfold cat1.
  destruct (forallb (fun t => chw_eqb (bhw t) (bhw t0)) (t0 :: ts)) eqn:E;
    [|discriminate].
  destruct (bhw t0) as [[b h] w] eqn:Hb. intros [= <-].
  split; [|reflexivity].
  cbn [forallb] in E. apply andb_true_iff in E. destruct E as [_ E].
  rewrite forallb_forall in E. apply Forall_forall. intros t Hin.
  specialize (E t Hin). destruct (bhw t) as [[b' h'] w'].
  unfold chw_eqb in E. rewrite !andb_true_iff, !Nat.eqb_eq in E.
  destruct E as [[-> ->] ->]. reflexivity.
Qed.

(** The channel counts a returned pass implies: the hiding network was
    given 3c channels in the cover-dependent mode and 2c otherwise, the
    container has the batch size, height and width of the cover, and the
    reveal network was given the container's channels plus c both times. *)
Theorem forward_pass_channels fuel rnd pos sec cov Hnet Rnet criterion
    (cover_dependent : bool) out pos' b c h w :
  forward_pass fuel rnd pos sec cov Hnet Rnet criterion cover_dependent None
  = Ret (out, pos') ->
  size cov = (b, c, h, w) ->
  h = w
  /\ exists H_input i i_ cc,
      (exists y, Hnet H_input = Ret y)
      /\ size H_input = (b, (if cover_dependent then 3 else 2) * c, h, w)
      /\ size (container out) = (b, cc, h, w)
      /\ Rnet i = Ret (rev_secret out) /\ size i = (b, cc + c, h, w)
      /\ Rnet i_ = Ret (rev_secret_ out) /\ size i_ = (b, cc + c, h, w).
Proof.
  intros E Hs. apply forward_pass_inv in E.
  destruct E as (b0 & c0 & h0 & key & fake & red_key & rfk & H_input & H_output
                 & i & i_ & Hs' & Hsec & Hkeys & Hrk & Hrfk & Hin & Hout
                 & Hcont & _ & Hi & HR & _ & Hi_ & HR_ & _).
  rewrite Hs in Hs'. injection Hs' as Eb Ec Eh Ew. subst b0 c0 h0 w.
  split; [reflexivity|].
  assert (Lk : length key = h /\ length fake = h).
  { unfold sample_keys, draw_key in Hkeys.
    apply bind_Ret_inv in Hkeys. destruct Hkeys as ([fk p] & Hr & Hk).
    injection Hk as <- <- _. split; [now rewrite length_map, length_seq|].
    eapply resample_length; [|exact Hr]. now rewrite length_map, length_seq. }
  destruct Lk as [Lk Lf].
  rewrite red_rows in Hrk, Hrfk by assumption.
  injection Hrk as <-. injection Hrfk as <-.
  assert (Hsc : size (container out) = (b, channels (container out), h, h)).
  { apply cat1_Ret_inv in Hi. destruct Hi as [Hall _].
    inversion Hall as [|? ? Hb _]; subst. unfold bhw in Hb. cbn [size] in Hb.
    unfold channels. destruct (size (container out)) as [[[b1 c1] h1] w1].
    injection Hb as Eb Eh Ew. eq_shape. }
  exists H_input, i, i_, (channels (container out)).
  split; [eauto|].
  split; [|split; [exact Hsc|]].
  - destruct cover_dependent; apply cat1_Ret_inv in Hin; destruct Hin as [_ Hz];
      rewrite Hz; cbn [map list_sum fold_right]; unfold bhw, channels;
      rewrite ?Hsec, ?Hs; cbn [size]; eq_shape.
  - split; [exact HR|]. split; [|split; [exact HR_|]].
    + apply cat1_Ret_inv in Hi. destruct Hi as [_ Hz]. rewrite Hz.
      cbn [map list_sum fold_right]. unfold bhw, channels.
      rewrite Hsc. cbn [size]. eq_shape.
    + apply cat1_Ret_inv in Hi_. destruct Hi_ as [_ Hz]. rewrite Hz.
      cbn [map list_sum fold_right]. unfold bhw, channels.
      rewrite Hsc. cbn [size]. eq_shape.
Qed.
End ForwardPassErrors.

(** One resampling: the second draw repeats the key, the third differs. *)
Lemma sample_keys_first_differing_example :
  sample_keys 1 two_then_false 0 1 = Ret ([true], [false], 3).
Proof.
  apply (sample_keys_first_differing two_then_false 0 1 1 1).
  - intros j Hj. assert (j = 1) by lia. subst j. reflexivity.
  - cbn. discriminate.
  - lia.
Defined.

Lemma forward_pass_preconditions_example :
  forward_pass 0 alternating 0 image_4x4 (one_pixel 2) (constant_net 3)
    (constant_net 9) zero_criterion true None
  = Raise (AssertionError
             "Shape of cover and secret images are expected to be the same!").
Proof.
  apply (forward_pass_preconditions 0 alternating 0 image_4x4 (one_pixel 2)
           (constant_net 3) (constant_net 9) zero_criterion true None 1 1 1 1
           eq_refl).
  left. cbn. discriminate.
Defined.

Lemma forward_pass_Enet_unbound_example :
  forward_pass 0 alternating 0 (one_pixel 7) (one_pixel 2) (constant_net 3)
    (constant_net 9) zero_criterion true (Some tt)
  = Raise (UnboundLocalError "red_key").
Proof.
  apply (forward_pass_Enet_unbound 0 alternating 0 (one_pixel 7) (one_pixel 2)
           (constant_net 3) (constant_net 9) zero_criterion true tt 1 1 1
           ([true], [false], 2));
    reflexivity.
Defined.

Lemma forward_pass_channels_example :
  exists out pos' i,
    forward_pass 0 alternating 0 (one_pixel 7) (one_pixel 2)
      (constant_net 3) (constant_net 9) zero_criterion false None
    = Ret (out, pos')
    /\ constant_net 9 i = Ret (rev_secret out)
    /\ exists cc, size i = (1, cc + 1, 1, 1).
Proof.
  assert (E : forward_pass 0 alternating 0 (one_pixel 7) (one_pixel 2)
                (constant_net 3) (constant_net 9) zero_criterion false None
              = Ret (mkForward (one_pixel 2) (one_pixel 5) (one_pixel 7)
                       (one_pixel 9) (one_pixel 9) 0%Z 0%Z 0%Z 765%Z 510%Z 2295%Z,
                     2))
    by (vm_compute; reflexivity).
  destruct (forward_pass_channels _ _ _ _ _ _ _ _ _ _ _ 1 1 1 1 E eq_refl)
    as (_ & H_input & i & i_ & cc & _ & _ & _ & HR & Hi & _).
  eexists _, _, i. split; [exact E|]. split; [exact HR|]. exists cc. exact Hi.
Defined.

(** ** The binarised MD5 key *)

Lemma digits_value_app l d :
  digits_value (l ++ [d]) = (2 * digits_value l + (if d then 1 else 0))%N.
Proof. unfold digits_value. now rewrite fold_left_app. Qed.

Lemma pos_digits_value p : digits_value (pos_digits p) = Npos p.
Proof.
  induction p as [q IH|q IH|]; cbn [pos_digits];
    rewrite ?digits_value_app, ?IH; try reflexivity; lia.
Qed.

Lemma pos_digits_length p k :
  (Npos p < 2 ^ N.of_nat k)%N -> length (pos_digits p) <= k.
Proof.
  revert k. induction p as [q IH|q IH|]; intros k Hlt; cbn [pos_digits];
    rewrite ?length_app; cbn [length].
  - destruct k as [|k]; [cbn in Hlt; lia|].
    rewrite Nat2N.inj_succ, N.pow_succ_r' in Hlt.
    specialize (IH k). lia.
  - destruct k as [|k]; [cbn in Hlt; lia|].
    rewrite Nat2N.inj_succ, N.pow_succ_r' in Hlt.
    specialize (IH k). lia.
  - destruct k as [|k]; [cbn in Hlt; lia|]. lia.
Qed.

Lemma digits_value_zeros n l :
  digits_value (repeat false n ++ l) = digits_value l.
Proof.
  induction n as [|n IH]; [reflexivity|].
  unfold digits_value in *. cbn [repeat app fold_left]. exact IH.
Qed.

Lemma format_08b_byte n :
  (n < 256)%N ->
  length (format_08b n) = 8 /\ digits_value (format_08b n) = n.
Proof.
  intros Hn. unfold format_08b. rewrite digits_value_zeros.
  assert (Hl : length (format_b n) <= 8 /\ digits_value (format_b n) = n).
  { destruct n as [|p]; cbn [format_b].
    - split; [cbn; lia | reflexivity].
    - split; [apply pos_digits_length; exact Hn | apply pos_digits_value]. }
  destruct Hl as [Hl Hv]. split; [|exact Hv].
  rewrite length_app, repeat_length. lia.
Qed.

Lemma firstn_length_app {A : Type} (l r : list A) :
  firstn (length l) (l ++ r) = l.
Proof. induction l as [|a l IH]; cbn; [reflexivity | now rewrite IH]. Qed.

Lemma skipn_length_app {A : Type} (l r : list A) :
  skipn (length l) (l ++ r) = r.
Proof. induction l as [|a l IH]; cbn; [reflexivity | exact IH]. Qed.

Lemma chunks_concat {A : Type} (n : nat) (ls : list (list A)) :
  Forall (fun l => length l = n) ls ->
  chunks n (length ls) (concat ls) = ls.
Proof.
  induction 1 as [|l ls Hl _ IH]; [reflexivity|].
  cbn [length concat chunks]. rewrite <- Hl at 1 3.
  rewrite firstn_length_app, skipn_length_app. now rewrite IH.
Qed.

(** For a digest of 16 byte values the key tensor has 128 entries, each
    the float of a binary digit, and every group of 8 digits spells one
    digest byte, most significant digit first: the digest can be read
    back from the tensor. *)
Theorem md5_binarizes {R : Type} `{Scalar R} (digest : string -> list N) key :
  length (digest key) = 16 ->
  Forall (fun byte => (byte < 256)%N) (digest key) ->
  exists binary_key,
    md5 digest key = key_tensor binary_key
    /\ length (md5 (R := R) digest key) = 128
    /\ length binary_key = 128
    /\ map digits_value (chunks 8 16 binary_key) = digest key.
Proof.
  intros Hlen Hbytes. unfold md5.
  exists (concat (map format_08b (digest key))).
  assert (Hall : Forall (fun l => length l = 8) (map format_08b (digest key))).
  { apply Forall_map. eapply Forall_impl; [|exact Hbytes].
    intros n Hn. now apply format_08b_byte. }
  assert (Hc : length (concat (map format_08b (digest key))) = 128).
  { clear Hbytes. revert Hall. rewrite <- (length_map format_08b) in Hlen.
    generalize dependent (map format_08b (digest key)). intros ls Hls Hall.
    rewrite length_concat.
    assert (Hs : list_sum (map (@length bool) ls) = 8 * length ls).
    { clear Hls. induction Hall as [|l ls' Hl _ IH]; [reflexivity|].
      change (list_sum (map (@length bool) (l :: ls')))
        with (length l + list_sum (map (@length bool) ls')).
      rewrite IH, Hl. cbn [length]. lia. }
    rewrite Hs, Hls. reflexivity. }
  split; [reflexivity|]. split; [|split; [exact Hc|]].
  - unfold key_tensor. now rewrite length_map.
  - rewrite <- Hlen, <- (length_map format_08b), chunks_concat by exact Hall.
    rewrite map_map. rewrite <- (map_id (digest key)) at 2.
    apply map_ext_Forall. eapply Forall_impl; [|exact Hbytes].
    intros n Hn. now apply format_08b_byte.
Qed.

Lemma md5_binarizes_example :
  exists binary_key,
    md5 (R := Z) sample_digest "secret" = key_tensor binary_key
    /\ length (md5 (R := Z) sample_digest "secret") = 128
    /\ length binary_key = 128
    /\ map digits_value (chunks 8 16 binary_key) = sample_digest "secret".
Proof.
  apply (md5_binarizes (R := Z) sample_digest "secret").
  - reflexivity.
  - unfold sample_digest. apply Forall_map, Forall_forall.
    intros i Hi. apply in_seq in Hi. lia.
Defined.

(** ** The learning-rate schedule *)

Section LearningRateFacts.
Context {R : Type} `{Scalar R} {A : Type}.
Implicit Types (groups : list (param_group R A)).

Lemma adjust_learning_rate_int opt_lr freq rnp groups epoch d :
  (freq <> 0)%Z -> (0 <= epoch / freq)%Z -> (d ^ (epoch / freq) <> 0)%Z ->
  adjust_learning_rate opt_lr freq rnp groups epoch d
  = Ret (map (fun g => mkGroup
                         (smul opt_lr (sdiv (sint 1) (sint (d ^ (epoch / freq)))))
                         (other g)) groups).
Proof.
  intros Hf Hk Hd. unfold adjust_learning_rate, decay_factor.
  destruct (Z.eqb_spec freq 0); [contradiction|]. cbn [bind].
  destruct (Z.leb_spec 0 (epoch / freq)); [|lia].
  destruct (Z.eqb_spec (d ^ (epoch / freq)) 0); [contradiction|].
  reflexivity.
Qed.

(** Step decay: for a positive decay frequency and a non-zero
    decay_num, every group gets opt.lr * (1 / D) with the integer
    divisor D = decay_num ** (epoch // lr_decay_freq); the other entries
    and the number of groups are unchanged, the same learning rate is set
    throughout a window of lr_decay_freq epochs, and one window later the
    divisor is decay_num * D. *)
Theorem adjust_learning_rate_step_decay opt_lr freq rnp groups epoch d :
  (0 < freq)%Z -> (0 <= epoch)%Z -> d <> 0%Z ->
  let D := (d ^ (epoch / freq))%Z in
  let with_lr v := map (fun g => mkGroup v (other g)) groups in
  adjust_learning_rate opt_lr freq rnp groups epoch d
  = Ret (with_lr (smul opt_lr (sdiv (sint 1) (sint D))))
  /\ adjust_learning_rate opt_lr freq rnp groups (epoch + freq) d
     = Ret (with_lr (smul opt_lr (sdiv (sint 1) (sint (d * D)))))
  /\ (forall epoch',
        (freq * (epoch / freq) <= epoch' < freq * (epoch / freq) + freq)%Z ->
        adjust_learning_rate opt_lr freq rnp groups epoch' d
        = adjust_learning_rate opt_lr freq rnp groups epoch d)
  /\ length (with_lr (smul opt_lr (sdiv (sint 1) (sint D)))) = length groups
  /\ map other (with_lr (smul opt_lr (sdiv (sint 1) (sint D)))) = map other groups.
Proof.
  intros Hf He Hd D with_lr.
  assert (Hk : (0 <= epoch / freq)%Z) by (apply Z.div_pos; lia).
  assert (Hp : forall k, (0 <= k)%Z -> (d ^ k <> 0)%Z)
    by (intros k Hk0; apply Z.pow_nonzero; lia).
  split; [|split; [|split; [|split]]].
  - apply adjust_learning_rate_int; auto; lia.
  - assert (Hq : ((epoch + freq) / freq = epoch / freq + 1)%Z).
    { replace (epoch + freq)%Z with (epoch + 1 * freq)%Z by lia.
      apply Z.div_add. lia. }
    rewrite adjust_learning_rate_int; rewrite ?Hq; auto; try lia.
    + unfold with_lr, D.
      replace (d ^ (epoch / freq + 1))%Z with (d * d ^ (epoch / freq))%Z
        by (rewrite Z.pow_add_r, Z.pow_1_r by lia; lia).
      reflexivity.
    + apply Hp. lia.
  - intros epoch' Hw.
    assert (Hq : (epoch' / freq = epoch / freq)%Z).
    { symmetry. apply (Z.div_unique_pos epoch' freq (epoch / freq)
                         (epoch' - freq * (epoch / freq))); lia. }
    unfold adjust_learning_rate. now rewrite Hq.
  - unfold with_lr. apply length_map.
  - unfold with_lr. rewrite map_map. reflexivity.
Qed.

(** The update divides by zero when lr_decay_freq is 0, and, for
    decay_num = 0, from the epoch lr_decay_freq on (0 ** 0 is 1 during
    the first window). *)
Theorem adjust_learning_rate_zero_division opt_lr freq rnp groups epoch d :
  freq = 0%Z \/ (d = 0%Z /\ (0 < freq <= epoch)%Z) ->
  adjust_learning_rate opt_lr freq rnp groups epoch d = Raise ZeroDivisionError.
Proof.
  intros [-> | (-> & Hf)]; [reflexivity|].
  unfold adjust_learning_rate, decay_factor.
  destruct (Z.eqb_spec freq 0); [lia|]. cbn [bind].
  assert (Hk : (1 <= epoch / freq)%Z)
    by (apply Z.div_le_lower_bound; lia).
  destruct (Z.leb_spec 0 (epoch / freq)); [|lia].
  rewrite Z.pow_0_l by lia. reflexivity.
Qed.

End LearningRateFacts.

Lemma adjust_learning_rate_step_decay_example :
  adjust_learning_rate 8%Z 30 no_float_pow two_groups 45 2
  = Ret [mkGroup (8 * (1 / 2 ^ (45 / 30)))%Z "hiding";
         mkGroup (8 * (1 / 2 ^ (45 / 30)))%Z "reveal"]
  /\ adjust_learning_rate 8%Z 30 no_float_pow two_groups (45 + 30) 2
     = Ret [mkGroup (8 * (1 / (2 * 2 ^ (45 / 30))))%Z "hiding";
            mkGroup (8 * (1 / (2 * 2 ^ (45 / 30))))%Z "reveal"].
Proof.
  destruct (adjust_learning_rate_step_decay (R := Z) 8%Z 30 no_float_pow
              two_groups 45 2 ltac:(lia) ltac:(lia) ltac:(lia))
    as (H1 & H2 & _).
  split; [exact H1 | exact H2].
Defined.

Lemma adjust_learning_rate_zero_division_example :
  adjust_learning_rate 8%Z 30 no_float_pow two_groups 30 0
  = Raise ZeroDivisionError.
Proof.
  apply (adjust_learning_rate_zero_division (R := Z) 8%Z 30 no_float_pow
           two_groups 30 0).
  right. lia.
Defined.

(** ** Checkpoints: the running minimum and the file written *)

Section CheckpointFacts.
Context {R : Type} `{Scalar R}.
Variable flt : R -> R -> bool.

Lemma checkpoint_epochs_files save_path :
  forall vals MIN0 epoch MIN saved,
    checkpoint_epochs flt save_path MIN0 epoch vals = (MIN, saved) ->
    map snd saved = seq (epoch + 1) (length vals)
    /\ ((MIN = MIN0 /\ Forall (is_newest save_path) saved)
        \/ exists e val,
             nth_error vals e = Some val /\ sum_diff_of val = MIN
             /\ nth_error saved e
                = Some (save_checkpoint true save_path, epoch + e + 1)
             /\ forall e' w, e < e' -> nth_error saved e' = Some w ->
                  is_newest save_path w).
Proof.
  induction vals as [|val vals IH]; intros MIN0 epoch MIN saved E.
  - cbn in E. injection E as <- <-. split; [reflexivity|].
    left. split; [reflexivity | constructor].
  - cbn [checkpoint_epochs] in E. unfold checkpoint_epoch in E.
    set (s := sum_diff_of val) in *.
    destruct (checkpoint_epochs flt save_path (py_min flt MIN0 s) (S epoch) vals)
      as [MIN1 rest] eqn:Er.
    injection E as <- <-.
    destruct (IH _ _ _ _ Er) as (Hseq & Hlast).
    split.
    + cbn [map snd length seq]. rewrite Hseq.
      replace (S epoch + 1) with (S (epoch + 1)) by lia. reflexivity.
    + destruct Hlast as [[-> Hnew]|(e & val' & Hv & Hsum & Hw & Hafter)].
      * unfold py_min. destruct (flt s MIN0) eqn:Es.
        -- right. exists 0, val. cbn [nth_error].
           split; [reflexivity|]. split; [reflexivity|].
           split; [now rewrite Nat.add_0_r|].
           intros e' w He' Hn. destruct e' as [|e']; [lia|]. cbn [nth_error] in Hn.
           rewrite Forall_forall in Hnew. apply Hnew.
           eapply nth_error_In; exact Hn.
        -- left. split; [reflexivity|]. constructor; [reflexivity | exact Hnew].
      * right. exists (S e), val'. cbn [nth_error].
        split; [exact Hv|]. split; [exact Hsum|].
        split; [rewrite Hw; do 2 f_equal; lia|].
        intros e' w He' Hn. destruct e' as [|e']; [lia|]. cbn [nth_error] in Hn.
        apply (Hafter e' w); [lia | exact Hn].
Qed.

(** One checkpoint is written per epoch, with the entry 'epoch' one
    above the epoch's index.  Either no epoch improved on the initial
    MIN_LOSS, which is then unchanged, and every write went to
    checkpoint_newest; or checkpoint_best was last written at an epoch
    whose summed difference is the final MIN_LOSS, and every later epoch
    wrote checkpoint_newest. *)
Theorem train_best_checkpoint_holds_minimum (save_path : string) (MIN0 : R)
    (vals : list (R * R * R)) :
  let MIN := fst (checkpoint_epochs flt save_path MIN0 0 vals) in
  let saved := snd (checkpoint_epochs flt save_path MIN0 0 vals) in
  map snd saved = seq 1 (length vals)
  /\ ((MIN = MIN0 /\ Forall (is_newest save_path) saved)
      \/ exists e val,
           nth_error vals e = Some val /\ sum_diff_of val = MIN
           /\ nth_error saved e = Some (save_checkpoint true save_path, e + 1)
           /\ forall e' w, e < e' -> nth_error saved e' = Some w ->
                is_newest save_path w).
Proof.
  intros MIN saved.
  destruct (checkpoint_epochs_files save_path vals MIN0 0 MIN saved)
    as (Hseq & Hlast).
  { subst MIN saved. now destruct (checkpoint_epochs flt save_path MIN0 0 vals). }
  split; [exact Hseq | exact Hlast].
Qed.

Hypothesis flt_irrefl : forall a, flt a a = false.
Hypothesis flt_trans :
  forall a b c, flt a b = true -> flt b c = true -> flt a c = true.

Lemma py_min_lower (m s x : R) :
  flt x m = false -> flt x (py_min flt m s) = false.
Proof.
  intros Hx. unfold py_min. destruct (flt s m) eqn:Es; [|exact Hx].
  destruct (flt x s) eqn:Exs; [|reflexivity].
  rewrite (flt_trans x s m Exs Es) in Hx. discriminate.
Qed.

Lemma checkpoint_epochs_lower save_path :
  forall vals MIN0 epoch,
    let MIN := fst (checkpoint_epochs flt save_path MIN0 epoch vals) in
    (forall x, flt x MIN0 = false -> flt x MIN = false)
    /\ Forall (fun val => flt (sum_diff_of val) MIN = false) vals.
Proof.
  induction vals as [|val vals IH]; intros MIN0 epoch; cbn zeta.
  - cbn. split; [auto | constructor].
  - cbn [checkpoint_epochs]. unfold checkpoint_epoch.
    set (s := sum_diff_of val).
    specialize (IH (py_min flt MIN0 s) (S epoch)). cbn zeta in IH.
    destruct (checkpoint_epochs flt save_path (py_min flt MIN0 s) (S epoch) vals)
      as [MIN1 rest].
    cbn [fst] in *. destruct IH as [Hmono Hall].
    split.
    + intros x Hx. apply Hmono, py_min_lower, Hx.
    + constructor; [|exact Hall].
      apply Hmono. unfold py_min.
      destruct (flt s MIN0) eqn:Es; [apply flt_irrefl | exact Es].
Qed.

(** When [<] on the summed differences is irreflexive and transitive (as
    it is on floats, a NaN included), the MIN_LOSS left by [train] is a
    minimum: it is the initial value or one epoch's summed difference,
    and neither the initial value nor any epoch's summed difference is
    below it. *)
Theorem train_min_loss_is_minimum (save_path : string) (MIN0 : R)
    (vals : list (R * R * R)) :
  let MIN := fst (checkpoint_epochs flt save_path MIN0 0 vals) in
  (MIN = MIN0 \/ In MIN (map sum_diff_of vals))
  /\ flt MIN0 MIN = false
  /\ Forall (fun val => flt (sum_diff_of val) MIN = false) vals.
Proof.
  intros MIN.
  destruct (checkpoint_epochs_lower save_path vals MIN0 0) as [Hmono Hall].
  fold MIN in Hmono, Hall.
  split; [|split; [apply Hmono, flt_irrefl | exact Hall]].
  destruct (checkpoint_epochs_files save_path vals MIN0 0 MIN
              (snd (checkpoint_epochs flt save_path MIN0 0 vals)))
    as (_ & [[-> _]|(e & val & Hv & Hsum & _)]).
  { subst MIN. now destruct (checkpoint_epochs flt save_path MIN0 0 vals). }
  - now left.
  - right. rewrite <- Hsum. apply in_map. eapply nth_error_In; exact Hv.
Qed.

End CheckpointFacts.

Lemma train_min_loss_is_minimum_example :
  let MIN := fst (checkpoint_epochs Z.ltb "ckpt" 100%Z 0 four_epochs) in
  (MIN = 100%Z \/ In MIN (map sum_diff_of four_epochs))
  /\ (100 <? MIN)%Z = false
  /\ Forall (fun val => (sum_diff_of val <? MIN)%Z = false) four_epochs.
Proof.
  apply (train_min_loss_is_minimum (R := Z) Z.ltb).
  - intros a. apply Z.ltb_irrefl.
  - intros a b c Hab Hbc. apply Z.ltb_lt in Hab, Hbc. apply Z.ltb_lt. lia.
Defined.

(** ** The loop over the training batches *)

Section TrainLoopFacts.
Context {R : Type} `{Scalar R}.
Variable opt : options R.
Variable lopt : loop_options.
Variable fuel : nat.
Variable rnd : rng.
Variable Hnet Rnet : Tensor4 R -> outcome (Tensor4 R).
Variable criterion : Tensor4 R -> Tensor4 R -> outcome R.
Variable cover_dependent : bool.

Lemma train_iteration_events st secret cover out st' :
  train_iteration opt fuel rnd st secret cover Hnet Rnet criterion
    cover_dependent = Ret (out, st') ->
  length (events st') = length (events st) + 3.
Proof.
  unfold train_iteration. intros E.
  destruct (forward_pass fuel rnd (rng_pos st) secret cover Hnet Rnet criterion
              cover_dependent None) as [[o p]| |]; cbn [bind] in E;
    try discriminate.
  repeat match type of E with
         | bind ?m _ = _ => destruct m; cbn [bind] in E; try discriminate
         end.
  injection E as _ <-. cbn [events]. rewrite length_app. reflexivity.
Qed.

(** With a batch size of 0 the first update of a fresh meter divides by
    zero: the iteration stops before the summed loss is built, and
    nothing is handed to backward. *)
Lemma train_iteration_batch_size_zero events0 pos secret cover out pos' :
  batch_size opt = 0%Z ->
  forward_pass fuel rnd pos secret cover Hnet Rnet criterion cover_dependent
    None = Ret (out, pos') ->
  train_iteration opt fuel rnd (new_meters events0 pos) secret cover Hnet Rnet
    criterion cover_dependent = Raise ZeroDivisionError.
Proof.
  intros Hb E. unfold train_iteration. cbn [new_meters rng_pos].
  rewrite E. cbn [bind Hlosses]. unfold AverageMeter_update.
  rewrite Hb. reflexivity.
Qed.

Lemma py_mod_is_zero_returns i n b :
  py_mod_is_zero i n = Ret b -> n <> 0%Z.
Proof.
  unfold py_mod_is_zero. destruct (n =? 0)%Z eqn:E; [discriminate|].
  intros _. apply Z.eqb_neq, E.
Qed.

Lemma train_loop_count epoch :
  forall train_loader i st log locals st' log' locals',
    train_loop opt lopt fuel rnd Hnet Rnet criterion cover_dependent
      epoch i st log locals train_loader = Ret (st', log', locals') ->
    let k := iterations_from lopt i (length train_loader) in
    length (events st') = length (events st) + 3 * k
    /\ (k = 0 -> st' = st /\ log' = log /\ locals' = locals)
    /\ (0 < k -> exists out,
          locals' = Some (batch_size opt, out, (i + Z.of_nat k - 1)%Z)).
Proof.
  induction train_loader as [|[secret cover] rest IH];
    intros i st log locals st' log' locals' E k.
  - cbn in E. injection E as <- <- <-.
    assert (k = 0) as ->.
    { subst k. unfold iterations_from. cbn [length].
      destruct (_ && _)%bool eqn:C; [|reflexivity].
      apply andb_prop in C. destruct C as [C1 C2].
      apply Z.leb_le in C1. apply Z.ltb_lt in C2. lia. }
    split; [lia|]. split; [auto | lia].
  - cbn [train_loop] in E.
    destruct (train_iteration opt fuel rnd st secret cover Hnet Rnet criterion
                cover_dependent) as [[out st1]| |] eqn:Eit;
      cbn [bind] in E; try discriminate.
    apply train_iteration_events in Eit.
    destruct (py_mod_is_zero i (log_freq lopt)) as [printed| |];
      cbn [bind] in E; try discriminate.
    match type of E with
    | bind ?m _ = _ => destruct m as [log1| |]; cbn [bind] in E;
                       try discriminate
    end.
    destruct (i =? iters_per_epoch lopt)%Z eqn:Ei.
    + apply Z.eqb_eq in Ei. injection E as <- <- <-.
      assert (k = 1) as ->.
      { subst k. unfold iterations_from. cbn [length]. rewrite <- Ei.
        replace ((i <=? i) && (i <? i + Z.of_nat (S (length rest))))%Z
          with true; [lia|].
        symmetry. apply andb_true_intro.
        split; [apply Z.leb_le | apply Z.ltb_lt]; lia. }
      split; [lia|]. split; [lia|].
      intros _. exists out. do 2 f_equal. lia.
    + apply Z.eqb_neq in Ei.
      destruct (IH _ _ _ _ _ _ _ E) as (Hev & Hsame & Hpos).
      set (k' := iterations_from lopt (i + 1) (length rest)) in *.
      assert (Hk : k = S k').
      { subst k k'. unfold iterations_from. cbn [length].
        replace ((i + 1 <=? iters_per_epoch lopt)
                 && (iters_per_epoch lopt <? i + 1 + Z.of_nat (length rest)))%Z
          with ((i <=? iters_per_epoch lopt)
                && (iters_per_epoch lopt <? i + Z.of_nat (S (length rest))))%Z.
        - destruct (_ && _)%bool eqn:C; [|reflexivity].
          apply andb_prop in C. destruct C as [C1 C2].
          apply Z.leb_le in C1. apply Z.ltb_lt in C2. lia.
        - f_equal.
          + destruct (Z.leb_spec i (iters_per_epoch lopt));
              destruct (Z.leb_spec (i + 1) (iters_per_epoch lopt)); lia.
          + destruct (Z.ltb_spec (iters_per_epoch lopt)
                        (i + Z.of_nat (S (length rest))));
              destruct (Z.ltb_spec (iters_per_epoch lopt)
                          (i + 1 + Z.of_nat (length rest))); lia. }
      rewrite Hk. split; [lia|]. split; [lia|].
      intros _. destruct (Nat.eq_dec k' 0) as [Hz|Hnz].
      * destruct (Hsame Hz) as (_ & _ & ->). exists out.
        do 2 f_equal. lia.
      * destruct (Hpos ltac:(lia)) as [out' ->]. exists out'.
        do 2 f_equal. lia.
Qed.


(** With a batch size other than 0 (the meters divide by its multiples),
    an epoch that returns has run [iters_per_epoch] iterations when the
    zipped loaders hold that many batches and [iters_per_epoch] is at
    least 1, and one iteration per zipped batch otherwise: the shorter
    loader truncates the epoch, and an [iters_per_epoch] of 0 or less
    never stops it.  Each iteration is one optimizer step; the picture
    saved after the loop is the last iteration's, and with no iteration
    it is the one kept from an earlier epoch. *)
Theorem train_epoch_iterations (epoch : Z) (events0 : list (optim_event R))
    (pos : nat) (locals : loop_locals R) (secrets covers : list (Tensor4 R))
    (st : train_state R) (log : list (loop_event R)) (locals' : loop_locals R) :
  batch_size opt <> 0%Z ->
  train_epoch_loop opt lopt fuel rnd Hnet Rnet criterion cover_dependent
    epoch events0 pos locals secrets covers = Ret (st, log, locals') ->
  let n := Z.of_nat (Nat.min (length secrets) (length covers)) in
  let k := if ((1 <=? iters_per_epoch lopt) && (iters_per_epoch lopt <=? n))%Z
           then iters_per_epoch lopt else n in
  Z.of_nat (length (events st)) = (Z.of_nat (length events0) + 3 * k)%Z
  /\ ((0 < k)%Z -> exists out log0,
        locals' = Some (batch_size opt, out, k)
        /\ log = log0 ++ [SaveResultPic (batch_size opt) out epoch k])
  /\ (k = 0%Z -> exists b out i,
        locals = Some (b, out, i) /\ locals' = locals
        /\ st = new_meters events0 pos
        /\ log = [SaveResultPic b out epoch i]).
Proof.
  intros _ E n k. unfold train_epoch_loop in E.
  destruct (train_loop opt lopt fuel rnd Hnet Rnet criterion cover_dependent
              epoch 1 (new_meters events0 pos) [] locals
              (combine secrets covers)) as [[[st1 log1] locals1]| |] eqn:El;
    cbn [bind] in E; try discriminate.
  destruct locals1 as [[[b out] i]|]; cbn [unbound bind] in E; try discriminate.
  injection E as <- <- <-.
  destruct (train_loop_count _ _ _ _ _ _ _ _ _ El) as (Hev & Hsame & Hpos).
  rewrite length_combine in Hev, Hsame, Hpos.
  set (k' := iterations_from lopt 1 (Nat.min (length secrets) (length covers)))
    in *.
  assert (Hk : k = Z.of_nat k').
  { subst k k'. unfold iterations_from. fold n.
    replace (iters_per_epoch lopt <? 1 + n)%Z
      with (iters_per_epoch lopt <=? n)%Z.
    - destruct (_ && _)%bool eqn:C; [|reflexivity].
      apply andb_prop in C. destruct C as [C1 C2].
      apply Z.leb_le in C1. lia.
    - destruct (Z.leb_spec (iters_per_epoch lopt) n);
        destruct (Z.ltb_spec (iters_per_epoch lopt) (1 + n)); lia. }
  cbn [new_meters events] in Hev.
  split; [lia|]. split.
  - intros Hpos'. destruct (Hpos ltac:(lia)) as [out' Eo].
    assert (Eb : b = batch_size opt) by congruence.
    assert (Eout : out = out') by congruence.
    assert (Ei : i = (1 + Z.of_nat k' - 1)%Z) by congruence.
    subst b out. exists out', log1. rewrite Ei.
    replace (1 + Z.of_nat k' - 1)%Z with k by lia. split; reflexivity.
  - intros Hz. destruct (Hsame ltac:(lia)) as (-> & -> & <-).
    exists b, out, i. repeat split.
Qed.

(** A [log_freq] of 0, or in the first epoch a [result_pic_freq] of 0,
    ends the training with a ZeroDivisionError in the first iteration,
    after its optimizer step. *)
Theorem train_epoch_zero_frequency (epoch : Z) (events0 : list (optim_event R))
    (pos : nat) (locals : loop_locals R) (secret cover : Tensor4 R)
    (secrets covers : list (Tensor4 R))
    (out : forward_result R) (st : train_state R) :
  batch_size opt <> 0%Z ->
  train_iteration opt fuel rnd (new_meters events0 pos) secret cover
    Hnet Rnet criterion cover_dependent = Ret (out, st) ->
  log_freq lopt = 0%Z \/ (epoch = 0%Z /\ result_pic_freq lopt = 0%Z) ->
  train_epoch_loop opt lopt fuel rnd Hnet Rnet criterion cover_dependent
    epoch events0 pos locals (secret :: secrets) (cover :: covers)
  = Raise ZeroDivisionError.
Proof.
  intros _ Eit Hz. unfold train_epoch_loop. cbn [combine train_loop].
  rewrite Eit. cbn [bind]. unfold py_mod_is_zero.
  destruct Hz as [->|[-> ->]]; [reflexivity|].
  destruct (log_freq lopt =? 0)%Z; reflexivity.
Qed.

(** When one of the loaders is empty the loop body never runs: in the
    first epoch, where the locals are unbound, [train] stops with an
    UnboundLocalError on [batch_size]; in a later epoch it saves the
    picture of the batch kept from before and goes on with fresh
    meters and no optimizer step. *)
Theorem train_epoch_empty_loader (epoch : Z) (events0 : list (optim_event R))
    (pos : nat) (locals : loop_locals R) (secrets covers : list (Tensor4 R)) :
  secrets = [] \/ covers = [] ->
  train_epoch_loop opt lopt fuel rnd Hnet Rnet criterion cover_dependent
    epoch events0 pos locals secrets covers
  = match locals with
    | None => Raise (UnboundLocalError "batch_size")
    | Some (b, out, i) =>
        Ret (new_meters events0 pos, [SaveResultPic b out epoch i], locals)
    end.
Proof.
  intros Hempty. unfold train_epoch_loop.
  assert (combine secrets covers = []) as ->.
  { destruct Hempty as [-> | ->]; [reflexivity | now destruct secrets]. }
  cbn [train_loop bind].
  destruct locals as [[[b out] i]|]; reflexivity.
Qed.

End TrainLoopFacts.

Lemma train_epoch_iterations_example :
  exists st log locals',
    train_epoch_loop (mkOpt 1%Z 2%Z 3%Z) (mkLoop 2 1 1) 0 alternating
      (constant_net 3) (constant_net 9) zero_criterion false
      0 [] 0 None three_batches three_batches = Ret (st, log, locals')
    /\ Z.of_nat (length (events st)) = (Z.of_nat 0 + 3 * 2)%Z.
Proof.
  assert (E : exists r,
             train_epoch_loop (mkOpt 1%Z 2%Z 3%Z) (mkLoop 2 1 1) 0 alternating
               (constant_net 3) (constant_net 9) zero_criterion false
               0 [] 0 None three_batches three_batches = Ret r)
    by (vm_compute; eexists; reflexivity).
  destruct E as [[[st log] locals'] E].
  exists st, log, locals'. split; [exact E|].
  apply (train_epoch_iterations (mkOpt 1%Z 2%Z 3%Z) (mkLoop 2 1 1) 0 alternating
           (constant_net 3) (constant_net 9) zero_criterion false
           0 [] 0 None three_batches three_batches st log locals');
    [discriminate | exact E].
Defined.

Lemma train_epoch_zero_frequency_example :
  train_epoch_loop (mkOpt 1%Z 2%Z 3%Z) (mkLoop 2 0 1) 0 alternating
    (constant_net 3) (constant_net 9) zero_criterion false
    0 [] 0 None (one_pixel 7 :: three_batches) (one_pixel 2 :: three_batches)
  = Raise ZeroDivisionError.
Proof.
  assert (E : exists r,
             train_iteration (mkOpt 1%Z 2%Z 3%Z) 0 alternating (new_meters [] 0)
               (one_pixel 7) (one_pixel 2) (constant_net 3) (constant_net 9)
               zero_criterion false = Ret r)
    by (vm_compute; eexists; reflexivity).
  destruct E as [[out st] E].
  apply (train_epoch_zero_frequency (mkOpt 1%Z 2%Z 3%Z) (mkLoop 2 0 1) 0
           alternating (constant_net 3) (constant_net 9) zero_criterion false
           0 [] 0 None (one_pixel 7) (one_pixel 2) three_batches three_batches
           out st);
    [discriminate | exact E | left; reflexivity].
Defined.

Lemma train_epoch_empty_loader_example :
  train_epoch_loop (mkOpt 1%Z 2%Z 3%Z) (mkLoop 2 1 1) 0 alternating
    (constant_net 3) (constant_net 9) zero_criterion false
    0 [] 0 None three_batches []
  = Raise (UnboundLocalError "batch_size").
Proof.
  apply (train_epoch_empty_loader (mkOpt 1%Z 2%Z 3%Z) (mkLoop 2 1 1) 0
           alternating (constant_net 3) (constant_net 9) zero_criterion false
           0 [] 0 None three_batches []).
  right. reflexivity.
Defined.

(** ** Validation and test *)

Section InferenceFacts.
Context {R : Type} `{Scalar R}.
Variable opt : options R.
Variable fuel : nat.
Variable rnd : rng.
Variable Hnet Rnet : Tensor4 R -> outcome (Tensor4 R).
Variable criterion : Tensor4 R -> Tensor4 R -> outcome R.
Variable cover_dependent : bool.

(** The meters and the generator position after the loop do not depend
    on the mode, the epoch, the number of pictures or the log so far. *)
Lemma inference_loop_values :
  forall data_loader save_num save_num' mode mode' epoch epoch' i i' m
         log log' pos,
    bind (inference_loop opt fuel rnd Hnet Rnet criterion cover_dependent
       save_num mode epoch i m log pos data_loader)
      (fun '(m, _, pos) => Ret (m, pos))
    = bind (inference_loop opt fuel rnd Hnet Rnet criterion cover_dependent
       save_num' mode' epoch' i' m log' pos data_loader)
        (fun '(m, _, pos) => Ret (m, pos)).
Proof.
  induction data_loader as [|[secret cover] rest IH]; intros; [reflexivity|].
  cbn [inference_loop].
  destruct (forward_pass fuel rnd pos secret cover Hnet Rnet criterion
              cover_dependent None) as [[out pos1]| |]; cbn [bind];
    [|reflexivity|reflexivity].
  repeat match goal with
         | |- context [bind (AverageMeter_update ?a ?v ?n) _] =>
             destruct (AverageMeter_update a v n); cbn [bind];
             [|reflexivity|reflexivity]
         end.
  apply IH.
Qed.

Lemma inference_loop_pictures :
  forall data_loader save_num mode epoch i m log pos m' log' pos',
    inference_loop opt fuel rnd Hnet Rnet criterion cover_dependent
      save_num mode epoch i m log pos data_loader = Ret (m', log', pos') ->
    saved_pictures log'
    = saved_pictures log
      ++ map (fun j => (i + Z.of_nat j)%Z)
           (seq 0 (Z.to_nat (Z.min (save_num - i + 1)
                               (Z.of_nat (length data_loader))))).
Proof.
  induction data_loader as [|[secret cover] rest IH];
    intros save_num mode epoch i m log pos m' log' pos' E.
  - cbn in E. injection E as <- <- <-. cbn [length].
    replace (Z.to_nat (Z.min (save_num - i + 1) (Z.of_nat 0))) with 0 by lia.
    cbn. now rewrite app_nil_r.
  - cbn [inference_loop] in E.
    destruct (forward_pass fuel rnd pos secret cover Hnet Rnet criterion
                cover_dependent None) as [[out pos1]| |]; cbn [bind] in E;
      try discriminate.
    repeat match type of E with
           | bind (AverageMeter_update ?a ?v ?n) _ = _ =>
               destruct (AverageMeter_update a v n); cbn [bind] in E;
               try discriminate
           end.
    apply IH in E. rewrite E. clear E IH.
    replace (save_num - (i + 1) + 1)%Z with (save_num - i)%Z by lia.
    destruct (Z.leb_spec i save_num) as [Hle|Hgt].
    + replace (Z.to_nat (Z.min (save_num - i + 1)
                           (Z.of_nat (length ((secret, cover) :: rest)))))
        with (S (Z.to_nat (Z.min (save_num - i) (Z.of_nat (length rest)))))
        by (cbn [length]; lia).
      cbn [seq map]. rewrite <- seq_shift, map_map.
      replace (i + Z.of_nat 0)%Z with i by lia.
      assert (Hsaved : forall e : inference_event R,
                 saved_pictures [e] = [i] ->
                 saved_pictures (log ++ [e]) = saved_pictures log ++ [i]).
      { intros e He. unfold saved_pictures in *. now rewrite flat_map_app, He. }
      destruct (mode == "test"); rewrite Hsaved by reflexivity;
        rewrite <- app_assoc; cbn [app]; do 2 f_equal;
        apply map_ext; intros j; lia.
    + replace (Z.to_nat (Z.min (save_num - i + 1)
                           (Z.of_nat (length ((secret, cover) :: rest)))))
        with 0 by lia.
      replace (Z.to_nat (Z.min (save_num - i) (Z.of_nat (length rest))))
        with 0 by lia.
      reflexivity.
Qed.

(** Validation and test compute the same six averages and draw the same
    keys: the pass with the fake key is made in both modes, and neither
    the mode, the epoch nor the number of pictures changes what is
    returned. *)
Theorem inference_modes_agree (data_loader : list (Tensor4 R * Tensor4 R))
    (save_num save_num' epoch : Z) (epoch' : option Z) (pos : nat) :
  returned_values (inference opt fuel rnd Hnet Rnet criterion cover_dependent
       data_loader save_num "val" (Some epoch) pos)
  = returned_values (inference opt fuel rnd Hnet Rnet criterion cover_dependent
       data_loader save_num' "test" epoch' pos).
Proof.
  unfold returned_values, inference. cbn [String.eqb Ascii.eqb Bool.eqb orb
    py_assert bind].
  set (fresh := mkInference _ _ _ _ _ _).
  pose proof (inference_loop_values data_loader save_num save_num' "val" "test"
                (Some epoch) epoch' 1%Z 1%Z fresh [] [] pos) as E.
  destruct (inference_loop opt fuel rnd Hnet Rnet criterion cover_dependent
       save_num "val" (Some epoch) 1%Z fresh [] pos data_loader)
    as [[[m1 l1] p1]| |];
    destruct (inference_loop opt fuel rnd Hnet Rnet criterion cover_dependent
       save_num' "test" epoch' 1%Z fresh [] pos data_loader)
      as [[[m2 l2] p2]| |]; cbn [bind] in *; congruence.
Qed.

(** Validation without an epoch (the default) goes through the whole
    loader and then stops with a TypeError at the log line, whenever the
    same call in test mode returns. *)
Theorem inference_val_needs_epoch (data_loader : list (Tensor4 R * Tensor4 R))
    (save_num : Z) (pos : nat) r :
  batch_size opt <> 0%Z ->
  inference opt fuel rnd Hnet Rnet criterion cover_dependent
    data_loader save_num "test" None pos = Ret r ->
  exists msg,
    inference opt fuel rnd Hnet Rnet criterion cover_dependent
    data_loader save_num "val" None pos = Raise (TypeError msg).
Proof.
  intros _.
  unfold inference. cbn [String.eqb Ascii.eqb Bool.eqb orb py_assert bind].
  set (fresh := mkInference _ _ _ _ _ _).
  pose proof (inference_loop_values data_loader save_num save_num "val" "test"
                None None 1%Z 1%Z fresh [] [] pos) as E.
  destruct (inference_loop opt fuel rnd Hnet Rnet criterion cover_dependent
       save_num "val" None 1%Z fresh [] pos data_loader)
    as [[[m1 l1] p1]| |];
    destruct (inference_loop opt fuel rnd Hnet Rnet criterion cover_dependent
       save_num "test" None 1%Z fresh [] pos data_loader)
      as [[[m2 l2] p2]| |]; cbn [bind] in *; try discriminate.
  intros _. eexists. reflexivity.
Qed.

(** A call that returns has saved the pictures of the first [save_num]
    batches, or of all of them when there are fewer, in order; none
    when [save_num] is 0 or less. *)
Theorem inference_saved_pictures (data_loader : list (Tensor4 R * Tensor4 R))
    (save_num : Z) (mode : string) (epoch : option Z) (pos : nat)
    avgs log pos' :
  batch_size opt <> 0%Z ->
  inference opt fuel rnd Hnet Rnet criterion cover_dependent
    data_loader save_num mode epoch pos = Ret (avgs, log, pos') ->
  saved_pictures log
  = map Z.of_nat
      (seq 1 (Z.to_nat (Z.min save_num (Z.of_nat (length data_loader))))).
Proof.
  intros _. unfold inference.
  destruct (py_assert _ _); cbn [bind]; try discriminate.
  destruct (inference_loop opt fuel rnd Hnet Rnet criterion cover_dependent
       save_num mode epoch 1%Z _ [] pos data_loader)
    as [[[m1 l1] p1]| |] eqn:El; cbn [bind]; try discriminate.
  apply inference_loop_pictures in El.
  intros E.
  assert (Hlog : exists line, saved_pictures [line] = [] /\ log = l1 ++ [line]).
  { destruct (mode == "test"); [|destruct epoch]; cbn [bind] in E;
      try discriminate; injection E as _ <- _; eexists;
      (split; [|reflexivity]); reflexivity. }
  destruct Hlog as (line & Hline & ->).
  unfold saved_pictures in *. rewrite flat_map_app, Hline, app_nil_r, El.
  cbn [flat_map app].
  replace (save_num - 1 + 1)%Z with save_num by lia.
  rewrite <- seq_shift, map_map. apply map_ext. intros j. lia.
Qed.

End InferenceFacts.

Lemma inference_val_needs_epoch_example :
  exists msg,
    inference (mkOpt 1%Z 2%Z 3%Z) 0 alternating (constant_net 3)
      (constant_net 9) zero_criterion false three_pairs 1 "val" None 0
    = Raise (TypeError msg).
Proof.
  assert (E : exists r,
             inference (mkOpt 1%Z 2%Z 3%Z) 0 alternating (constant_net 3)
               (constant_net 9) zero_criterion false three_pairs 1 "test"
               None 0 = Ret r)
    by (vm_compute; eexists; reflexivity).
  destruct E as [r E].
  exact (inference_val_needs_epoch (mkOpt 1%Z 2%Z 3%Z) 0 alternating
           (constant_net 3) (constant_net 9) zero_criterion false
           three_pairs 1 0 r ltac:(discriminate) E).
Defined.

Lemma inference_saved_pictures_example :
  exists avgs log pos',
    inference (mkOpt 1%Z 2%Z 3%Z) 0 alternating (constant_net 3)
      (constant_net 9) zero_criterion false three_pairs 2 "val" (Some 4%Z) 0
    = Ret (avgs, log, pos')
    /\ saved_pictures log = [1; 2]%Z.
Proof.
  assert (E : exists r,
             inference (mkOpt 1%Z 2%Z 3%Z) 0 alternating (constant_net 3)
               (constant_net 9) zero_criterion false three_pairs 2 "val"
               (Some 4%Z) 0 = Ret r)
    by (vm_compute; eexists; reflexivity).
  destruct E as [[[avgs log] pos'] E].
  exists avgs, log, pos'. split; [exact E|].
  apply (inference_saved_pictures (mkOpt 1%Z 2%Z 3%Z) 0 alternating
           (constant_net 3) (constant_net 9) zero_criterion false
           three_pairs 2 "val" (Some 4%Z) 0 avgs log pos');
    [discriminate | exact E].
Defined.
